(** * Tamper-proof data store: session store, record store, self-heal read path

    A shallow embedding of the server (app.ts, CacheManager.ts) and of the
    client's session handling (App.tsx), with the properties of the
    specification stated over it.

    Modelling conventions.
    - A JavaScript string is a [string]; each character is one code unit in
      the range U+0000..U+00FF.
    - An [async] function is a computation in the monad [M]: it threads the
      server's world (the Redis store and the entropy already consumed) and
      either returns a value or throws.
    - Redis is a finite map from keys to values with an optional absolute
      expiry, read against a clock; the store itself is taken to be
      reachable, so the only exceptions are the ones JavaScript raises.
    - crypto-js, uuid and the JSON built-in are interfaces ([Library],
      [Uuid], [JSON]): the program is verified against their contracts, and
      reference instances are supplied to run it on concrete inputs.
      [Hex_parse] is written out, since the shape of the initialisation
      vector depends on it.
    - The routes take [req.id] as the [verifyToken] middleware attached it;
      the token itself and the lines written to the console are left out. *)

From Stdlib Require Import ZArith NArith QArith String Ascii List Lia.
From stdpp Require Import base option gmap strings list.

Open Scope string_scope.
Open Scope N_scope.
Set Warnings "-register-all".

(** ** JavaScript values and exceptions *)

Module JS.

(** Values that [JSON.parse] can produce, and [undefined] for a property
    that is not there.  A number keeps its lexeme: the program never
    computes with one. *)
Inductive jsval : Type :=
| JUndefined
| JNull
| JBool (b : bool)
| JNumber (lexeme : string)
| JString (s : string)
| JArray (items : list jsval)
| JObject (fields : list (string * jsval)).

(** What a [throw] carries: an [Error] of the runtime or of a library, or
    the [CacheError] of CacheManager.ts. *)
Inductive thrown : Type :=
| JsError (name message : string)
| CacheError (message : string).

(** [error.message] *)
Definition message_of (e : thrown) : string :=
  match e with
  | JsError _ m => m
  | CacheError m => m
  end.

Inductive outcome (A : Type) : Type :=
| Return (a : A)
| Throw (e : thrown).
Arguments Return {A} a.
Arguments Throw {A} e.

(** What a call into a library gives: a value, or [throw new Error(message)]. *)
Inductive lib_result (A : Type) : Type :=
| Value (a : A)
| Fails (message : string).
Arguments Value {A} a.
Arguments Fails {A} message.

Definition of_lib {A} (r : lib_result A) : outcome A :=
  match r with
  | Value a => Return a
  | Fails m => Throw (JsError "Error" m)
  end.

(** Truthiness of a string: only the empty string is falsy. *)
Definition truthy (s : string) : bool :=
  match s with
  | EmptyString => false
  | String _ _ => true
  end.

(** Truthiness of [string | null] and of [string | undefined]. *)
Definition truthy_opt (o : option string) : bool :=
  match o with
  | Some s => truthy s
  | None => false
  end.

(** [s.slice(0, n)] *)
Definition slice0 (n : nat) (s : string) : string := substring 0 n s.

(** Own property [k] of an object literal read by [JSON.parse]: the last
    binding of a repeated key wins. *)
Fixpoint own_property (k : string) (fields : list (string * jsval)) : option jsval :=
  match fields with
  | [] => None
  | (k', v) :: rest =>
      match own_property k rest with
      | Some w => Some w
      | None => if String.eqb k k' then Some v else None
      end
  end.

(** [v.k] for a key that no prototype defines: a [TypeError] on [null] and
    [undefined], [undefined] on primitives, arrays and objects without it. *)
Definition get_prop (v : jsval) (k : string) : outcome jsval :=
  match v with
  | JNull =>
      Throw (JsError "TypeError" ("Cannot read properties of null (reading '" ++ k ++ "')"))
  | JUndefined =>
      Throw (JsError "TypeError" ("Cannot read properties of undefined (reading '" ++ k ++ "')"))
  | JObject fields => Return (default JUndefined (own_property k fields))
  | _ => Return JUndefined
  end.

(** [a !== v] for a string [a]. *)
Definition strict_neq_string (a : string) (v : jsval) : bool :=
  match v with
  | JString b => negb (String.eqb a b)
  | _ => true
  end.

(** *** 32-bit integer operators *)

Definition toInt32 (z : Z) : Z := ((z + 2 ^ 31) mod 2 ^ 32 - 2 ^ 31)%Z.

(** [a << n] *)
Definition shl32 (a n : Z) : Z := toInt32 (Z.shiftl (toInt32 a) (n mod 32)%Z).

(** [a | b] *)
Definition or32 (a b : Z) : Z := toInt32 (Z.lor (toInt32 a) (toInt32 b)).

(** *** parseInt(s, 16) *)

Definition is_white_space (c : ascii) : bool :=
  let n := N_of_ascii c in
  (n =? 9) || (n =? 10) || (n =? 11) || (n =? 12) || (n =? 13) || (n =? 32) || (n =? 160).

Definition hex_digit (c : ascii) : option Z :=
  let n := Z.of_N (N_of_ascii c) in
  if ((48 <=? n) && (n <=? 57))%Z then Some (n - 48)%Z
  else if ((97 <=? n) && (n <=? 102))%Z then Some (n - 87)%Z
  else if ((65 <=? n) && (n <=? 70))%Z then Some (n - 55)%Z
  else None.

Fixpoint trim_start (s : string) : string :=
  match s with
  | String c rest => if is_white_space c then trim_start rest else s
  | EmptyString => s
  end.

(** The digits read so far ([None]: none yet) and the rest of the input. *)
Fixpoint hex_prefix (acc : option Z) (s : string) : option Z :=
  match s with
  | String c rest =>
      match hex_digit c with
      | Some d => hex_prefix (Some (16 * default 0%Z acc + d)%Z) rest
      | None => acc
      end
  | EmptyString => acc
  end.

Definition strip_0x (s : string) : string :=
  match s with
  | String "0" (String "x" rest) => rest
  | String "0" (String "X" rest) => rest
  | _ => s
  end.

(** [None] is [NaN]. *)
Definition parseInt16 (s : string) : option Z :=
  let s := trim_start s in
  let '(sign, s) :=
    match s with
    | String "-" rest => ((-1)%Z, rest)
    | String "+" rest => (1%Z, rest)
    | _ => (1%Z, s)
    end in
  option_map (Z.mul sign) (hex_prefix None (strip_0x s)).

End JS.
Export JS.

(** ** crypto-js *)

Module CryptoJS.

(** [CryptoJS.lib.WordArray]: 32-bit words and the count of significant
    bytes, which [Hex.parse] computes as a JavaScript number (half the
    length of the text, so a fraction for a text of odd length). *)
Record WordArray : Type := { words : list Z; sigBytes : Q }.

(** [hexStr.substr(i, 2)] for i = 0, 2, 4, ... *)
Fixpoint substr2 (hexStr : string) : list string :=
  match hexStr with
  | String a (String b rest) => String a (String b "") :: substr2 rest
  | String a EmptyString => [String a ""]
  | EmptyString => []
  end.

(** [words[j] |= x], on an array filled from index 0 upwards; on a slot not
    yet there, [undefined | x] is [0 | x]. *)
Definition or_word (ws : list Z) (j : nat) (x : Z) : list Z :=
  match ws !! j with
  | Some w => <[j := or32 w x]> ws
  | None => ws ++ [or32 0 x]
  end.

(** The loop of [Hex.parse], from index [i] on:
    [words[i >>> 3] |= parseInt(hexStr.substr(i, 2), 16) << (24 - (i % 8) * 4)];
    [NaN << n] is 0. *)
Fixpoint parse_loop (pairs : list string) (i : nat) (ws : list Z) : list Z :=
  match pairs with
  | [] => ws
  | p :: rest =>
      let byte := default 0%Z (parseInt16 p) in
      let shift := (24 - Z.of_nat (i mod 8) * 4)%Z in
      parse_loop rest (i + 2) (or_word ws (i / 8) (shl32 byte shift))
  end.

(** [CryptoJS.enc.Hex.parse(hexStr)] *)
Definition Hex_parse (hexStr : string) : WordArray :=
  {| words := parse_loop (substr2 hexStr) 0 [];
     sigBytes := Z.of_nat (String.length hexStr) # 2 |}.

(** The bytes a word array stands for: the first [n] bytes of its words,
    most significant byte first. *)
Definition word_bytes (w : Z) : list Z :=
  let u := (w mod 2 ^ 32)%Z in
  [Z.shiftr u 24; Z.land (Z.shiftr u 16) 255; Z.land (Z.shiftr u 8) 255; Z.land u 255]%Z.

Definition bytes_of (n : nat) (ws : list Z) : list Z :=
  take n (concat (map word_bytes ws)).

(** The part of crypto-js the program calls.  Digests are taken in their
    hexadecimal text form, as the program only uses them through
    [toString]. *)
Class Library : Type := {
  (** [CryptoJS.SHA256(m).toString(CryptoJS.enc.Hex)] *)
  SHA256 : string -> string;
  (** [CryptoJS.HmacSHA256(m, key).toString()] *)
  HmacSHA256 : string -> string -> string;
  (** [CryptoJS.AES.encrypt(m, key, { iv }).toString()] on a string [m] *)
  AES_encrypt : string -> WordArray -> WordArray -> string;
  (** the same call on a message that is not a string *)
  AES_encrypt_untyped : jsval -> WordArray -> WordArray -> lib_result string;
  (** [CryptoJS.AES.decrypt(c, key, { iv }).toString(CryptoJS.enc.Utf8)];
      [toString] throws on bytes that are not UTF-8 *)
  AES_decrypt : string -> WordArray -> WordArray -> lib_result string;
  (** the [n]-th [CryptoJS.lib.WordArray.random(32).toString(CryptoJS.enc.Hex)] *)
  WordArray_random : N -> string;
  (** the cipher's contract: decryption inverts encryption under the same
      key and initialisation vector *)
  AES_decrypt_encrypt :
    forall m key iv, AES_decrypt (AES_encrypt m key iv) key iv = Value m
}.

End CryptoJS.
Export CryptoJS.

(** ** The JSON built-in *)

Class JSON : Type := {
  (** [JSON.parse(text)]; it fails with a [SyntaxError] on a text that is
      not JSON *)
  JSON_parse : string -> lib_result jsval;
  (** [JSON.stringify(v)] *)
  JSON_stringify : jsval -> string;
  (** an object of two string fields is read back as it was written *)
  JSON_parse_stringify :
    forall d h,
      let o := JObject [("data", JString d); ("hmac", JString h)] in
      JSON_parse (JSON_stringify o) = Value o;
  (** the empty text is not JSON *)
  JSON_parse_empty : exists message, JSON_parse "" = Fails message
}.

(** ** Redis *)

Module Redis.

(** A key holds a value and, when set with [EX], the time it expires at. *)
Record entry : Type := { value : string; expireAt : option N }.

(** The store and its clock, in seconds. *)
Record redis : Type := { now : N; db : gmap string entry }.

Definition expired (t : N) (e : entry) : bool :=
  match expireAt e with
  | Some d => d <=? t
  | None => false
  end.

(** [GET key]: [None] is the nil reply, for a key that was never set or
    has expired. *)
Definition GET (key : string) (r : redis) : option string :=
  match db r !! key with
  | Some e => if expired (now r) e then None else Some (value e)
  | None => None
  end.

(** [TTL key]: the seconds left, for a live key that has an expiry. *)
Definition TTL (key : string) (r : redis) : option N :=
  match db r !! key with
  | Some e => if expired (now r) e then None else (fun d => d - now r) <$> expireAt e
  | None => None
  end.

(** [SET key value EX seconds] *)
Definition SET_EX (key v : string) (seconds : N) (r : redis) : redis :=
  {| now := now r;
     db := <[key := {| value := v; expireAt := Some (now r + seconds) |}]> (db r) |}.

(** [SET key value], as typed into redis-cli: no expiry. *)
Definition SET (key v : string) (r : redis) : redis :=
  {| now := now r; db := <[key := {| value := v; expireAt := None |}]> (db r) |}.

(** [DEL key] *)
Definition DEL (key : string) (r : redis) : redis :=
  {| now := now r; db := delete key (db r) |}.

(** [MULTI ... EXEC]: the queued commands run one after the other with
    nothing in between. *)
Definition EXEC (queued : list (redis -> redis)) (r : redis) : redis :=
  fold_left (fun acc cmd => cmd acc) queued r.

(** The clock moves on by [seconds]. *)
Definition elapse (seconds : N) (r : redis) : redis :=
  {| now := now r + seconds; db := db r |}.

End Redis.
Export Redis.

(** ** The server's world and its computations *)

(** What a request handler can read and change: the Redis store, and how
    many random values the process has drawn so far. *)
Record server : Type := { cache : redis; drawn : N }.

(** An [async] function: from a world to what it returns or throws, and the
    world it leaves. *)
Definition M (A : Type) : Type := server -> outcome A * server.

#[export] Instance M_ret : MRet M := fun A a w => (Return a, w).

#[export] Instance M_bind : MBind M := fun A B f m w =>
  match m w with
  | (Return a, w') => f a w'
  | (Throw e, w') => (Throw e, w')
  end.

(** [throw e] *)
Definition throw {A} (e : thrown) : M A := fun w => (Throw e, w).

(** [try { body } catch (error) { handler(error) }] *)
Definition try_catch {A} (body : M A) (handler : thrown -> M A) : M A := fun w =>
  match body w with
  | (Return a, w') => (Return a, w')
  | (Throw e, w') => handler e w'
  end.

(** A synchronous call that may throw. *)
Definition call {A} (o : outcome A) : M A := fun w => (o, w).

(** Commands of the Redis client. *)
Definition redisClient_get (key : string) : M (option string) :=
  fun w => (Return (GET key (cache w)), w).

Definition redisClient_set (key v : string) (EX : N) : M unit :=
  fun w => (Return tt, {| cache := SET_EX key v EX (cache w); drawn := drawn w |}).

Definition multi_exec (queued : list (redis -> redis)) : M unit :=
  fun w => (Return tt, {| cache := EXEC queued (cache w); drawn := drawn w |}).

(** The process-wide secret of app.ts, drawn once at start-up. *)
Class ServerProcess : Type := { serverSecret : string }.

(** ** app.ts: key derivation, tags, encryption *)

Module AppCrypto.
Section AppCrypto.
Context `{Library} `{ServerProcess}.

Definition getKey (secret : string) : string := slice0 64 (SHA256 secret).

Definition generateHMAC (data secret : string) : string := HmacSHA256 data secret.

Definition generateServerHMAC (data : string) : string := HmacSHA256 data serverSecret.

(** The initialisation vector both sides hand to the cipher:
    [CryptoJS.enc.Hex.parse(id.slice(0, 16))]. *)
Definition iv_of (id : string) : WordArray := Hex_parse (slice0 16 id).

Definition encryptData (data id secret : string) : string :=
  let key := getKey secret in
  AES_encrypt data (Hex_parse key) (iv_of id).

(** [encryptData] on a [data] that is not a string at run time. *)
Definition encryptData_untyped (data : jsval) (id secret : string) : outcome string :=
  let key := getKey secret in
  match data with
  | JString d => Return (encryptData d id secret)
  | _ => of_lib (AES_encrypt_untyped data (Hex_parse key) (iv_of id))
  end.

Definition decryptData (encryptedData id secret : string) : outcome string :=
  let key := getKey secret in
  of_lib (AES_decrypt encryptedData (Hex_parse key) (iv_of id)).

End AppCrypto.
End AppCrypto.
Export AppCrypto.

(** ** CacheManager.ts *)

Module CacheManager.

Record UserInfo : Type := { id : string; secret : string }.

(** [UserData], as the interface declares it. *)
Record UserData : Type := { ud_id : string; data : string; hmac : string }.

(** What [getUserData] hands back at run time: the fields come out of
    [JSON.parse] and are whatever the stored text holds. *)
Record ParsedUserData : Type := { pd_id : string; pd_data : jsval; pd_hmac : jsval }.

Section CacheManager.
Context `{Library} `{ServerProcess} `{JSON}.

(** [catch (error) { throw new CacheError(error instanceof Error ? error.message : ...) }] *)
Definition rethrow_CacheError {A} (body : M A) : M A :=
  try_catch body (fun error => throw (CacheError (message_of error))).

(** The store is reachable: connecting succeeds. *)
Definition ensureConnected : M unit := mret tt.

Definition userInfo_key (id : string) : string := "userInfo:" ++ id.
Definition userData_key (id : string) : string := "userData:" ++ id.
Definition backup_key (id : string) : string := "backup-userData:" ++ id.

Definition putUserInfo (userInfo : UserInfo) : M unit :=
  rethrow_CacheError (
    ensureConnected;;
    redisClient_set (userInfo_key (id userInfo)) (secret userInfo) (60 * 60)).

Definition putUserData (userData : UserData) : M unit :=
  rethrow_CacheError (
    ensureConnected;;
    let multi :=
      [ SET_EX (userData_key (ud_id userData))
          (JSON_stringify
             (JObject [("data", JString (data userData)); ("hmac", JString (hmac userData))]))
          (60 * 15);
        SET_EX (backup_key (ud_id userData)) (data userData) (60 * 15) ] in
    multi_exec multi).

Definition putBackupUserData (userData : UserData) : M unit :=
  rethrow_CacheError (
    ensureConnected;;
    redisClient_set (backup_key (ud_id userData)) (data userData) (60 * 15)).

Definition getUserInfo (id : string) : M (option UserInfo) :=
  rethrow_CacheError (
    ensureConnected;;
    secret ← redisClient_get (userInfo_key id);
    match secret with
    | Some secret =>
        if truthy secret then
          let userInfo := {| id := id; secret := secret |} in
          putUserInfo userInfo;;
          mret (Some userInfo)
        else mret None
    | None => mret None
    end).

Definition getUserData (id : string) : M (option ParsedUserData) :=
  rethrow_CacheError (
    ensureConnected;;
    data ← redisClient_get (userData_key id);
    match data with
    | Some data =>
        if truthy data then
          match JSON_parse data with
          | Fails message => throw (JsError "SyntaxError" message)
          | Value parsedData =>
              d ← call (get_prop parsedData "data");
              h ← call (get_prop parsedData "hmac");
              mret (Some {| pd_id := id; pd_data := d; pd_hmac := h |})
          end
        else mret None
    | None => mret None
    end).

Definition getBackupUserData (id : string) : M (option string) :=
  rethrow_CacheError (
    ensureConnected;;
    data ← redisClient_get (backup_key id);
    match data with
    | Some data =>
        if truthy data then
          secret ← redisClient_get (userInfo_key id);
          match secret with
          | Some secret =>
              if truthy secret then
                let encryptedData := encryptData data id secret in
                let serverHmac := generateServerHMAC encryptedData in
                let userData := {| ud_id := id; data := data; hmac := serverHmac |} in
                putUserData userData;;
                mret (Some (CacheManager.data userData))
              else mret None
          | None => mret None
          end
        else mret None
    | None => mret None
    end).

End CacheManager.
End CacheManager.
Export CacheManager.

(** ** app.ts: the routes *)

(** The [uuid] package: the [n]-th value the process draws. *)
Class Uuid : Type := { uuidv4 : N -> string }.

Module App.

(** The JSON bodies the routes send. *)
Inductive json_body : Type :=
| Failure_message (message : string)
| Failure_error (error : thrown)
| Service_Unavailable
| Success_message (message : string)
| Success_connected (message id secret : string)
| Success_data (encryptedData hmac : string).

(** A response: status, body, and the identity inside the token cookie when
    one is set. *)
Record response : Type := { status : N; json : json_body; cookie : option string }.

Definition respond (status : N) (b : json_body) : response :=
  {| status := status; json := b; cookie := None |}.

(** The body of [POST /]: [{ data, hmac }], as the client sends it. *)
Record save_body : Type := { body_data : string; body_hmac : string }.

Section App.
Context `{Library} `{ServerProcess} `{JSON} `{Uuid}.

(** The [catch] every route ends with. *)
Definition catch_route (body : M response) : M response :=
  try_catch body (fun error =>
    match error with
    | CacheError _ => mret (respond 503 Service_Unavailable)
    | JsError _ _ => mret (respond 500 (Failure_error error))
    end).

(** Draw the next random value. *)
Definition draw {A} (source : N -> A) : M A :=
  fun w => (Return (source (drawn w)), {| cache := cache w; drawn := drawn w + 1 |}).

(** [GET /connect] *)
Definition connect : M response :=
  catch_route (
    id ← draw uuidv4;
    secret ← draw WordArray_random;
    putUserInfo {| id := id; secret := secret |};;
    mret {| status := 201;
            json := Success_connected "New secret and token created" id secret;
            cookie := Some id |}).

(** [GET /], behind [verifyToken], which attaches [req.id]. *)
Definition get_root (req_id : option string) : M response :=
  catch_route (
    match req_id with
    | Some id =>
      if truthy id then
        userInfo ← getUserInfo id;
        match userInfo with
        | None => mret (respond 400 (Failure_message "Secret missing, please connect again."))
        | Some userInfo =>
            let secret := secret userInfo in
            userData ← getUserData id;
            match userData with
            | None => mret (respond 400 (Failure_message "Data missing, please save data again."))
            | Some userData =>
                let data := pd_data userData in
                let storedHmac := pd_hmac userData in
                encryptedData ← call (encryptData_untyped data id secret);
                let calculatedServerHmac := generateServerHMAC encryptedData in
                let reply encryptedData :=
                  let hmac := generateHMAC encryptedData secret in
                  mret (respond 200 (Success_data encryptedData hmac)) in
                if strict_neq_string calculatedServerHmac storedHmac then
                  backupData ← getBackupUserData id;
                  if negb (truthy_opt backupData) then
                    mret (respond 400 (Failure_message
                      "Data tampered and backup missing, please connect and save data again."))
                  else reply (encryptData (default "" backupData) id secret)
                else reply encryptedData
            end
        end
      else mret (respond 400 (Failure_message "Bad Request."))
    | None => mret (respond 400 (Failure_message "Bad Request."))
    end).

(** [POST /], behind [verifyToken]. *)
Definition post_root (req_id : option string) (body : save_body) : M response :=
  catch_route (
    let encryptedData := body_data body in
    let hmac := body_hmac body in
    match req_id with
    | Some id =>
      if truthy id then
        userInfo ← getUserInfo id;
        match userInfo with
        | None => mret (respond 400 (Failure_message "Secret missing, please connect again."))
        | Some userInfo =>
            let secret := secret userInfo in
            decryptedData ← call (decryptData encryptedData id secret);
            let calculatedHmac := generateHMAC encryptedData secret in
            if negb (String.eqb calculatedHmac hmac) then
              mret (respond 400 (Failure_message "Data integrity compromised."))
            else
              let serverHmac := generateServerHMAC encryptedData in
              putUserData {| ud_id := id; data := decryptedData; hmac := serverHmac |};;
              mret (respond 200 (Success_message "Data Saved"))
        end
      else mret (respond 400 (Failure_message "Bad Request."))
    | None => mret (respond 400 (Failure_message "Bad Request."))
    end).

End App.
End App.
Export App.

(** ** App.tsx: the client's session *)

Module Client.

(** The component's state. *)
Record client : Type := { c_data : string; c_secret : option string; c_id : option string }.

(** The client, the server, and whether each coming [fetch] gets through
    (every one does once the list is used up). *)
Record system : Type := { browser : client; srv : server; network : list bool }.

Section Client.
Context `{Library} `{ServerProcess} `{JSON} `{Uuid}.

(** [getTokenAndSecret(retries)]: on a failed attempt with retries left,
    the next one runs a second later. *)
Fixpoint getTokenAndSecret (retries : nat) (sys : system) : system :=
  let '(delivered, network') :=
    match network sys with
    | [] => (true, [])
    | b :: rest => (b, rest)
    end in
  let '(response, srv') :=
    if delivered then
      match connect (srv sys) with
      | (Return r, w) => (Some r, w)
      | (Throw _, w) => (None, w)
      end
    else (None, srv sys) in
  match response with
  | Some {| json := Success_connected _ id secret |} =>
      {| browser := {| c_data := c_data (browser sys); c_secret := Some secret; c_id := Some id |};
         srv := srv'; network := network' |}
  | _ =>
      let sys' := {| browser := browser sys; srv := srv'; network := network' |} in
      match retries with
      | S retries' =>
          getTokenAndSecret retries'
            {| browser := browser sys';
               srv := {| cache := elapse 1 (cache srv'); drawn := drawn srv' |};
               network := network' |}
      | O => sys'
      end
  end.

(** [clearSecret] *)
Definition clearSecret (sys : system) : system :=
  let cleared := {| c_data := c_data (browser sys); c_secret := None; c_id := None |} in
  getTokenAndSecret 3 {| browser := cleared; srv := srv sys; network := network sys |}.

End Client.
End Client.
Export Client.


(** ** middleware/verification.ts

    The routes above take [req.id] as given.  What follows is the
    middleware that provides it, from the [Cookie] header of the request
    and the token [GET /connect] has signed. *)

(** The [jsonwebtoken] package, for the tokens this server signs: the
    payload of a token is an object whose [id], when it has one, is a
    string. *)
Class JWT : Type := {
  (** [jwt.sign({ id }, JWT_SECRET, { expiresIn: '1h' })], signed at [iat] *)
  jwt_sign : string -> N -> string;
  (** [jwt.verify(token, JWT_SECRET)] at time [now]: the [id] of the decoded
      payload, if it has one; it fails on a token that is not one of ours
      or has expired *)
  jwt_verify : string -> N -> lib_result (option string);
  (** a token is accepted for an hour from its signing *)
  jwt_verify_sign :
    forall id iat now, now < iat + 60 * 60 -> jwt_verify (jwt_sign id iat) now = Value (Some id);
  (** and refused from then on *)
  jwt_verify_expired :
    forall id iat now, iat + 60 * 60 <= now ->
      exists message, jwt_verify (jwt_sign id iat) now = Fails message;
  (** a token is a non-empty text without [;] and [=] *)
  jwt_sign_text :
    forall id iat,
      jwt_sign id iat <> ""
      /\ forallb (fun c => negb (Ascii.eqb c ";" || Ascii.eqb c "="))
           (list_ascii_of_string (jwt_sign id iat)) = true
}.

Module Verification.

(** [s] begins with [sep]. *)
Fixpoint starts_with (sep s : string) : bool :=
  match sep, s with
  | EmptyString, _ => true
  | String a sep', String b s' => Ascii.eqb a b && starts_with sep' s'
  | String _ _, EmptyString => false
  end.

(** The piece of [s] up to the next [sep] and the pieces after it; [skip]
    counts the characters of a separator still to pass over. *)
Fixpoint split_from (sep s : string) (skip : nat) : string * list string :=
  match s with
  | EmptyString => (EmptyString, [])
  | String c rest =>
      match skip with
      | S skip' => split_from sep rest skip'
      | O =>
          if starts_with sep s then
            let '(piece, pieces) := split_from sep rest (String.length sep - 1) in
            (EmptyString, piece :: pieces)
          else
            let '(piece, pieces) := split_from sep rest 0 in
            (String c piece, pieces)
      end
  end.

(** [s.split(sep)] for a separator that is not empty. *)
Definition split (sep s : string) : list string :=
  let '(piece, pieces) := split_from sep s 0 in piece :: pieces.

(** The loop over the cookies: the value of the first one named token;
    [undefined] when that cookie has no [=]; the empty string when there is
    none. *)
Fixpoint first_token (cookies : list string) : jsval :=
  match cookies with
  | [] => JString ""
  | cookie :: rest =>
      match split "=" cookie with
      | name :: after =>
          if String.eqb name "token" then
            match after with
            | value :: _ => JString value
            | [] => JUndefined
            end
          else first_token rest
      | [] => first_token rest
      end
  end.

(** [extractTokenFromCookie(cookieString)]; [None] is [undefined]. *)
Definition extractTokenFromCookie (cookieString : option string) : jsval :=
  match cookieString with
  | None => JNull
  | Some cookieString =>
      let cookies := split "; " cookieString in
      first_token cookies
  end.

(** What the application answers: the 401 of the middleware, or what the
    route behind it answers. *)
Inductive answer : Type :=
| Unauthorized (error : string)
| Routed (r : response).

(** The answer of a route, as the answer of the application. *)
Definition routed (x : outcome response * server) : outcome answer * server :=
  match x with
  | (Return r, w) => (Return (Routed r), w)
  | (Throw e, w) => (Throw e, w)
  end.

Section Verification.
Context `{JWT}.

(** [verifyToken(req, res, next)]: [next] is the route, given [req.id]; the
    process reads the time off the clock of the world. *)
Definition verifyToken (cookie : option string) (next : string -> M response) : M answer :=
  fun w =>
    let token := extractTokenFromCookie cookie in
    match token with
    | JString token =>
        if truthy token then
          match jwt_verify token (now (cache w)) with
          | Value (Some id) =>
              if truthy id then routed (next id w)
              else (Return (Unauthorized "User Not Authorized - Invalid or Expired Token"), w)
          | Value None =>
              (Return (Unauthorized "User Not Authorized - Invalid or Expired Token"), w)
          | Fails _ =>
              (Return (Unauthorized "User Not Authorized - Invalid or Expired Token"), w)
          end
        else (Return (Unauthorized "User Not Authorized - No Token Provided"), w)
    | _ => (Return (Unauthorized "User Not Authorized - No Token Provided"), w)
    end.

End Verification.
End Verification.
Export Verification.

(** ** app.ts: the routes behind the middleware *)

Module Application.
Section Application.
Context `{Library} `{ServerProcess} `{JSON} `{Uuid} `{JWT}.

(** [app.get('/', verifyToken, ...)] *)
Definition app_get_root (cookie : option string) : M answer :=
  verifyToken cookie (fun id => get_root (Some id)).

(** [app.post('/', verifyToken, ...)] *)
Definition app_post_root (cookie : option string) (body : save_body) : M answer :=
  verifyToken cookie (fun id => post_root (Some id) body).

(** [app.get('/connect', ...)]: the response, and the token of the cookie it
    sets, signed for the identity once the secret is stored. *)
Definition app_connect : M (response * option string) := fun w =>
  match connect w with
  | (Return r, w') => (Return (r, (fun id => jwt_sign id (now (cache w'))) <$> cookie r), w')
  | (Throw e, w') => (Throw e, w')
  end.

(** The [Cookie] header a browser sends for the cookies it holds. *)
Fixpoint cookie_header (cookies : list (string * string)) : string :=
  match cookies with
  | [] => ""
  | [(name, value)] => name +:+ "=" +:+ value
  | (name, value) :: rest => (name +:+ "=" +:+ value) +:+ "; " +:+ cookie_header rest
  end.

End Application.
End Application.
Export Application.

(** ** App.tsx: the page

    The component with what surrounds it: the cookie the browser keeps for
    the server, the alerts shown, and the retries [setTimeout] has pending.
    A handler reads [data], [secret] and [id] as they were at the render it
    was created in; what it sets shows at the next render.  Requests are
    served, and their responses handled, in the order they were sent, and
    take no time; the body of a request reaches its route as the page built
    it; the browser, the server and Redis read the same clock. *)

Module Browser.

Record page : Type := {
  (** the component's state, the server and the network *)
  sys : system;
  (** the token cookie: its value and the time it expires at *)
  jar : option (string * N);
  (** the alerts shown so far, oldest first *)
  toasts : list string;
  (** the [retries] of each pending [setTimeout(() => getTokenAndSecret(retries), 1000)] *)
  timers : list nat
}.

Definition on_sys (f : system -> system) (p : page) : page :=
  {| sys := f (sys p); jar := jar p; toasts := toasts p; timers := timers p |}.

Definition on_state (f : client -> client) : page -> page :=
  on_sys (fun s => {| browser := f (browser s); srv := srv s; network := network s |}).

Definition on_server (f : server -> server) : page -> page :=
  on_sys (fun s => {| browser := browser s; srv := f (srv s); network := network s |}).

Definition setData (data : string) : page -> page :=
  on_state (fun c => {| c_data := data; c_secret := c_secret c; c_id := c_id c |}).

Definition setSecret (secret : option string) : page -> page :=
  on_state (fun c => {| c_data := c_data c; c_secret := secret; c_id := c_id c |}).

Definition setId (id : option string) : page -> page :=
  on_state (fun c => {| c_data := c_data c; c_secret := c_secret c; c_id := id |}).

(** [showToast(message)] *)
Definition showToast (message : string) (p : page) : page :=
  {| sys := sys p; jar := jar p; toasts := toasts p ++ [message]; timers := timers p |}.

(** [setTimeout(() => getTokenAndSecret(retries), 1000)] *)
Definition setTimeout (retries : nat) (p : page) : page :=
  {| sys := sys p; jar := jar p; toasts := toasts p; timers := timers p ++ [retries] |}.

(** Whether the next [fetch] gets through. *)
Definition sent (p : page) : bool * page :=
  match network (sys p) with
  | [] => (true, p)
  | delivered :: rest =>
      (delivered, on_sys (fun s => {| browser := browser s; srv := srv s; network := rest |}) p)
  end.

(** [response.status] *)
Definition status_of (a : answer) : N :=
  match a with
  | Unauthorized _ => 401
  | Routed r => status r
  end.

(** [response.ok] *)
Definition ok (a : answer) : bool := (200 <=? status_of a) && (status_of a <=? 299).

(** [result.message] of the body; [None] is [undefined]. *)
Definition result_message (a : answer) : option string :=
  match a with
  | Unauthorized _ => None
  | Routed r =>
      match json r with
      | Failure_message m | Success_message m | Success_connected m _ _ => Some m
      | Failure_error _ | Service_Unavailable | Success_data _ _ => None
      end
  end.

(** [result.message === text] *)
Definition message_is (text : string) (a : answer) : bool :=
  match result_message a with
  | Some m => String.eqb m text
  | None => false
  end.

(** [s.includes(needle)] *)
Fixpoint includes (needle s : string) : bool :=
  starts_with needle s
  || match s with
     | EmptyString => false
     | String _ rest => includes needle rest
     end.

Section Browser.
Context `{Library} `{ServerProcess} `{JSON} `{Uuid} `{JWT}.

(** The [Cookie] header of a request with [credentials: "include"]. *)
Definition cookie_sent (p : page) : option string :=
  match jar p with
  | Some (token, expires) =>
      if now (cache (srv (sys p))) <? expires
      then Some (cookie_header [("token", token)])
      else None
  | None => None
  end.

(** The server handles a request: what the [fetch] resolves to.  (No
    handler throws past its own [catch]; one that did would leave the
    request unanswered, which the page is given as a failed [fetch].) *)
Definition served {A} (p : page) (x : outcome A * server) : option A * page :=
  match x with
  | (Return a, w) => (Some a, on_server (fun _ => w) p)
  | (Throw _, w) => (None, on_server (fun _ => w) p)
  end.

(** [fetch(`${API_URL}/connect`, { credentials: "include" })]; the browser
    keeps the cookie of the response for its [maxAge]. *)
Definition fetch_connect (p : page) : option response * page :=
  let '(delivered, p) := sent p in
  if delivered then
    match served p (app_connect (srv (sys p))) with
    | (Some (r, Some token), p) =>
        (Some r,
         {| sys := sys p; jar := Some (token, now (cache (srv (sys p))) + 3600 * 1000 / 1000);
            toasts := toasts p; timers := timers p |})
    | (Some (r, None), p) => (Some r, p)
    | (None, p) => (None, p)
    end
  else (None, p).

(** [fetch(`${API_URL}/`, { credentials: "include" })] *)
Definition fetch_get (p : page) : option answer * page :=
  let '(delivered, p) := sent p in
  if delivered then served p (app_get_root (cookie_sent p) (srv (sys p))) else (None, p).

(** [fetch(`${API_URL}/`, { method: "POST", body, headers, credentials: "include" })] *)
Definition fetch_post (body : save_body) (p : page) : option answer * page :=
  let '(delivered, p) := sent p in
  if delivered then served p (app_post_root (cookie_sent p) body (srv (sys p))) else (None, p).

(** [getTokenAndSecret(retries)]: one attempt; after a failed one the next
    is left to a timer. *)
Definition getTokenAndSecret (retries : nat) (p : page) : page :=
  let '(response, p) := fetch_connect p in
  let caught p :=
    match retries with
    | S retries' => setTimeout retries' p
    | O => showToast "Error connecting to API after multiple attempts." p
    end in
  match response with
  | Some r =>
      match json r with
      | Success_connected _ id secret =>
          showToast "Connected successfully, secret retrieved."
            (setSecret (Some secret) (setId (Some id) p))
      | Success_data _ _ =>
          (* [data.data] has neither property: both are set to [undefined] *)
          showToast "Connected successfully, secret retrieved."
            (setSecret None (setId None p))
      | _ => caught p
      end
  | None => caught p
  end.

(** The client's [encryptData(data)], in a render with state [st]; [None]
    is the [Error] it throws after reconnecting. *)
Definition encryptData (st : client) (data : string) (p : page) : option string * page :=
  match c_secret st, c_id st with
  | Some secret, Some id =>
      if negb (truthy secret) || negb (truthy id) then (None, getTokenAndSecret 3 p)
      else (Some (AppCrypto.encryptData data id secret), p)
  | _, _ => (None, getTokenAndSecret 3 p)
  end.

(** The client's [generateHMAC(encryptedData)]. *)
Definition generateHMAC (st : client) (encryptedData : string) (p : page)
  : option string * page :=
  match c_secret st with
  | Some secret =>
      if negb (truthy secret) then (None, getTokenAndSecret 3 p)
      else (Some (HmacSHA256 encryptedData secret), p)
  | None => (None, getTokenAndSecret 3 p)
  end.

(** The client's [decryptData(encryptedData)]; it also throws when the
    bytes that come out are not UTF-8. *)
Definition decryptData (st : client) (encryptedData : string) (p : page)
  : option string * page :=
  match c_secret st, c_id st with
  | Some secret, Some id =>
      if negb (truthy secret) || negb (truthy id) then (None, getTokenAndSecret 3 p)
      else
        match AppCrypto.decryptData encryptedData id secret with
        | Return decryptedData => (Some decryptedData, p)
        | Throw _ => (None, p)
        end
  | _, _ => (None, getTokenAndSecret 3 p)
  end.

(** [clearSecret()] *)
Definition clearSecret (p : page) : page :=
  getTokenAndSecret 3 (setSecret None (setId None p)).

(** [saveData()].  The [clearSecret()] of the branch for a missing secret
    is not awaited: its request leaves before the one of the
    [getTokenAndSecret()] that follows. *)
Definition saveData (p : page) : page :=
  let st := browser (sys p) in
  let data := c_data st in
  if negb (truthy data) then showToast "No data to save." p
  else
    let caught p := showToast "Error saving data." p in
    match encryptData st data p with
    | (None, p) => caught p
    | (Some encryptedData, p) =>
        match generateHMAC st encryptedData p with
        | (None, p) => caught p
        | (Some hmac, p) =>
            match fetch_post {| body_data := encryptedData; body_hmac := hmac |} p with
            | (None, p) => caught p
            | (Some response, p) =>
                if status_of response =? 400 then
                  if message_is "Bad Request." response then
                    showToast "Bad Request. Please reconnect." p
                  else if message_is "Secret missing, please connect again." response then
                    getTokenAndSecret 3
                      (clearSecret (showToast "Secret missing. Please reconnect." p))
                  else if message_is "Data integrity compromised." response then
                    showToast "Data integrity compromised. Please try again." p
                  else p
                else if status_of response =? 200 then showToast "Data saved successfully." p
                else showToast "Error: Unexpected response from the server." p
            end
        end
    end.

(** [retrieveData()] *)
Definition retrieveData (p : page) : page :=
  let st := browser (sys p) in
  let caught p := showToast "Error retrieving data." p in
  match fetch_get p with
  | (None, p) => caught p
  | (Some response, p) =>
      if negb (ok response) then
        if status_of response =? 400 then
          if message_is "Bad Request." response then
            getTokenAndSecret 3 (showToast "Bad request: Please connect again." p)
          else if message_is "Secret missing, please connect again." response then
            getTokenAndSecret 3 (showToast "Secret is missing: Please connect again." p)
          else
            match result_message response with
            | Some message =>
                if includes "backup missing" message then
                  clearSecret
                    (showToast
                       "Data tampered and backup missing: Please connect and save data again." p)
                else p
            | None => caught p
            end
        else p
      else
        match response with
        | Routed {| json := Success_data encryptedData hmac |} =>
            match generateHMAC st encryptedData p with
            | (None, p) => caught p
            | (Some calculatedHmac, p) =>
                if negb (String.eqb calculatedHmac hmac) then
                  showToast "Data integrity compromised in-transit." p
                else
                  match decryptData st encryptedData p with
                  | (None, p) => caught p
                  | (Some decryptedData, p) =>
                      showToast "Data retrieved and decrypted successfully."
                        (setData decryptedData p)
                  end
            end
        | Routed {| json := Success_connected _ _ _ |} =>
            (* [result.data] has neither property: the tag of [undefined]
               is the tag of the empty message, and is not [undefined] *)
            match generateHMAC st "" p with
            | (None, p) => caught p
            | (Some _, p) => showToast "Data integrity compromised in-transit." p
            end
        | _ => caught p
        end
  end.

(** The effect that runs when the component mounts. *)
Definition mount (p : page) : page := getTokenAndSecret 3 p.

(** [onChange] of the input. *)
Definition type (text : string) (p : page) : page := setData text p.

(** A second passes: the pending retries run. *)
Definition second_passes (p : page) : page :=
  fold_left (fun p retries => getTokenAndSecret retries p) (timers p)
    {| sys := {| browser := browser (sys p);
                 srv := {| cache := elapse 1 (cache (srv (sys p))); drawn := drawn (srv (sys p)) |};
                 network := network (sys p) |};
       jar := jar p; toasts := toasts p; timers := [] |}.

Fixpoint wait (seconds : nat) (p : page) : page :=
  match seconds with
  | O => p
  | S n => wait n (second_passes p)
  end.

End Browser.

(** The page as it opens on a server, before the component mounts. *)
Definition opened (w : server) (network : list bool) (jar : option (string * N)) : page :=
  {| sys := {| browser := {| c_data := ""; c_secret := None; c_id := None |};
               srv := w; network := network |};
     jar := jar; toasts := []; timers := [] |}.

End Browser.


(** ** What is stored, as the specification speaks of it *)

Module Stored.
Section Stored.
Context `{Library} `{ServerProcess} `{JSON}.

(** The text [putUserData] writes for a primary record. *)
Definition primary_text (d h : string) : string :=
  JSON_stringify (JObject [("data", JString d); ("hmac", JString h)]).

(** The store after the transaction of [putUserData]. *)
Definition saved (id d h : string) (r : redis) : redis :=
  EXEC [ SET_EX (userData_key id) (primary_text d h) (60 * 15);
         SET_EX (backup_key id) d (60 * 15) ] r.

(** The at-rest tag of a plaintext under a session: the keyed hash of its
    deterministic re-encryption. *)
Definition fresh_tag (id secret d : string) : string :=
  generateServerHMAC (encryptData d id secret).

(** PrimaryRecord: the payload and tag that [getUserData] reads, when the
    key is live and holds a JSON value with readable properties. *)
Definition primary_record (id : string) (r : redis) : option (jsval * jsval) :=
  match GET (userData_key id) r with
  | Some text =>
      if truthy text then
        match JSON_parse text with
        | Value v =>
            match get_prop v "data", get_prop v "hmac" with
            | Return d, Return h => Some (d, h)
            | _, _ => None
            end
        | Fails _ => None
        end
      else None
  | None => None
  end.

(** BackupRecord: the text under the backup key, when it is live. *)
Definition backup_record (id : string) (r : redis) : option string :=
  GET (backup_key id) r.

(** Following the specification: the first 16 bytes of the identity
    string, taken as the bytes of the initialisation vector. *)
Definition deriveNonce_spec (identity : string) : list Z :=
  map (fun c => Z.of_N (N_of_ascii c)) (list_ascii_of_string (slice0 16 identity)).

(** The world [seconds] later. *)
Definition later (seconds : N) (w : server) : server :=
  {| cache := elapse seconds (cache w); drawn := drawn w |}.

(** The world after a lookup has renewed the secret's expiry. *)
Definition renewed (id secret : string) (w : server) : server :=
  {| cache := SET_EX (userInfo_key id) secret (60 * 60) (cache w); drawn := drawn w |}.

End Stored.
End Stored.
Export Stored.

(** ** What the properties below speak of *)

(** [m] takes every world to one that [R] relates it to, whatever it
    returns or throws. *)
Definition keeps {A} (R : relation server) (m : M A) : Prop :=
  forall w, R w (snd (m w)).

(** The entries of the keys in [P], the clock and the count of draws are
    as they were. *)
Definition untouched (P : string -> Prop) : relation server := fun w w' =>
  now (cache w') = now (cache w) /\ drawn w' = drawn w
  /\ forall k, P k -> db (cache w') !! k = db (cache w) !! k.

(** The keys in [P] read as they did (their expiry may have moved). *)
Definition reads_same (P : string -> Prop) : relation server := fun w w' =>
  forall k, P k -> GET k (cache w') = GET k (cache w).

(** The keys other than the three of [id]. *)
Definition foreign (id : string) (k : string) : Prop :=
  k <> userInfo_key id /\ k <> userData_key id /\ k <> backup_key id.

Section Requests.
Context `{Library} `{ServerProcess} `{JSON} `{Uuid}.

(** The request an honest client sends to save [P]. *)
Definition honest_save (id s P : string) : save_body :=
  {| body_data := encryptData P id s; body_hmac := generateHMAC (encryptData P id s) s |}.

(** The world after lookups of [id] made [gaps] seconds apart. *)
Fixpoint lookups (id : string) (gaps : list N) (w : server) : server :=
  match gaps with
  | [] => w
  | gap :: rest => lookups id rest (snd (getUserInfo id (later gap w)))
  end.

End Requests.

(** [s] holds no [c]. *)
Definition without (c : ascii) (s : string) : bool :=
  forallb (fun x => negb (Ascii.eqb x c)) (list_ascii_of_string s).

(** The part of [s] before its first [c]. *)
Fixpoint before (c : ascii) (s : string) : string :=
  match s with
  | EmptyString => EmptyString
  | String x rest => if Ascii.eqb x c then EmptyString else String x (before c rest)
  end.

(** The value of the first cookie named token. *)
Fixpoint token_cookie (cookies : list (string * string)) : option string :=
  match cookies with
  | [] => None
  | (name, value) :: rest => if String.eqb name "token" then Some value else token_cookie rest
  end.

(** A cookie whose name and value hold no semicolon, and whose name holds
    no equals sign. *)
Definition well_formed (cookie : string * string) : bool :=
  without ";" (fst cookie) && without "=" (fst cookie) && without ";" (snd cookie).

Section Pages.
Context `{Library} `{ServerProcess} `{JSON} `{Uuid} `{JWT}.
Import Browser.

(** The page holds the session of [id] and [s], whose token was signed at
    [iat]; every request gets through and no retry is pending. *)
Definition in_session (id s : string) (iat : N) (p : page) : Prop :=
  c_id (browser (sys p)) = Some id /\ c_secret (browser (sys p)) = Some s
  /\ truthy id = true /\ truthy s = true
  /\ jar p = Some (jwt_sign id iat, iat + 60 * 60)
  /\ timers p = [] /\ network (sys p) = [].

(** What the input holds. *)
Definition shown (p : page) : string := c_data (browser (sys p)).

(** The page [seconds] later, with [rest] of the network's behaviour to come. *)
Definition delayed (seconds : nat) (rest : list bool) (p : page) : page :=
  {| sys := {| browser := browser (sys p);
               srv := later (N.of_nat seconds) (srv (sys p));
               network := rest |};
     jar := jar p; toasts := toasts p; timers := timers p |}.

(** Someone with access to Redis changes the store behind the server. *)
Definition meddle (f : redis -> redis) (p : page) : page :=
  on_server (fun w => {| cache := f (cache w); drawn := drawn w |}) p.

End Pages.

(** ** A reference JSON: printer and parser *)

Module RefJSON.

Definition dquote : ascii := "034"%char.
Definition backslash : ascii := "092"%char.

Definition hex_char (n : N) : ascii :=
  if n <? 10 then ascii_of_N (48 + n) else ascii_of_N (87 + n).

(** A control character as [\u00XX]. *)
Definition u_escape (n : N) : string :=
  String backslash (String "u" (String "0" (String "0"
    (String (hex_char (n / 16)) (String (hex_char (n mod 16)) ""))))).

(** How [JSON.stringify] writes one character of a string. *)
Definition escape_char (c : ascii) : string :=
  match N_of_ascii c with
  | 34 => String backslash (String dquote "")
  | 92 => String backslash (String backslash "")
  | 8 => String backslash "b"
  | 9 => String backslash "t"
  | 10 => String backslash "n"
  | 12 => String backslash "f"
  | 13 => String backslash "r"
  | n => if n <? 32 then u_escape n else String c ""
  end.

Fixpoint escape (s : string) : string :=
  match s with
  | EmptyString => EmptyString
  | String c rest => escape_char c +:+ escape rest
  end.

Definition quote (s : string) : string :=
  String dquote (escape s +:+ String dquote "").

Fixpoint join (sep : string) (parts : list string) : string :=
  match parts with
  | [] => ""
  | [p] => p
  | p :: rest => p +:+ sep +:+ join sep rest
  end.

(** [JSON.stringify(v)], for a [v] that is not [undefined]: a field that is
    [undefined] is left out, an array item that is [undefined] is written
    [null]. *)
Fixpoint stringify (v : jsval) : string :=
  match v with
  | JUndefined => "null"
  | JNull => "null"
  | JBool true => "true"
  | JBool false => "false"
  | JNumber lexeme => lexeme
  | JString s => quote s
  | JArray items => "[" +:+ join "," (map stringify items) +:+ "]"
  | JObject fields =>
      "{" +:+
      join ","
        (omap (fun kv =>
                 match snd kv with
                 | JUndefined => None
                 | _ => Some (quote (fst kv) +:+ ":" +:+ stringify (snd kv))
                 end) fields)
      +:+ "}"
  end.

Definition is_ws (c : ascii) : bool :=
  match c with
  | " "%char | "009"%char | "010"%char | "013"%char => true
  | _ => false
  end.

Fixpoint skip_ws (s : string) : string :=
  match s with
  | String c rest => if is_ws c then skip_ws rest else s
  | EmptyString => s
  end.

Definition hex_value (c : ascii) : option N := Z.to_N <$> hex_digit c.

(** The characters of a string up to its closing quote, and what follows
    it.  An escape above U+00FF is outside the model's characters. *)
Fixpoint parse_chars (s : string) : option (string * string) :=
  match s with
  | EmptyString => None
  | String c rest =>
      match c with
      | "034"%char => Some ("", rest)
      | "\"%char =>
          match rest with
          | String e rest' =>
              let plain (x : ascii) :=
                prod_map (String x) Datatypes.id <$> parse_chars rest' in
              match e with
              | "034"%char => plain dquote
              | "\"%char => plain backslash
              | "/"%char => plain "/"%char
              | "b"%char => plain "008"%char
              | "f"%char => plain "012"%char
              | "n"%char => plain "010"%char
              | "r"%char => plain "013"%char
              | "t"%char => plain "009"%char
              | "u"%char =>
                  match rest' with
                  | String h1 (String h2 (String h3 (String h4 rest''))) =>
                      match hex_value h1, hex_value h2, hex_value h3, hex_value h4 with
                      | Some a, Some b, Some c', Some d =>
                          let n := ((a * 16 + b) * 16 + c') * 16 + d in
                          if n <? 256 then
                            prod_map (String (ascii_of_N n)) Datatypes.id <$> parse_chars rest''
                          else None
                      | _, _, _, _ => None
                      end
                  | _ => None
                  end
              | _ => None
              end
          | EmptyString => None
          end
      | Ascii _ _ _ _ _ false false false => None
      | _ => prod_map (String c) Datatypes.id <$> parse_chars rest
      end
  end.

Definition is_digit (c : ascii) : bool :=
  let n := N_of_ascii c in (48 <=? n) && (n <=? 57).

(** The longest prefix of digits, and the rest. *)
Fixpoint digits (s : string) : string * string :=
  match s with
  | String c rest =>
      if is_digit c then let '(d, r) := digits rest in (String c d, r) else ("", s)
  | EmptyString => ("", "")
  end.

(** At least one digit. *)
Definition digits1 (s : string) : option (string * string) :=
  match digits s with
  | (EmptyString, _) => None
  | dr => Some dr
  end.

(** A number: an optional minus, an integer part without a leading zero,
    an optional fraction and an optional exponent. *)
Definition parse_number (s : string) : option (string * string) :=
  let '(sign, s) :=
    match s with
    | String "-" rest => ("-", rest)
    | _ => ("", s)
    end in
  int ← match s with
        | String "0" rest => Some ("0", rest)
        | _ => digits1 s
        end;
  let '(int, s) := int in
  frac ← match s with
         | String "." rest => prod_map (String ".") Datatypes.id <$> digits1 rest
         | _ => Some ("", s)
         end;
  let '(frac, s) := frac in
  exp ← match s with
        | String e rest =>
            if (Ascii.eqb e "e" || Ascii.eqb e "E")%bool then
              let '(sg, rest) :=
                match rest with
                | String "+" r => ("+", r)
                | String "-" r => ("-", r)
                | _ => ("", rest)
                end in
              prod_map (fun d => String e (sg +:+ d)) Datatypes.id <$> digits1 rest
            else Some ("", s)
        | EmptyString => Some ("", s)
        end;
  let '(exp, s) := exp in
  Some (sign +:+ int +:+ frac +:+ exp, s).

(** [word] at the head of [s]. *)
Fixpoint expect (word s : string) : option string :=
  match word, s with
  | EmptyString, _ => Some s
  | String a word', String b s' => if Ascii.eqb a b then expect word' s' else None
  | String _ _, EmptyString => None
  end.

(** A value and what follows it; [fuel] bounds the nesting and the count of
    members and items, and each of them takes at least one character. *)
Fixpoint parse_value (fuel : nat) (s : string) : option (jsval * string) :=
  match fuel with
  | O => None
  | S fuel =>
      match skip_ws s with
      | EmptyString => None
      | String c rest as s' =>
          match c with
          | "034"%char => prod_map JString Datatypes.id <$> parse_chars rest
          | "{"%char =>
              match skip_ws rest with
              | String "}" after => Some (JObject [], after)
              | _ => prod_map JObject Datatypes.id <$> parse_members fuel rest
              end
          | "["%char =>
              match skip_ws rest with
              | String "]" after => Some (JArray [], after)
              | _ => prod_map JArray Datatypes.id <$> parse_items fuel rest
              end
          | "t"%char => (fun r => (JBool true, r)) <$> expect "true" s'
          | "f"%char => (fun r => (JBool false, r)) <$> expect "false" s'
          | "n"%char => (fun r => (JNull, r)) <$> expect "null" s'
          | _ => prod_map JNumber Datatypes.id <$> parse_number s'
          end
      end
  end
with parse_members (fuel : nat) (s : string) : option (list (string * jsval) * string) :=
  match fuel with
  | O => None
  | S fuel =>
      match skip_ws s with
      | String "034" rest =>
          '(key, s) ← parse_chars rest;
          match skip_ws s with
          | String ":" s =>
              '(v, s) ← parse_value fuel s;
              match skip_ws s with
              | String "," s => prod_map (cons (key, v)) Datatypes.id <$> parse_members fuel s
              | String "}" s => Some ([(key, v)], s)
              | _ => None
              end
          | _ => None
          end
      | _ => None
      end
  end
with parse_items (fuel : nat) (s : string) : option (list jsval * string) :=
  match fuel with
  | O => None
  | S fuel =>
      '(v, s) ← parse_value fuel s;
      match skip_ws s with
      | String "," s => prod_map (cons v) Datatypes.id <$> parse_items fuel s
      | String "]" s => Some ([v], s)
      | _ => None
      end
  end.

(** [JSON.parse(text)] *)
Definition parse (text : string) : lib_result jsval :=
  match parse_value (S (String.length text)) text with
  | Some (v, rest) =>
      match skip_ws rest with
      | EmptyString => Value v
      | String _ _ => Fails "Unexpected non-whitespace character after JSON"
      end
  | None => Fails "Unexpected token or end of JSON input"
  end.

End RefJSON.



(** ** Reference libraries: a stand-in cipher, keyed hash and generators

    Enough of crypto-js and uuid to run the program on concrete inputs: a
    byte-wise XOR cipher whose ciphertexts are a mark followed by
    hexadecimal digits, a polynomial digest written as 64 hexadecimal
    digits, and counters rendered as hexadecimal text. *)

Module Reference.

(** [digits] hexadecimal digits of [n], most significant first. *)
Fixpoint hex (digits : nat) (n : N) : string :=
  match digits with
  | O => ""
  | S digits' => hex digits' (n / 16) +:+ String (RefJSON.hex_char (n mod 16)) ""
  end.

Definition digest_N (m : string) : N :=
  fold_left (fun acc c => ((acc + N_of_ascii c + 1) * 1099511628211) mod 2 ^ 256)
    (list_ascii_of_string m) 14695981039346656037.

Definition digest (m : string) : string := hex 64 (digest_N m).

Definition keyed_digest (m key : string) : string := digest (key +:+ "|" +:+ m).

Definition xor_ascii (a k : ascii) : ascii :=
  match a, k with
  | Ascii a0 a1 a2 a3 a4 a5 a6 a7, Ascii k0 k1 k2 k3 k4 k5 k6 k7 =>
      Ascii (xorb a0 k0) (xorb a1 k1) (xorb a2 k2) (xorb a3 k3)
            (xorb a4 k4) (xorb a5 k5) (xorb a6 k6) (xorb a7 k7)
  end.

Fixpoint xor_stream (k : ascii) (s : string) : string :=
  match s with
  | EmptyString => EmptyString
  | String c rest => String (xor_ascii c k) (xor_stream k rest)
  end.

(** One byte out of the key and the initialisation vector. *)
Definition key_byte (key iv : WordArray) : ascii :=
  ascii_of_N (Z.to_N ((fold_right Z.add 0 (words key) + fold_right Z.add 0 (words iv)) mod 256)%Z).

(** Bytes as hexadecimal text, and back. *)
Fixpoint to_hex (s : string) : string :=
  match s with
  | EmptyString => EmptyString
  | String c rest => hex 2 (N_of_ascii c) +:+ to_hex rest
  end.

Fixpoint of_hex (s : string) : option string :=
  match s with
  | EmptyString => Some EmptyString
  | String a (String b rest) =>
      match RefJSON.hex_value a, RefJSON.hex_value b with
      | Some x, Some y => String (ascii_of_N (x * 16 + y)) <$> of_hex rest
      | _, _ => None
      end
  | String _ EmptyString => None
  end.

Definition encrypt (m : string) (key iv : WordArray) : string :=
  String "@" (to_hex (xor_stream (key_byte key iv) m)).

Definition decrypt (c : string) (key iv : WordArray) : lib_result string :=
  match c with
  | String "@" body =>
      match of_hex body with
      | Some bytes => Value (xor_stream (key_byte key iv) bytes)
      | None => Fails "Malformed UTF-8 data"
      end
  | _ => Fails "Malformed UTF-8 data"
  end.

Definition encrypt_untyped (v : jsval) (key iv : WordArray) : lib_result string :=
  Fails "Cannot read properties of undefined (reading 'sigBytes')".

(** The [n]-th random 32 bytes, in hexadecimal. *)
Definition random (n : N) : string :=
  hex 64 (((n + 1) * 64495327731887693539738558691066839103388567300449) mod 2 ^ 256).

(** The [n]-th identifier, in the layout of a version-4 UUID. *)
Definition uuid (n : N) : string :=
  let h := hex 32 (((n + 1) * 210306068529402873165736369884012333109) mod 2 ^ 128) in
  substring 0 8 h +:+ "-" +:+ substring 8 4 h +:+ "-4" +:+ substring 13 3 h
  +:+ "-8" +:+ substring 17 3 h +:+ "-" +:+ substring 20 12 h.

End Reference.


(** ** Reference tokens

    A stand-in for jsonwebtoken, to run the middleware on concrete
    requests: a token is the time of signing in binary digits, a full
    stop, and the identity in hexadecimal. *)

Module RefJWT.

Fixpoint pos_text (p : positive) (tail : string) : string :=
  match p with
  | xH => String "." tail
  | xO q => String "0" (pos_text q tail)
  | xI q => String "1" (pos_text q tail)
  end.

Fixpoint text_pos (s : string) : option (positive * string) :=
  match s with
  | String "." tail => Some (xH, tail)
  | String "0" rest =>
      match text_pos rest with
      | Some (q, tail) => Some (xO q, tail)
      | None => None
      end
  | String "1" rest =>
      match text_pos rest with
      | Some (q, tail) => Some (xI q, tail)
      | None => None
      end
  | _ => None
  end.

Definition sign (id : string) (iat : N) : string :=
  pos_text (N.succ_pos iat) (Reference.to_hex id).

Definition verify (token : string) (now : N) : lib_result (option string) :=
  match text_pos token with
  | Some (p, body) =>
      match Reference.of_hex body with
      | Some id => if now <? Pos.pred_N p + 60 * 60 then Value (Some id) else Fails "jwt expired"
      | None => Fails "jwt malformed"
      end
  | None => Fails "jwt malformed"
  end.

End RefJWT.

(** * Proofs *)
(** ** Facts about the store *)

Lemma GET_SET_EX_eq k v ex r : 0 < ex -> GET k (SET_EX k v ex r) = Some v.
Proof.
  intros Hex. unfold GET, SET_EX, expired. simpl. rewrite lookup_insert_eq. simpl.
  destruct (N.leb_spec (now r + ex) (now r)); [lia | reflexivity].
Qed.

Lemma GET_SET_EX_ne k k' v ex r : k <> k' -> GET k' (SET_EX k v ex r) = GET k' r.
Proof.
  intros Hne. unfold GET, SET_EX. simpl. rewrite lookup_insert_ne by done. reflexivity.
Qed.

Lemma TTL_SET_EX_eq k v ex r : 0 < ex -> TTL k (SET_EX k v ex r) = Some ex.
Proof.
  intros Hex. unfold TTL, SET_EX, expired. simpl. rewrite lookup_insert_eq. simpl.
  destruct (N.leb_spec (now r + ex) (now r)); [lia |]. simpl. f_equal. lia.
Qed.

Lemma TTL_SET_EX_ne k k' v ex r : k <> k' -> TTL k' (SET_EX k v ex r) = TTL k' r.
Proof.
  intros Hne. unfold TTL, SET_EX. simpl. rewrite lookup_insert_ne by done. reflexivity.
Qed.

(** Writing the same two keys again at the same instant changes nothing. *)
Lemma SET_EX_twice k1 v1 k2 v2 ex r :
  SET_EX k2 v2 ex (SET_EX k1 v1 ex (SET_EX k2 v2 ex (SET_EX k1 v1 ex r)))
  = SET_EX k2 v2 ex (SET_EX k1 v1 ex r).
Proof.
  unfold SET_EX. simpl. f_equal. apply map_eq. intros k.
  destruct (decide (k2 = k)) as [->|H2].
  - rewrite !lookup_insert_eq. reflexivity.
  - destruct (decide (k1 = k)) as [->|H1];
      repeat first [rewrite lookup_insert_eq | rewrite lookup_insert_ne by done]; reflexivity.
Qed.

Section Keys.

Lemma userInfo_userData_key a b : userInfo_key a <> userData_key b.
Proof. unfold userInfo_key, userData_key. cbv [String.append]. discriminate. Qed.

Lemma userInfo_backup_key a b : userInfo_key a <> backup_key b.
Proof. unfold userInfo_key, backup_key. cbv [String.append]. discriminate. Qed.

Lemma userData_backup_key a b : userData_key a <> backup_key b.
Proof. unfold userData_key, backup_key. cbv [String.append]. discriminate. Qed.

Lemma userInfo_key_inj a b : userInfo_key a = userInfo_key b -> a = b.
Proof. unfold userInfo_key. cbv [String.append]. intros E. injection E. auto. Qed.

End Keys.

(** ** CacheManager, operation by operation *)

(** Unfolding of the monad, for stepping through a method. *)
Ltac run :=
  unfold rethrow_CacheError, try_catch, ensureConnected, redisClient_get, redisClient_set,
    multi_exec, call, throw, mbind, M_bind, mret, M_ret; simpl.

Section CacheManagerFacts.
Context `{Library} `{ServerProcess} `{JSON}.

Lemma primary_text_truthy d h : truthy (primary_text d h) = true.
Proof.
  destruct (primary_text d h) eqn:E; [|reflexivity].
  pose proof (JSON_parse_stringify d h) as P. simpl in P. unfold primary_text in E.
  destruct JSON_parse_empty as [m Hm]. rewrite E, Hm in P. discriminate.
Qed.

Lemma putUserInfo_run id s w :
  putUserInfo {| CacheManager.id := id; secret := s |} w =
    (Return tt, renewed id s w).
Proof. unfold putUserInfo. run. reflexivity. Qed.

Lemma putUserData_run id d h w :
  putUserData {| ud_id := id; data := d; hmac := h |} w =
    (Return tt, {| cache := saved id d h (cache w); drawn := drawn w |}).
Proof. unfold putUserData. run. reflexivity. Qed.

Lemma getUserInfo_live id s w :
  GET (userInfo_key id) (cache w) = Some s -> truthy s = true ->
  getUserInfo id w =
    (Return (Some {| CacheManager.id := id; secret := s |}), renewed id s w).
Proof.
  intros Hg Ht. unfold getUserInfo. run. rewrite Hg, Ht.
  unfold putUserInfo. run. reflexivity.
Qed.

Lemma getUserInfo_missing id w :
  GET (userInfo_key id) (cache w) = None -> getUserInfo id w = (Return None, w).
Proof. intros Hg. unfold getUserInfo. run. rewrite Hg. reflexivity. Qed.

Lemma getUserInfo_empty id w :
  GET (userInfo_key id) (cache w) = Some "" -> getUserInfo id w = (Return None, w).
Proof. intros Hg. unfold getUserInfo. run. rewrite Hg. reflexivity. Qed.

Lemma getUserData_parsed id text v d h w :
  GET (userData_key id) (cache w) = Some text -> truthy text = true ->
  JSON_parse text = Value v -> get_prop v "data" = Return d -> get_prop v "hmac" = Return h ->
  getUserData id w = (Return (Some {| pd_id := id; pd_data := d; pd_hmac := h |}), w).
Proof.
  intros Hg Ht Hp Hd Hh. unfold getUserData. run. rewrite Hg, Ht, Hp. run.
  rewrite Hd, Hh. reflexivity.
Qed.

Lemma getUserData_record id d h w :
  GET (userData_key id) (cache w) = Some (primary_text d h) ->
  getUserData id w =
    (Return (Some {| pd_id := id; pd_data := JString d; pd_hmac := JString h |}), w).
Proof.
  intros Hg. eapply getUserData_parsed; eauto using primary_text_truthy.
  - apply JSON_parse_stringify.
  - reflexivity.
  - reflexivity.
Qed.

Lemma getUserData_missing id w :
  GET (userData_key id) (cache w) = None -> getUserData id w = (Return None, w).
Proof. intros Hg. unfold getUserData. run. rewrite Hg. reflexivity. Qed.

Lemma getUserData_empty id w :
  GET (userData_key id) (cache w) = Some "" -> getUserData id w = (Return None, w).
Proof. intros Hg. unfold getUserData. run. rewrite Hg. reflexivity. Qed.

Lemma getUserData_not_JSON id text message w :
  GET (userData_key id) (cache w) = Some text -> truthy text = true ->
  JSON_parse text = Fails message ->
  getUserData id w = (Throw (CacheError message), w).
Proof. intros Hg Ht Hp. unfold getUserData. run. rewrite Hg, Ht, Hp. reflexivity. Qed.

Lemma getBackupUserData_promotes id b s w :
  GET (backup_key id) (cache w) = Some b -> truthy b = true ->
  GET (userInfo_key id) (cache w) = Some s -> truthy s = true ->
  getBackupUserData id w =
    (Return (Some b), {| cache := saved id b (fresh_tag id s b) (cache w); drawn := drawn w |}).
Proof.
  intros Hb Tb Hs Ts. unfold getBackupUserData. run. rewrite Hb, Tb. run. rewrite Hs, Ts.
  unfold putUserData. run. reflexivity.
Qed.

Lemma getBackupUserData_no_backup id w :
  truthy_opt (GET (backup_key id) (cache w)) = false ->
  getBackupUserData id w = (Return None, w).
Proof.
  intros Hb. unfold getBackupUserData. run.
  destruct (GET (backup_key id) (cache w)) as [b|]; [|reflexivity].
  simpl in Hb. rewrite Hb. reflexivity.
Qed.

Lemma getBackupUserData_no_secret id w :
  truthy_opt (GET (userInfo_key id) (cache w)) = false ->
  getBackupUserData id w = (Return None, w).
Proof.
  intros Hs. unfold getBackupUserData. run.
  destruct (GET (backup_key id) (cache w)) as [b|]; [|reflexivity].
  destruct (truthy b); [|reflexivity]. run.
  destruct (GET (userInfo_key id) (cache w)) as [s|]; [|reflexivity].
  simpl in Hs. rewrite Hs. reflexivity.
Qed.

Lemma GET_saved_primary id d h r : GET (userData_key id) (saved id d h r) = Some (primary_text d h).
Proof.
  unfold saved, EXEC. simpl. rewrite GET_SET_EX_ne by (apply not_eq_sym, userData_backup_key).
  apply GET_SET_EX_eq. lia.
Qed.

Lemma GET_saved_backup id d h r : GET (backup_key id) (saved id d h r) = Some d.
Proof. unfold saved, EXEC. simpl. apply GET_SET_EX_eq. lia. Qed.

Lemma GET_saved_userInfo id id' d h r :
  GET (userInfo_key id') (saved id d h r) = GET (userInfo_key id') r.
Proof.
  unfold saved, EXEC. simpl.
  rewrite GET_SET_EX_ne by (apply not_eq_sym, userInfo_backup_key).
  rewrite GET_SET_EX_ne by (apply not_eq_sym, userInfo_userData_key). reflexivity.
Qed.

Lemma saved_saved id d h r : saved id d h (saved id d h r) = saved id d h r.
Proof. unfold saved, EXEC. simpl. apply SET_EX_twice. Qed.

End CacheManagerFacts.

(** ** The store as time passes *)

Lemma GET_elapse_SET_EX_eq k v ex t r : t < ex -> GET k (elapse t (SET_EX k v ex r)) = Some v.
Proof.
  intros Ht. unfold GET, elapse, SET_EX, expired. simpl. rewrite lookup_insert_eq. simpl.
  destruct (N.leb_spec (now r + ex) (now r + t)); [lia | reflexivity].
Qed.

Lemma GET_elapse_SET_EX_ne k k' v ex t r :
  k <> k' -> GET k' (elapse t (SET_EX k v ex r)) = GET k' (elapse t r).
Proof.
  intros Hne. unfold GET, elapse, SET_EX. simpl. rewrite lookup_insert_ne by done. reflexivity.
Qed.

Lemma GET_elapse_Some k t r v : GET k (elapse t r) = Some v -> GET k r = Some v.
Proof.
  unfold GET, elapse, expired. simpl. destruct (db r !! k) as [e|]; [|discriminate].
  destruct (expireAt e) as [d|]; [|auto].
  destruct (N.leb_spec d (now r + t)); [discriminate|].
  destruct (N.leb_spec d (now r)); [lia|auto].
Qed.

Lemma GET_elapse_SET_EX_expired k v ex t r :
  ex <= t -> GET k (elapse t (SET_EX k v ex r)) = None.
Proof.
  intros Ht. unfold GET, elapse, SET_EX, expired. simpl. rewrite lookup_insert_eq. simpl.
  destruct (N.leb_spec (now r + ex) (now r + t)); [reflexivity | lia].
Qed.

Section RouteFacts.
Context `{Library} `{ServerProcess} `{JSON} `{Uuid}.

Lemma primary_record_getUserData id d h w :
  primary_record id (cache w) = Some (d, h) ->
  getUserData id w = (Return (Some {| pd_id := id; pd_data := d; pd_hmac := h |}), w).
Proof.
  unfold primary_record. intros P.
  destruct (GET (userData_key id) (cache w)) as [text|] eqn:G; [|discriminate].
  destruct (truthy text) eqn:T; [|discriminate].
  destruct (JSON_parse text) as [v|m] eqn:J; [|discriminate].
  destruct (get_prop v "data") as [d'|] eqn:D; [|discriminate].
  destruct (get_prop v "hmac") as [h'|] eqn:Hh; [|discriminate].
  injection P as -> ->. eapply getUserData_parsed; eauto.
Qed.

Lemma primary_record_renewed id id' s w :
  primary_record id (cache (renewed id' s w)) = primary_record id (cache w).
Proof.
  unfold primary_record, renewed. simpl.
  rewrite GET_SET_EX_ne by apply userInfo_userData_key. reflexivity.
Qed.

Lemma backup_record_renewed id id' s w :
  backup_record id (cache (renewed id' s w)) = backup_record id (cache w).
Proof.
  unfold backup_record, renewed. simpl.
  rewrite GET_SET_EX_ne by apply userInfo_backup_key. reflexivity.
Qed.

Lemma GET_userInfo_renewed id s w : GET (userInfo_key id) (cache (renewed id s w)) = Some s.
Proof. unfold renewed. simpl. apply GET_SET_EX_eq. lia. Qed.

Lemma primary_record_saved id d h r :
  primary_record id (saved id d h r) = Some (JString d, JString h).
Proof.
  unfold primary_record. rewrite GET_saved_primary, primary_text_truthy.
  unfold primary_text. rewrite JSON_parse_stringify. reflexivity.
Qed.

Lemma strict_neq_string_refl a : strict_neq_string a (JString a) = false.
Proof. simpl. rewrite String.eqb_refl. reflexivity. Qed.

(** The read path up to the comparison of tags. *)
Lemma get_root_compare id s d h c w :
  truthy id = true ->
  GET (userInfo_key id) (cache w) = Some s -> truthy s = true ->
  primary_record id (cache w) = Some (d, h) ->
  encryptData_untyped d id s = Return c ->
  get_root (Some id) w =
    catch_route (
      let reply encryptedData :=
        mret (respond 200 (Success_data encryptedData (generateHMAC encryptedData s))) in
      if strict_neq_string (generateServerHMAC c) h then
        backupData ← getBackupUserData id;
        if negb (truthy_opt backupData) then
          mret (respond 400 (Failure_message
            "Data tampered and backup missing, please connect and save data again."))
        else reply (encryptData (default "" backupData) id s)
      else reply c) (renewed id s w).
Proof.
  intros Ti Gs Ts P Hc. unfold get_root. rewrite Ti.
  unfold catch_route at 1 2, try_catch, mbind, M_bind.
  rewrite (getUserInfo_live id s w Gs Ts). simpl.
  rewrite <- (primary_record_renewed id id s w) in P.
  rewrite (primary_record_getUserData _ _ _ _ P). simpl.
  unfold call. rewrite Hc.
  destruct (strict_neq_string (generateServerHMAC c) h); reflexivity.
Qed.

Lemma GET_later_saved_primary id d h t r :
  t < 60 * 15 -> GET (userData_key id) (elapse t (saved id d h r)) = Some (primary_text d h).
Proof.
  intros Ht. unfold saved, EXEC. simpl.
  rewrite GET_elapse_SET_EX_ne by (apply not_eq_sym, userData_backup_key).
  apply GET_elapse_SET_EX_eq. exact Ht.
Qed.

Lemma GET_later_saved_backup id d h t r :
  t < 60 * 15 -> GET (backup_key id) (elapse t (saved id d h r)) = Some d.
Proof. intros Ht. unfold saved, EXEC. simpl. apply GET_elapse_SET_EX_eq. exact Ht. Qed.

Lemma GET_later_saved_backup_expired id d h t r :
  60 * 15 <= t -> GET (backup_key id) (elapse t (saved id d h r)) = None.
Proof. intros Ht. unfold saved, EXEC. simpl. apply GET_elapse_SET_EX_expired. exact Ht. Qed.

Lemma GET_later_saved_userInfo id id' d h t r :
  GET (userInfo_key id') (elapse t (saved id d h r)) = GET (userInfo_key id') (elapse t r).
Proof.
  unfold saved, EXEC. simpl.
  rewrite GET_elapse_SET_EX_ne by (apply not_eq_sym, userInfo_backup_key).
  rewrite GET_elapse_SET_EX_ne by (apply not_eq_sym, userInfo_userData_key). reflexivity.
Qed.

Lemma GET_saved_other key id d h r :
  key <> userData_key id -> key <> backup_key id -> GET key (saved id d h r) = GET key r.
Proof.
  intros Hp Hb. unfold saved, EXEC. simpl.
  rewrite GET_SET_EX_ne by (apply not_eq_sym; exact Hb).
  rewrite GET_SET_EX_ne by (apply not_eq_sym; exact Hp). reflexivity.
Qed.

Lemma primary_record_later_saved id d h t r :
  t < 60 * 15 -> primary_record id (elapse t (saved id d h r)) = Some (JString d, JString h).
Proof.
  intros Ht. unfold primary_record.
  rewrite GET_later_saved_primary by exact Ht. rewrite primary_text_truthy.
  unfold primary_text. rewrite JSON_parse_stringify. reflexivity.
Qed.

(** Twice in a row is once. *)
Lemma getBackupUserData_twice id w :
  getBackupUserData id (snd (getBackupUserData id w)) = getBackupUserData id w.
Proof.
  assert (Hnoop : getBackupUserData id w = (Return None, w) ->
                  getBackupUserData id (getBackupUserData id w).2 = getBackupUserData id w).
  { intros E. rewrite E. simpl. exact E. }
  destruct (GET (backup_key id) (cache w)) as [b|] eqn:Gb; cycle 1.
  { apply Hnoop, getBackupUserData_no_backup. rewrite Gb. reflexivity. }
  destruct (truthy b) eqn:Tb; cycle 1.
  { apply Hnoop, getBackupUserData_no_backup. rewrite Gb. exact Tb. }
  destruct (GET (userInfo_key id) (cache w)) as [s|] eqn:Gs; cycle 1.
  { apply Hnoop, getBackupUserData_no_secret. rewrite Gs. reflexivity. }
  destruct (truthy s) eqn:Ts; cycle 1.
  { apply Hnoop, getBackupUserData_no_secret. rewrite Gs. exact Ts. }
  rewrite (getBackupUserData_promotes id b s w Gb Tb Gs Ts). cbn [snd].
  set (w1 := {| cache := saved id b (fresh_tag id s b) (cache w); drawn := drawn w |}).
  assert (Gb1 : GET (backup_key id) (cache w1) = Some b) by apply GET_saved_backup.
  assert (Gs1 : GET (userInfo_key id) (cache w1) = Some s).
  { unfold w1. cbn [cache]. rewrite GET_saved_userInfo. exact Gs. }
  rewrite (getBackupUserData_promotes id b s w1 Gb1 Tb Gs1 Ts).
  unfold w1. cbn [cache drawn]. rewrite saved_saved. reflexivity.
Qed.

End RouteFacts.

(** ** The properties of the specification *)

Section StoreProperties.
Context `{Library} `{ServerProcess} `{JSON} `{Uuid}.

(** C3. Round trip: for every plaintext, identity and secret, decrypting
    the encryption of the plaintext, with the key derived from the same
    secret and the initialisation vector derived from the same identity,
    gives the plaintext back. *)
Theorem decryptData_encryptData (P I S : string) :
  decryptData (encryptData P I S) I S = Return P.
Proof.
  unfold decryptData, encryptData. rewrite AES_decrypt_encrypt. reflexivity.
Qed.

(** C5. [putUserData] never throws; in one transaction it writes the
    primary record with exactly the plaintext and tag it is given and the
    backup record with exactly that plaintext, each expiring in 15 minutes;
    afterwards the plaintext read from the primary is the one read from the
    backup. *)
Theorem putUserData_writes_primary_and_backup (id plaintext tag : string) (w : server) :
  let written :=
    {| cache :=
         EXEC [ SET_EX (userData_key id) (primary_text plaintext tag) (60 * 15);
                SET_EX (backup_key id) plaintext (60 * 15) ] (cache w);
       drawn := drawn w |} in
  putUserData {| ud_id := id; data := plaintext; hmac := tag |} w = (Return tt, written)
  /\ TTL (userData_key id) (cache written) = Some (60 * 15)
  /\ TTL (backup_key id) (cache written) = Some (60 * 15)
  /\ getUserData id written =
       (Return (Some {| pd_id := id; pd_data := JString plaintext; pd_hmac := JString tag |}),
        written)
  /\ primary_record id (cache written) = Some (JString plaintext, JString tag)
  /\ backup_record id (cache written) = Some plaintext.
Proof.
  cbv zeta. fold (saved id plaintext tag (cache w)).
  split; [apply putUserData_run|].
  split.
  { unfold saved, EXEC. simpl.
    rewrite TTL_SET_EX_ne by (apply not_eq_sym, userData_backup_key).
    apply TTL_SET_EX_eq. lia. }
  split.
  { unfold saved, EXEC. simpl. apply TTL_SET_EX_eq. lia. }
  split.
  { apply getUserData_record. simpl. apply GET_saved_primary. }
  split.
  { apply primary_record_saved. }
  { apply GET_saved_backup. }
Qed.

(** C6. [getBackupUserData] is idempotent: run a second time with nothing
    in between, it returns what it returned the first time and leaves the
    store exactly as the first run left it (the same plaintext, tag and
    expiry under the primary and the backup keys); run a second time any
    number of seconds later, it leaves every key reading as it read before
    that second run. *)
Theorem getBackupUserData_idempotent (id : string) (w : server) :
  let once := getBackupUserData id w in
  getBackupUserData id (snd once) = once
  /\ forall t key,
       GET key (cache (snd (getBackupUserData id (later t (snd once)))))
       = GET key (cache (later t (snd once))).
Proof.
  cbv zeta. split; [apply getBackupUserData_twice|].
  intros t key.
  destruct (truthy_opt (GET (backup_key id) (elapse t (cache (getBackupUserData id w).2))))
    eqn:Tb'; cycle 1.
  { rewrite getBackupUserData_no_backup; [reflexivity|exact Tb']. }
  destruct (truthy_opt (GET (userInfo_key id) (elapse t (cache (getBackupUserData id w).2))))
    eqn:Ts'; cycle 1.
  { rewrite getBackupUserData_no_secret; [reflexivity|exact Ts']. }
  destruct (GET (backup_key id) (elapse t (cache (getBackupUserData id w).2)))
    as [b'|] eqn:Gb'; [|discriminate].
  destruct (GET (userInfo_key id) (elapse t (cache (getBackupUserData id w).2)))
    as [s'|] eqn:Gs'; [|discriminate].
  cbn [truthy_opt] in Tb', Ts'.
  rewrite (getBackupUserData_promotes id b' s' (later t (getBackupUserData id w).2)
             Gb' Tb' Gs' Ts').
  cbn [snd cache later].
  (* what the first run left is what the second one writes again *)
  assert (Hfirst : GET (userData_key id) (elapse t (cache (getBackupUserData id w).2))
                   = Some (primary_text b' (fresh_tag id s' b'))).
  { destruct (truthy_opt (GET (backup_key id) (cache w))) eqn:Tb; cycle 1.
    { rewrite (getBackupUserData_no_backup id w Tb) in Gb'. cbn [snd] in Gb'.
      apply GET_elapse_Some in Gb'. rewrite Gb' in Tb. cbn in Tb. congruence. }
    destruct (truthy_opt (GET (userInfo_key id) (cache w))) eqn:Ts; cycle 1.
    { rewrite (getBackupUserData_no_secret id w Ts) in Gs'. cbn [snd] in Gs'.
      apply GET_elapse_Some in Gs'. rewrite Gs' in Ts. cbn in Ts. congruence. }
    destruct (GET (backup_key id) (cache w)) as [b|] eqn:Gb; [|discriminate].
    destruct (GET (userInfo_key id) (cache w)) as [s|] eqn:Gs; [|discriminate].
    cbn [truthy_opt] in Tb, Ts.
    rewrite (getBackupUserData_promotes id b s w Gb Tb Gs Ts) in Gb', Gs' |- *.
    cbn [snd cache] in Gb', Gs' |- *.
    assert (Ht : t < 60 * 15).
    { destruct (N.ltb_spec t (60 * 15)) as [L|L]; [exact L|].
      rewrite GET_later_saved_backup_expired in Gb' by exact L. discriminate. }
    rewrite GET_later_saved_backup in Gb' by exact Ht. injection Gb' as <-.
    rewrite GET_later_saved_userInfo in Gs'. apply GET_elapse_Some in Gs'.
    rewrite Gs in Gs'. injection Gs' as <-.
    apply GET_later_saved_primary. exact Ht. }
  destruct (decide (key = userData_key id)) as [->|Hp].
  { rewrite GET_saved_primary. symmetry. exact Hfirst. }
  destruct (decide (key = backup_key id)) as [->|Hb].
  { rewrite GET_saved_backup. symmetry. exact Gb'. }
  apply GET_saved_other; assumption.
Qed.

(** C4. When the read path finds a primary record whose stored tag differs
    from the tag recomputed over the re-encryption of its payload, and no
    backup record, it answers 400 with the fixed message of the
    tampered-and-no-backup failure; the body carries neither ciphertext nor
    plaintext, and nothing is written but the renewal of the secret's
    expiry.  (The route compares the tags only once it has a non-empty
    identity, a live non-empty secret and a primary record it can read and
    re-encrypt: that is what the first five hypotheses say.) *)
Theorem get_root_tampered_backup_missing (id s c : string) (d h : jsval) (w : server) :
  truthy id = true ->
  GET (userInfo_key id) (cache w) = Some s -> truthy s = true ->
  primary_record id (cache w) = Some (d, h) ->
  encryptData_untyped d id s = Return c ->
  strict_neq_string (generateServerHMAC c) h = true ->
  backup_record id (cache w) = None ->
  get_root (Some id) w =
    (Return {| status := 400;
               json := Failure_message
                 "Data tampered and backup missing, please connect and save data again.";
               cookie := None |},
     renewed id s w).
Proof.
  intros Ti Gs Ts P Hc Hne B.
  rewrite (get_root_compare id s d h c w Ti Gs Ts P Hc). cbv zeta. rewrite Hne.
  unfold catch_route, try_catch, mbind, M_bind.
  rewrite getBackupUserData_no_backup.
  - reflexivity.
  - rewrite <- (backup_record_renewed id id s w) in B. unfold backup_record in B.
    rewrite B. reflexivity.
Qed.

End StoreProperties.

Section RouteProperties.
Context `{Library} `{ServerProcess} `{JSON} `{Uuid}.

(** C1, as the code has it.  For an identity and a live secret (both
    non-empty), a primary record whose stored tag differs from the tag
    recomputed over the re-encryption of its plaintext, and a backup record
    that is present and not the empty string: the read answers 200 with the
    backup plaintext re-encrypted and its transit tag, and leaves the
    primary record holding the backup plaintext and its fresh at-rest tag.
    A read that follows within the records' lifetime gives the same answer
    and writes nothing but the renewal of the secret's expiry: the tag
    matches and nothing is promoted. *)
Theorem get_root_self_heals (id s c b : string) (d h : jsval) (w : server) :
  truthy id = true ->
  GET (userInfo_key id) (cache w) = Some s -> truthy s = true ->
  primary_record id (cache w) = Some (d, h) ->
  encryptData_untyped d id s = Return c ->
  strict_neq_string (generateServerHMAC c) h = true ->
  backup_record id (cache w) = Some b -> truthy b = true ->
  let reply :=
    {| status := 200;
       json := Success_data (encryptData b id s) (generateHMAC (encryptData b id s) s);
       cookie := None |} in
  let healed :=
    {| cache := saved id b (fresh_tag id s b) (cache (renewed id s w)); drawn := drawn w |} in
  get_root (Some id) w = (Return reply, healed)
  /\ primary_record id (cache healed) = Some (JString b, JString (fresh_tag id s b))
  /\ backup_record id (cache healed) = Some b
  /\ forall t, t < 60 * 15 ->
       get_root (Some id) (later t healed) = (Return reply, renewed id s (later t healed)).
Proof.
  intros Ti Gs Ts P Hc Hne B Tb. cbv zeta.
  split.
  { rewrite (get_root_compare id s d h c w Ti Gs Ts P Hc). cbv zeta. rewrite Hne.
    unfold catch_route, try_catch, mbind, M_bind.
    rewrite (getBackupUserData_promotes id b s (renewed id s w)); auto.
    - simpl. rewrite Tb. reflexivity.
    - rewrite <- (backup_record_renewed id id s w) in B. exact B.
    - apply GET_userInfo_renewed. }
  split; [apply primary_record_saved|].
  split; [apply GET_saved_backup|].
  intros t Ht.
  set (healed := {| cache := saved id b (fresh_tag id s b) (cache (renewed id s w));
                    drawn := drawn w |}).
  assert (Gs' : GET (userInfo_key id) (cache (later t healed)) = Some s).
  { unfold later, healed, renewed. cbn [cache]. rewrite GET_later_saved_userInfo.
    apply GET_elapse_SET_EX_eq. lia. }
  assert (P' : primary_record id (cache (later t healed))
               = Some (JString b, JString (fresh_tag id s b))).
  { unfold later, healed. cbn [cache]. apply primary_record_later_saved. exact Ht. }
  rewrite (get_root_compare id s (JString b) _ (encryptData b id s) (later t healed)
             Ti Gs' Ts P' eq_refl).
  cbv zeta. fold (fresh_tag id s b). rewrite strict_neq_string_refl. reflexivity.
Qed.

(** C8.  A live secret is returned and its key set again with the full
    hour to live; when the key is absent or expired, the lookup returns
    null, throws nothing and changes nothing.  (A secret is never the
    empty string: the server stores 64 hexadecimal digits, and the lookup
    stores again what it has found not to be empty.  A key that held the
    empty string would be read as absent.) *)
Theorem getUserInfo_sliding_expiry (id : string) (w : server) :
  match GET (userInfo_key id) (cache w) with
  | Some s =>
      if truthy s then
        getUserInfo id w = (Return (Some {| CacheManager.id := id; secret := s |}), renewed id s w)
        /\ GET (userInfo_key id) (cache (renewed id s w)) = Some s
        /\ TTL (userInfo_key id) (cache (renewed id s w)) = Some (60 * 60)
      else getUserInfo id w = (Return None, w)
  | None => getUserInfo id w = (Return None, w)
  end.
Proof.
  destruct (GET (userInfo_key id) (cache w)) as [s|] eqn:G.
  - destruct (truthy s) eqn:T.
    + split; [apply getUserInfo_live; assumption|].
      split; [apply GET_userInfo_renewed|].
      unfold renewed. cbn [cache]. apply TTL_SET_EX_eq. lia.
    + destruct s; [|discriminate]. apply getUserInfo_empty. exact G.
  - apply getUserInfo_missing. exact G.
Qed.

(** C10, as the code has it.  When the primary key holds a text that is not
    the empty string and that [JSON.parse] rejects, [getUserData] throws a
    [CacheError], the read answers 503, and nothing is written but the
    renewal of the secret's expiry: the comparison of tags is not reached
    and the backup is not promoted. *)
Theorem get_root_primary_not_JSON (id s text message : string) (w : server) :
  truthy id = true ->
  GET (userInfo_key id) (cache w) = Some s -> truthy s = true ->
  GET (userData_key id) (cache w) = Some text -> truthy text = true ->
  JSON_parse text = Fails message ->
  getUserData id (renewed id s w) = (Throw (CacheError message), renewed id s w)
  /\ get_root (Some id) w
    = (Return {| status := 503; json := Service_Unavailable; cookie := None |}, renewed id s w).
Proof.
  intros Ti Gs Ts G T J.
  assert (E : getUserData id (renewed id s w) = (Throw (CacheError message), renewed id s w)).
  { apply getUserData_not_JSON with (text := text); auto.
    unfold renewed. cbn [cache]. rewrite GET_SET_EX_ne by apply userInfo_userData_key. exact G. }
  split; [exact E|].
  unfold get_root. rewrite Ti. unfold catch_route, try_catch, mbind, M_bind.
  rewrite (getUserInfo_live id s w Gs Ts). simpl. rewrite E. reflexivity.
Qed.

(** C2, what the code does.  On a save whose tag does not verify, the
    ciphertext has already been decrypted when the tags are compared: the
    rejection "Data integrity compromised." is sent only if decryption
    returned, and when decryption throws the answer is the 500 of the
    route's catch-all. *)
Theorem post_root_decrypts_before_verifying (id s c t : string) (w : server) :
  truthy id = true ->
  GET (userInfo_key id) (cache w) = Some s -> truthy s = true ->
  String.eqb (generateHMAC c s) t = false ->
  post_root (Some id) {| body_data := c; body_hmac := t |} w =
    (Return
       match decryptData c id s with
       | Return _ => respond 400 (Failure_message "Data integrity compromised.")
       | Throw error => respond 500 (Failure_error error)
       end,
     renewed id s w).
Proof.
  intros Ti Gs Ts Ht. unfold post_root. rewrite Ti.
  unfold catch_route, try_catch, mbind, M_bind.
  rewrite (getUserInfo_live id s w Gs Ts). simpl. unfold call.
  unfold decryptData.
  destruct (AES_decrypt c (Hex_parse (getKey s)) (iv_of id)) as [m|msg]; simpl.
  - rewrite Ht. reflexivity.
  - reflexivity.
Qed.

End RouteProperties.

Section ClearSession.
Context `{Library} `{ServerProcess} `{JSON} `{Uuid}.

Lemma connect_run w :
  let id := uuidv4 (drawn w) in
  let secret := WordArray_random (drawn w + 1) in
  connect w =
    (Return {| status := 201;
               json := Success_connected "New secret and token created" id secret;
               cookie := Some id |},
     {| cache := SET_EX (userInfo_key id) secret (60 * 60) (cache w);
        drawn := drawn w + 1 + 1 |}).
Proof. reflexivity. Qed.



End ClearSession.

(** ** What an operation leaves alone *)

#[export] Instance untouched_preorder P : PreOrder (untouched P).
Proof.
  split.
  - intros w. repeat split.
  - intros a b c (N1 & D1 & K1) (N2 & D2 & K2). repeat split; try congruence.
    intros k Pk. rewrite K2, K1; auto.
Qed.

#[export] Instance reads_same_preorder P : PreOrder (reads_same P).
Proof.
  split.
  - intros w k _. reflexivity.
  - intros a b c K1 K2 k Pk. rewrite K2, K1; auto.
Qed.

Section Keeps.
Context {R : relation server} `{!PreOrder R}.

Lemma keeps_mret {A} (a : A) : keeps R (mret a).
Proof. intros w. reflexivity. Qed.

Lemma keeps_throw {A} e : keeps R (@throw A e).
Proof. intros w. reflexivity. Qed.

Lemma keeps_call {A} (o : outcome A) : keeps R (call o).
Proof. intros w. reflexivity. Qed.

Lemma keeps_get key : keeps R (redisClient_get key).
Proof. intros w. reflexivity. Qed.

Lemma keeps_bind {A B} (m : M A) (f : A -> M B) :
  keeps R m -> (forall a, keeps R (f a)) -> keeps R (m ≫= f).
Proof.
  intros Hm Hf w. unfold mbind, M_bind. specialize (Hm w).
  destruct (m w) as [[a|e] w1]; cbn [snd] in *.
  - etransitivity; [exact Hm | apply Hf].
  - exact Hm.
Qed.

Lemma keeps_try_catch {A} (body : M A) handler :
  keeps R body -> (forall e, keeps R (handler e)) -> keeps R (try_catch body handler).
Proof.
  intros Hb Hh w. unfold try_catch. specialize (Hb w).
  destruct (body w) as [[a|e] w1]; cbn [snd] in *.
  - exact Hb.
  - etransitivity; [exact Hb | apply Hh].
Qed.

Lemma keeps_rethrow {A} (body : M A) : keeps R body -> keeps R (rethrow_CacheError body).
Proof. intros Hb. apply keeps_try_catch; [exact Hb | intros e; apply keeps_throw]. Qed.

Lemma keeps_catch_route body : keeps R body -> keeps R (catch_route body).
Proof.
  intros Hb. apply keeps_try_catch; [exact Hb|].
  intros [n m|m]; apply keeps_mret.
Qed.

End Keeps.

(** One step of a proof that a method keeps a relation: through the
    control flow, down to the commands that write. *)
Ltac keeps_step :=
  first
    [ apply keeps_mret | apply keeps_throw | apply keeps_call | apply keeps_get
    | apply keeps_rethrow | apply keeps_catch_route | apply keeps_bind
    | match goal with
      | |- keeps _ (match ?x with _ => _ end) => destruct x
      | |- forall _, _ => intro
      end ].

Lemma GET_SET_EX_same k k' v ex r :
  0 < ex -> GET k r = Some v -> GET k' (SET_EX k v ex r) = GET k' r.
Proof.
  intros Hex G. destruct (decide (k = k')) as [<-|Hne].
  - rewrite GET_SET_EX_eq by exact Hex. symmetry. exact G.
  - apply GET_SET_EX_ne. exact Hne.
Qed.

Section Frames.
Context `{Library} `{ServerProcess} `{JSON} `{Uuid}.

Lemma keeps_set_untouched (P : string -> Prop) key v ex :
  ~ P key -> keeps (untouched P) (redisClient_set key v ex).
Proof.
  intros HP w. repeat split. intros k Pk. cbn.
  apply lookup_insert_ne. intros ->. auto.
Qed.

Lemma keeps_multi_untouched (P : string -> Prop) k1 v1 e1 k2 v2 e2 :
  ~ P k1 -> ~ P k2 -> keeps (untouched P) (multi_exec [SET_EX k1 v1 e1; SET_EX k2 v2 e2]).
Proof.
  intros N1 N2 w. repeat split. intros k Pk. cbn.
  rewrite !lookup_insert_ne; [reflexivity | intros ->; auto | intros ->; auto].
Qed.

Lemma not_foreign_userInfo id : ~ foreign id (userInfo_key id).
Proof. intros (E & _). congruence. Qed.

Lemma not_foreign_userData id : ~ foreign id (userData_key id).
Proof. intros (_ & E & _). congruence. Qed.

Lemma not_foreign_backup id : ~ foreign id (backup_key id).
Proof. intros (_ & _ & E). congruence. Qed.

Lemma putUserInfo_foreign id s :
  keeps (untouched (foreign id)) (putUserInfo {| CacheManager.id := id; secret := s |}).
Proof.
  unfold putUserInfo, ensureConnected. repeat keeps_step.
  apply keeps_set_untouched, not_foreign_userInfo.
Qed.

Lemma putUserData_foreign id d h :
  keeps (untouched (foreign id)) (putUserData {| ud_id := id; data := d; hmac := h |}).
Proof.
  unfold putUserData, ensureConnected. repeat keeps_step.
  apply keeps_multi_untouched; [apply not_foreign_userData | apply not_foreign_backup].
Qed.

Lemma getUserInfo_foreign id : keeps (untouched (foreign id)) (getUserInfo id).
Proof.
  unfold getUserInfo, ensureConnected. repeat keeps_step.
  apply keeps_set_untouched, not_foreign_userInfo.
Qed.

Lemma getUserData_untouched P id : keeps (untouched P) (getUserData id).
Proof. unfold getUserData, ensureConnected. repeat keeps_step. Qed.

Lemma getBackupUserData_foreign id : keeps (untouched (foreign id)) (getBackupUserData id).
Proof.
  unfold getBackupUserData, ensureConnected. repeat keeps_step.
  apply keeps_multi_untouched; [apply not_foreign_userData | apply not_foreign_backup].
Qed.

Lemma get_root_foreign id : keeps (untouched (foreign id)) (get_root (Some id)).
Proof.
  unfold get_root. cbv zeta.
  repeat first [ apply getUserInfo_foreign | apply getUserData_untouched
               | apply getBackupUserData_foreign | keeps_step ].
Qed.

Lemma post_root_foreign id body : keeps (untouched (foreign id)) (post_root (Some id) body).
Proof.
  unfold post_root. cbv zeta.
  repeat first [ apply getUserInfo_foreign | apply putUserData_foreign | keeps_step ].
Qed.

End Frames.

(** ** The routes, case by case *)

Section RouteCases.
Context `{Library} `{ServerProcess} `{JSON} `{Uuid}.

Lemma getUserInfo_not_live id w :
  truthy_opt (GET (userInfo_key id) (cache w)) = false -> getUserInfo id w = (Return None, w).
Proof.
  intros T. destruct (GET (userInfo_key id) (cache w)) as [s|] eqn:G.
  - destruct s; [|discriminate]. apply getUserInfo_empty. exact G.
  - apply getUserInfo_missing. exact G.
Qed.

Lemma getUserData_snd id w : snd (getUserData id w) = w.
Proof.
  unfold getUserData. run.
  destruct (GET (userData_key id) (cache w)) as [text|]; [|reflexivity].
  destruct (truthy text); [|reflexivity].
  destruct (JSON_parse text) as [v|m]; [|reflexivity]. run.
  destruct (get_prop v "data"); [|reflexivity]. simpl.
  destruct (get_prop v "hmac"); reflexivity.
Qed.

Lemma getUserData_not_live id w :
  truthy_opt (GET (userData_key id) (cache w)) = false -> getUserData id w = (Return None, w).
Proof.
  intros T. destruct (GET (userData_key id) (cache w)) as [s|] eqn:G.
  - destruct s; [|discriminate]. apply getUserData_empty. exact G.
  - apply getUserData_missing. exact G.
Qed.

Lemma get_root_no_id w :
  get_root None w = (Return (respond 400 (Failure_message "Bad Request.")), w)
  /\ get_root (Some "") w = (Return (respond 400 (Failure_message "Bad Request.")), w).
Proof. split; reflexivity. Qed.

Lemma post_root_no_id body w :
  post_root None body w = (Return (respond 400 (Failure_message "Bad Request.")), w)
  /\ post_root (Some "") body w = (Return (respond 400 (Failure_message "Bad Request.")), w).
Proof. split; reflexivity. Qed.

Lemma get_root_no_secret id w :
  truthy id = true -> truthy_opt (GET (userInfo_key id) (cache w)) = false ->
  get_root (Some id) w
  = (Return (respond 400 (Failure_message "Secret missing, please connect again.")), w).
Proof.
  intros Ti T. unfold get_root. rewrite Ti. unfold catch_route, try_catch, mbind, M_bind.
  rewrite (getUserInfo_not_live id w T). reflexivity.
Qed.

Lemma post_root_no_secret id body w :
  truthy id = true -> truthy_opt (GET (userInfo_key id) (cache w)) = false ->
  post_root (Some id) body w
  = (Return (respond 400 (Failure_message "Secret missing, please connect again.")), w).
Proof.
  intros Ti T. unfold post_root. rewrite Ti. unfold catch_route, try_catch, mbind, M_bind.
  rewrite (getUserInfo_not_live id w T). reflexivity.
Qed.

Lemma get_root_no_data id s w :
  truthy id = true -> GET (userInfo_key id) (cache w) = Some s -> truthy s = true ->
  truthy_opt (GET (userData_key id) (cache w)) = false ->
  get_root (Some id) w
  = (Return (respond 400 (Failure_message "Data missing, please save data again.")),
     renewed id s w).
Proof.
  intros Ti Gs Ts T. unfold get_root. rewrite Ti.
  unfold catch_route, try_catch, mbind, M_bind.
  rewrite (getUserInfo_live id s w Gs Ts). simpl.
  rewrite getUserData_not_live; [reflexivity|].
  unfold renewed. cbn [cache]. rewrite GET_SET_EX_ne by apply userInfo_userData_key. exact T.
Qed.

(** [POST /] under a live session. *)
Lemma post_root_live id s c t w :
  truthy id = true -> GET (userInfo_key id) (cache w) = Some s -> truthy s = true ->
  post_root (Some id) {| body_data := c; body_hmac := t |} w =
    match decryptData c id s with
    | Throw error => (Return (respond 500 (Failure_error error)), renewed id s w)
    | Return p =>
        if String.eqb (generateHMAC c s) t then
          (Return (respond 200 (Success_message "Data Saved")),
           {| cache := saved id p (generateServerHMAC c) (cache (renewed id s w));
              drawn := drawn w |})
        else
          (Return (respond 400 (Failure_message "Data integrity compromised.")),
           renewed id s w)
    end.
Proof.
  intros Ti Gs Ts. unfold post_root. rewrite Ti.
  unfold catch_route, try_catch, mbind, M_bind.
  rewrite (getUserInfo_live id s w Gs Ts). simpl. unfold call, decryptData.
  destruct (AES_decrypt c (Hex_parse (getKey s)) (iv_of id)) as [p|msg]; simpl; [|reflexivity].
  destruct (String.eqb (generateHMAC c s) t); simpl; [|reflexivity].
  unfold putUserData. run. reflexivity.
Qed.

(** [GET /] on a record whose tag matches. *)
Lemma get_root_matching id s d h c w :
  truthy id = true -> GET (userInfo_key id) (cache w) = Some s -> truthy s = true ->
  primary_record id (cache w) = Some (d, h) ->
  encryptData_untyped d id s = Return c ->
  strict_neq_string (generateServerHMAC c) h = false ->
  get_root (Some id) w
  = (Return (respond 200 (Success_data c (generateHMAC c s))), renewed id s w).
Proof.
  intros Ti Gs Ts P Hc E.
  rewrite (get_root_compare id s d h c w Ti Gs Ts P Hc). cbv zeta. rewrite E. reflexivity.
Qed.

Lemma GET_renewed_same id s k w :
  GET (userInfo_key id) (cache w) = Some s -> GET k (cache (renewed id s w)) = GET k (cache w).
Proof. intros G. unfold renewed. cbn [cache]. apply GET_SET_EX_same; [lia | exact G]. Qed.

Lemma getUserInfo_reads_same id w k :
  GET k (cache (snd (getUserInfo id w))) = GET k (cache w).
Proof.
  destruct (truthy_opt (GET (userInfo_key id) (cache w))) eqn:T.
  - destruct (GET (userInfo_key id) (cache w)) as [s|] eqn:G; [|discriminate].
    rewrite (getUserInfo_live id s w G T). cbn [snd]. apply GET_renewed_same. exact G.
  - rewrite (getUserInfo_not_live id w T). reflexivity.
Qed.

Lemma getBackupUserData_reads_same id w k :
  k <> userData_key id -> GET k (cache (snd (getBackupUserData id w))) = GET k (cache w).
Proof.
  intros Hk.
  destruct (truthy_opt (GET (backup_key id) (cache w))) eqn:Tb; cycle 1.
  { rewrite (getBackupUserData_no_backup id w Tb). reflexivity. }
  destruct (truthy_opt (GET (userInfo_key id) (cache w))) eqn:Ts; cycle 1.
  { rewrite (getBackupUserData_no_secret id w Ts). reflexivity. }
  destruct (GET (backup_key id) (cache w)) as [b|] eqn:Gb; [|discriminate].
  destruct (GET (userInfo_key id) (cache w)) as [s|] eqn:Gs; [|discriminate].
  rewrite (getBackupUserData_promotes id b s w Gb Tb Gs Ts). cbn [snd cache].
  destruct (decide (k = backup_key id)) as [->|Hb].
  - rewrite GET_saved_backup. symmetry. exact Gb.
  - apply GET_saved_other; assumption.
Qed.

End RouteCases.

(** ** Saving, reading and the lifetime of what is stored *)

Section ServerProperties.
Context `{Library} `{ServerProcess} `{JSON} `{Uuid}.

Lemma userData_key_inj a b : userData_key a = userData_key b -> a = b.
Proof. unfold userData_key. cbv [String.append]. intros E. injection E. auto. Qed.

Lemma backup_key_inj a b : backup_key a = backup_key b -> a = b.
Proof. unfold backup_key. cbv [String.append]. intros E. injection E. auto. Qed.

Lemma foreign_keys id id' :
  id <> id' ->
  foreign id (userInfo_key id') /\ foreign id (userData_key id') /\ foreign id (backup_key id').
Proof.
  intros Hne. unfold foreign. repeat split; intros E;
    first [ apply userInfo_key_inj in E | apply userData_key_inj in E
          | apply backup_key_inj in E
          | exact (userInfo_userData_key _ _ E) | exact (userInfo_backup_key _ _ E)
          | exact (userData_backup_key _ _ E)
          | exact (userInfo_userData_key _ _ (eq_sym E))
          | exact (userInfo_backup_key _ _ (eq_sym E))
          | exact (userData_backup_key _ _ (eq_sym E)) ];
    congruence.
Qed.

Lemma post_root_honest id s P w :
  truthy id = true -> GET (userInfo_key id) (cache w) = Some s -> truthy s = true ->
  post_root (Some id) (honest_save id s P) w
  = (Return (respond 200 (Success_message "Data Saved")),
     {| cache := saved id P (fresh_tag id s P) (cache (renewed id s w)); drawn := drawn w |}).
Proof.
  intros Ti Gs Ts. unfold honest_save. rewrite (post_root_live id s _ _ w Ti Gs Ts).
  unfold decryptData, encryptData. rewrite AES_decrypt_encrypt. cbn [of_lib].
  rewrite String.eqb_refl. reflexivity.
Qed.

(** X1. Save, then read.  Under a live session, the save of the ciphertext
    of a plaintext with its transit tag is acknowledged and stores that
    plaintext in both records; a read within the next 15 minutes answers
    with the very ciphertext that was saved and its transit tag, which
    decrypts to the plaintext, and writes nothing but the renewal of the
    secret's expiry. *)
Theorem save_then_read (id s P : string) (w : server) :
  truthy id = true -> GET (userInfo_key id) (cache w) = Some s -> truthy s = true ->
  let c := encryptData P id s in
  let w1 := snd (post_root (Some id) (honest_save id s P) w) in
  fst (post_root (Some id) (honest_save id s P) w)
    = Return (respond 200 (Success_message "Data Saved"))
  /\ primary_record id (cache w1) = Some (JString P, JString (generateServerHMAC c))
  /\ backup_record id (cache w1) = Some P
  /\ decryptData c id s = Return P
  /\ forall t, t < 60 * 15 ->
       get_root (Some id) (later t w1)
       = (Return (respond 200 (Success_data c (generateHMAC c s))), renewed id s (later t w1)).
Proof.
  intros Ti Gs Ts. cbv zeta. rewrite (post_root_honest id s P w Ti Gs Ts). cbn [fst snd cache].
  split; [reflexivity|].
  split; [apply primary_record_saved|].
  split; [apply GET_saved_backup|].
  split.
  { unfold decryptData, encryptData. rewrite AES_decrypt_encrypt. reflexivity. }
  intros t Ht.
  apply get_root_matching with (d := JString P) (h := JString (fresh_tag id s P)).
  - exact Ti.
  - unfold later, renewed. cbn [cache]. rewrite GET_later_saved_userInfo.
    apply GET_elapse_SET_EX_eq. lia.
  - exact Ts.
  - unfold later. cbn [cache]. apply primary_record_later_saved. exact Ht.
  - reflexivity.
  - apply strict_neq_string_refl.
Qed.

Lemma GET_later_saved_primary_expired id d h t r :
  60 * 15 <= t -> GET (userData_key id) (elapse t (saved id d h r)) = None.
Proof.
  intros Ht. unfold saved, EXEC. simpl.
  rewrite GET_elapse_SET_EX_ne by (apply not_eq_sym, userData_backup_key).
  apply GET_elapse_SET_EX_expired. exact Ht.
Qed.

(** X2. A saved record lives 15 minutes.  From 15 minutes after an
    acknowledged save, and while the session is still live (within the
    hour), a read answers 400 "Data missing, please save data again.": the
    primary and the backup have both expired, and nothing is written
    but the renewal of the secret's expiry. *)
Theorem read_after_record_expiry (id s P : string) (t : N) (w : server) :
  truthy id = true -> GET (userInfo_key id) (cache w) = Some s -> truthy s = true ->
  60 * 15 <= t -> t < 60 * 60 ->
  let w1 := later t (snd (post_root (Some id) (honest_save id s P) w)) in
  primary_record id (cache w1) = None
  /\ backup_record id (cache w1) = None
  /\ get_root (Some id) w1
     = (Return (respond 400 (Failure_message "Data missing, please save data again.")),
        renewed id s w1).
Proof.
  intros Ti Gs Ts Ht1 Ht2. cbv zeta. rewrite (post_root_honest id s P w Ti Gs Ts).
  cbn [snd]. unfold later. cbn [cache drawn].
  split.
  { unfold primary_record. rewrite GET_later_saved_primary_expired by exact Ht1. reflexivity. }
  split.
  { apply GET_later_saved_backup_expired. exact Ht1. }
  apply get_root_no_data.
  - exact Ti.
  - cbn [cache]. rewrite GET_later_saved_userInfo. unfold renewed. cbn [cache].
    apply GET_elapse_SET_EX_eq. exact Ht2.
  - exact Ts.
  - cbn [cache]. rewrite GET_later_saved_primary_expired by exact Ht1. reflexivity.
Qed.

(** X3. What a save can do.  [POST /] always answers.  When it answers 200,
    the submitted tag is the transit tag of the submitted ciphertext under
    the caller's live secret, and both records hold the decryption of that
    ciphertext, the primary with the at-rest tag of the ciphertext.  When
    it answers anything else, every key of the store reads as it did
    before. *)
Theorem post_root_writes_only_verified (req_id : option string) (c t : string) (w : server) :
  let answer := post_root req_id {| body_data := c; body_hmac := t |} w in
  exists r,
    fst answer = Return r
    /\ (status r = 200 ->
        exists id s p,
          req_id = Some id /\ GET (userInfo_key id) (cache w) = Some s
          /\ generateHMAC c s = t /\ decryptData c id s = Return p
          /\ primary_record id (cache (snd answer))
             = Some (JString p, JString (generateServerHMAC c))
          /\ backup_record id (cache (snd answer)) = Some p)
    /\ (status r <> 200 -> forall k, GET k (cache (snd answer)) = GET k (cache w)).
Proof.
  cbv zeta.
  destruct req_id as [id|]; cycle 1.
  { rewrite (proj1 (post_root_no_id _ w)). eexists. split; [reflexivity|].
    split; [discriminate | reflexivity]. }
  destruct (truthy id) eqn:Ti; cycle 1.
  { destruct id; [|discriminate]. rewrite (proj2 (post_root_no_id _ w)).
    eexists. split; [reflexivity|]. split; [discriminate | reflexivity]. }
  destruct (truthy_opt (GET (userInfo_key id) (cache w))) eqn:Ts; cycle 1.
  { rewrite (post_root_no_secret id _ w Ti Ts). eexists. split; [reflexivity|].
    split; [discriminate | reflexivity]. }
  destruct (GET (userInfo_key id) (cache w)) as [s|] eqn:Gs; [|discriminate].
  cbn [truthy_opt] in Ts. rewrite (post_root_live id s c t w Ti Gs Ts).
  destruct (decryptData c id s) as [p|e] eqn:D.
  - destruct (String.eqb (generateHMAC c s) t) eqn:E.
    + eexists. split; [reflexivity|]. cbn [snd cache]. split.
      * intros _. exists id, s, p. apply String.eqb_eq in E.
        repeat split; auto using primary_record_saved. apply GET_saved_backup.
      * intros N. exfalso. apply N. reflexivity.
    + eexists. split; [reflexivity|]. cbn [snd]. split; [discriminate|].
      intros _ k. apply GET_renewed_same. exact Gs.
  - eexists. split; [reflexivity|]. cbn [snd]. split; [discriminate|].
    intros _ k. apply GET_renewed_same. exact Gs.
Qed.

Lemma getUserInfo_keeps_reads P id : keeps (reads_same P) (getUserInfo id).
Proof. intros w k _. apply getUserInfo_reads_same. Qed.

Lemma getUserData_keeps_reads P id : keeps (reads_same P) (getUserData id).
Proof. intros w k _. rewrite getUserData_snd. reflexivity. Qed.

Lemma getBackupUserData_keeps_reads id :
  keeps (reads_same (fun k => k <> userData_key id)) (getBackupUserData id).
Proof. intros w k Hk. apply getBackupUserData_reads_same. exact Hk. Qed.

(** X4. What a read can change.  Whatever its answer, [GET /] leaves every
    key other than the caller's own primary record reading as before: no
    backup and no secret, of the caller or of anyone else, changes its
    value, and no other identity's primary record does. *)
Theorem get_root_changes_only_own_primary (req_id : option string) (w : server) (k : string) :
  (forall id, req_id = Some id -> k <> userData_key id) ->
  GET k (cache (snd (get_root req_id w))) = GET k (cache w).
Proof.
  intros Hk. destruct req_id as [id|]; [|reflexivity].
  specialize (Hk id eq_refl). revert w k Hk.
  change (keeps (reads_same (fun k => k <> userData_key id)) (get_root (Some id))).
  unfold get_root. cbv zeta.
  repeat first [ apply getUserInfo_keeps_reads | apply getUserData_keeps_reads
               | apply getBackupUserData_keeps_reads | keeps_step ].
Qed.

(** X5. Identities are isolated.  A read or a save made for one identity
    leaves the stored entries (value and expiry) of every other identity's
    secret, primary record and backup record exactly as they were. *)
Theorem routes_leave_other_identities (id id' : string) (body : save_body) (w : server) :
  id <> id' ->
  let same (w' : server) :=
    db (cache w') !! userInfo_key id' = db (cache w) !! userInfo_key id'
    /\ db (cache w') !! userData_key id' = db (cache w) !! userData_key id'
    /\ db (cache w') !! backup_key id' = db (cache w) !! backup_key id' in
  same (snd (get_root (Some id) w)) /\ same (snd (post_root (Some id) body w)).
Proof.
  intros Hne. cbv zeta. destruct (foreign_keys id id' Hne) as (F1 & F2 & F3).
  destruct (get_root_foreign id w) as (_ & _ & Kg).
  destruct (post_root_foreign id body w) as (_ & _ & Kp).
  repeat split; auto.
Qed.

End ServerProperties.

(** ** Sessions over time *)

Section SessionProperties.
Context `{Library} `{ServerProcess} `{JSON} `{Uuid}.

Lemma GET_elapse_SET_EX_other_expiry k v ex t r :
  GET k (elapse t (SET_EX k v ex r)) = if t <? ex then Some v else None.
Proof.
  destruct (N.ltb_spec t ex).
  - apply GET_elapse_SET_EX_eq. assumption.
  - apply GET_elapse_SET_EX_expired. assumption.
Qed.

Lemma entry_live k r v ttl :
  db r !! k = Some {| value := v; expireAt := Some (now r + ttl) |} -> 0 < ttl ->
  GET k r = Some v /\ TTL k r = Some ttl.
Proof.
  intros E Hl. unfold GET, TTL, expired. rewrite E. cbn.
  destruct (N.leb_spec (now r + ttl) (now r)); [lia|]. split; [reflexivity|].
  f_equal. lia.
Qed.

Lemma lookups_keep_alive id s gaps :
  truthy s = true -> Forall (fun gap => gap < 60 * 60) gaps ->
  forall w,
    db (cache w) !! userInfo_key id
      = Some {| value := s; expireAt := Some (now (cache w) + 60 * 60) |} ->
    db (cache (lookups id gaps w)) !! userInfo_key id
      = Some {| value := s; expireAt := Some (now (cache (lookups id gaps w)) + 60 * 60) |}.
Proof.
  intros Ts Hg. induction Hg as [|gap rest Hgap _ IH]; intros w Hw; [exact Hw|].
  cbn [lookups]. apply IH.
  rewrite getUserInfo_live with (s := s); [|  |exact Ts].
  - cbn. apply lookup_insert_eq.
  - unfold GET, later, elapse, expired. cbn. rewrite Hw. cbn.
    destruct (N.leb_spec (now (cache w) + 60 * 60) (now (cache w) + gap)); [lia|reflexivity].
Qed.

(** X7. Sliding expiry.  After a lookup, any number of further lookups each
    made less than an hour after the one before keep the session live:
    the last one leaves the same secret with a full hour to go, however
    long the whole sequence took. *)
Theorem lookups_slide_expiry (id s : string) (gaps : list N) (w : server) :
  GET (userInfo_key id) (cache w) = Some s -> truthy s = true ->
  Forall (fun gap => gap < 60 * 60) gaps ->
  let w' := lookups id gaps (snd (getUserInfo id w)) in
  GET (userInfo_key id) (cache w') = Some s
  /\ TTL (userInfo_key id) (cache w') = Some (60 * 60)
  /\ now (cache w') = now (cache w) + foldr N.add 0 gaps.
Proof.
  intros G Ts Hg. cbv zeta. rewrite (getUserInfo_live id s w G Ts). cbn [snd].
  assert (E := lookups_keep_alive id s gaps Ts Hg (renewed id s w)).
  cbn in E. rewrite lookup_insert_eq in E. specialize (E eq_refl).
  destruct (entry_live _ _ _ _ E) as (EG & ET); [lia|].
  split; [exact EG|]. split; [exact ET|].
  clear E EG ET G. change (now (cache w)) with (now (cache (renewed id s w))).
  generalize (renewed id s w) as v. induction gaps as [|gap rest IH]; intros v.
  - cbn. lia.
  - cbn [lookups foldr]. inversion Hg as [|? ? Hgap Hrest]; subst.
    rewrite (IH Hrest).
    assert (N1 : now (cache (snd (getUserInfo id (later gap v)))) = now (cache v) + gap).
    { destruct (getUserInfo_foreign id (later gap v)) as (N1 & _). rewrite N1. reflexivity. }
    rewrite N1. lia.
Qed.

(** X8. Overwriting the backup.  [putBackupUserData] never throws, sets the
    backup record to the given data for 15 minutes and touches no other
    key (its tag argument is not stored).  Under a live session and for
    data other than the empty string, the self-heal that follows promotes
    exactly that data, with its fresh at-rest tag, to the primary record. *)
Theorem putBackupUserData_then_promote (id s d h : string) (w : server) :
  GET (userInfo_key id) (cache w) = Some s -> truthy s = true -> truthy d = true ->
  let w' := snd (putBackupUserData {| ud_id := id; data := d; hmac := h |} w) in
  fst (putBackupUserData {| ud_id := id; data := d; hmac := h |} w) = Return tt
  /\ backup_record id (cache w') = Some d
  /\ TTL (backup_key id) (cache w') = Some (60 * 15)
  /\ (forall k, k <> backup_key id -> db (cache w') !! k = db (cache w) !! k)
  /\ fst (getBackupUserData id w') = Return (Some d)
  /\ primary_record id (cache (snd (getBackupUserData id w')))
     = Some (JString d, JString (fresh_tag id s d)).
Proof.
  intros Gs Ts Td. cbv zeta.
  assert (E : putBackupUserData {| ud_id := id; data := d; hmac := h |} w
              = (Return tt, {| cache := SET_EX (backup_key id) d (60 * 15) (cache w);
                               drawn := drawn w |})).
  { unfold putBackupUserData. run. reflexivity. }
  rewrite E. cbn [fst snd cache].
  split; [reflexivity|].
  split; [apply GET_SET_EX_eq; lia|].
  split; [apply TTL_SET_EX_eq; lia|].
  split.
  { intros k Hk. cbn. apply lookup_insert_ne. congruence. }
  rewrite (getBackupUserData_promotes id d s) ; cbn [fst snd cache]; auto.
  - split; [reflexivity | apply primary_record_saved].
  - apply GET_SET_EX_eq. lia.
  - rewrite GET_SET_EX_ne by (apply not_eq_sym, userInfo_backup_key). exact Gs.
Qed.

End SessionProperties.

(** ** The middleware *)

Section CookieParsing.

Lemma split_from_semicolon_piece a rest :
  without ";" a = true ->
  split_from "; " (a +:+ "; " +:+ rest) 0 = (a, split "; " rest).
Proof.
  induction a as [|c a IH]; intros Ha.
  - change ("" +:+ "; " +:+ rest) with (String ";" (String " " rest)).
    cbn [split_from starts_with Ascii.eqb Bool.eqb andb String.length Nat.sub].
    unfold split. destruct (split_from "; " rest 0). reflexivity.
  - cbn in Ha. apply andb_prop in Ha as [Hc Ha].
    change (String c a +:+ "; " +:+ rest) with (String c (a +:+ "; " +:+ rest)).
    cbn [split_from starts_with].
    replace (Ascii.eqb ";" c) with false
      by (symmetry; rewrite Ascii.eqb_sym; apply negb_true_iff; exact Hc).
    cbn [andb]. rewrite (IH Ha). reflexivity.
Qed.

Lemma split_from_semicolon_last a :
  without ";" a = true -> split_from "; " a 0 = (a, []).
Proof.
  induction a as [|c a IH]; intros Ha; [reflexivity|].
  cbn in Ha. apply andb_prop in Ha as [Hc Ha].
  cbn [split_from starts_with].
  replace (Ascii.eqb ";" c) with false
    by (symmetry; rewrite Ascii.eqb_sym; apply negb_true_iff; exact Hc).
  cbn [andb]. rewrite (IH Ha). reflexivity.
Qed.

Lemma split_from_eq_name n v :
  without "=" n = true ->
  split_from "=" (n +:+ "=" +:+ v) 0 = (n, split "=" v).
Proof.
  induction n as [|c n IH]; intros Hn.
  - change ("" +:+ "=" +:+ v) with (String "=" v).
    cbn [split_from starts_with Ascii.eqb Bool.eqb andb String.length Nat.sub].
    unfold split. destruct (split_from "=" v 0). reflexivity.
  - cbn in Hn. apply andb_prop in Hn as [Hc Hn].
    change (String c n +:+ "=" +:+ v) with (String c (n +:+ "=" +:+ v)).
    cbn [split_from starts_with].
    replace (Ascii.eqb "=" c) with false
      by (symmetry; rewrite Ascii.eqb_sym; apply negb_true_iff; exact Hc).
    cbn [andb]. rewrite (IH Hn). reflexivity.
Qed.

Lemma split_from_eq_before v : fst (split_from "=" v 0) = before "=" v.
Proof.
  induction v as [|c v IH]; [reflexivity|].
  cbn [split_from starts_with before]. rewrite (Ascii.eqb_sym c "=").
  destruct (Ascii.eqb "=" c); cbn [andb].
  - destruct (split_from "=" v (String.length "=" - 1)). reflexivity.
  - destruct (split_from "=" v 0). cbn in *. congruence.
Qed.

Lemma without_append c a b :
  without c (a +:+ b) = without c a && without c b.
Proof.
  induction a as [|x a IH]; [reflexivity|].
  change (String x a +:+ b) with (String x (a +:+ b)). cbn. rewrite <- andb_assoc.
  f_equal. exact IH.
Qed.

Lemma first_token_cons n v rest :
  without "=" n = true ->
  first_token ((n +:+ "=" +:+ v) :: rest)
  = if String.eqb n "token" then JString (before "=" v) else first_token rest.
Proof.
  intros Hn. cbn [first_token]. unfold split at 1. rewrite (split_from_eq_name n v Hn).
  destruct (String.eqb n "token"); [|reflexivity].
  unfold split. pose proof (split_from_eq_before v) as E.
  destruct (split_from "=" v 0) as [piece pieces]. cbn in E. rewrite E. reflexivity.
Qed.

Lemma first_token_header cookies :
  forallb well_formed cookies = true ->
  first_token (split "; " (cookie_header cookies))
  = JString (default "" (before "=" <$> token_cookie cookies)).
Proof.
  induction cookies as [|[n v] rest IH]; intros Hwf; [reflexivity|].
  cbn [forallb] in Hwf. apply andb_prop in Hwf as [Hc Hrest].
  unfold well_formed in Hc. cbn [fst snd] in Hc.
  apply andb_prop in Hc as [Hc Hv]. apply andb_prop in Hc as [Hn1 Hn2].
  assert (Hpiece : without ";" (n +:+ "=" +:+ v) = true).
  { rewrite !without_append, Hn1, Hv. reflexivity. }
  cbn [token_cookie].
  destruct rest as [|next rest'].
  - cbn [cookie_header]. unfold split. rewrite (split_from_semicolon_last _ Hpiece).
    rewrite (first_token_cons n v [] Hn2). cbn [first_token token_cookie].
    destruct (String.eqb n "token"); reflexivity.
  - change (cookie_header ((n, v) :: next :: rest'))
      with ((n +:+ "=" +:+ v) +:+ "; " +:+ cookie_header (next :: rest')).
    unfold split at 1. rewrite (split_from_semicolon_piece _ _ Hpiece).
    rewrite (first_token_cons n v _ Hn2).
    destruct (String.eqb n "token"); [reflexivity|].
    apply IH. exact Hrest.
Qed.

(** X9. Reading the token out of the [Cookie] header.  With no header the
    result is null.  For the header a browser builds from its cookies
    (names and values without semicolon, names without equals sign), the
    result is the value of the first cookie named token, cut at its first
    equals sign, and the empty string when no cookie has that name. *)
Theorem extractTokenFromCookie_header (cookies : list (string * string)) :
  forallb well_formed cookies = true ->
  extractTokenFromCookie None = JNull
  /\ extractTokenFromCookie (Some (cookie_header cookies))
     = JString (default "" (before "=" <$> token_cookie cookies)).
Proof.
  intros Hwf. split; [reflexivity|].
  unfold extractTokenFromCookie. cbv zeta. apply first_token_header. exact Hwf.
Qed.

End CookieParsing.

Section Middleware.
Context `{Library} `{ServerProcess} `{JSON} `{Uuid} `{JWT}.

(** X10. What gets past [verifyToken].  For every [Cookie] header, either
    both routes answer 401 without reading or writing the store, or the
    header holds a non-empty token that verifies to a non-empty identity
    and each route runs for that identity.  A route behind the middleware
    is never run without an identity or with an empty one. *)
Theorem routes_behind_verifyToken (cookie : option string) (body : save_body) (w : server) :
  (exists error,
      app_get_root cookie w = (Return (Unauthorized error), w)
      /\ app_post_root cookie body w = (Return (Unauthorized error), w))
  \/ (exists token id,
        extractTokenFromCookie cookie = JString token /\ truthy token = true
        /\ jwt_verify token (now (cache w)) = Value (Some id) /\ truthy id = true
        /\ app_get_root cookie w = routed (get_root (Some id) w)
        /\ app_post_root cookie body w = routed (post_root (Some id) body w)).
Proof.
  unfold app_get_root, app_post_root, verifyToken. cbv zeta.
  destruct (extractTokenFromCookie cookie) as [| |b|n|token|l|l];
    try (left; eexists; split; reflexivity).
  destruct (truthy token) eqn:Tt; [|left; eexists; split; reflexivity].
  destruct (jwt_verify token (now (cache w))) as [[id|]|m] eqn:V;
    try (left; eexists; split; reflexivity).
  destruct (truthy id) eqn:Ti; [|left; eexists; split; reflexivity].
  right. exists token, id. repeat split; assumption || reflexivity.
Qed.

Lemma before_without c s : without c s = true -> before c s = s.
Proof.
  induction s as [|x s IH]; [reflexivity|]. cbn. intros Hs.
  apply andb_prop in Hs as [Hx Hs]. apply negb_true_iff in Hx. rewrite Hx, (IH Hs).
  reflexivity.
Qed.

Lemma jwt_sign_without_eq id iat : without "=" (jwt_sign id iat) = true.
Proof.
  destruct (jwt_sign_text id iat) as (_ & Hall). unfold without.
  rewrite forallb_forall in *. intros x Hx. specialize (Hall x Hx).
  apply negb_true_iff in Hall. apply orb_false_elim in Hall as [_ Hall].
  rewrite Hall. reflexivity.
Qed.

Lemma jwt_sign_truthy id iat : truthy (jwt_sign id iat) = true.
Proof.
  destruct (jwt_sign_text id iat) as (Hne & _). destruct (jwt_sign id iat); [congruence|].
  reflexivity.
Qed.

Lemma extract_signed_token cookies id iat :
  forallb well_formed cookies = true ->
  token_cookie cookies = Some (jwt_sign id iat) ->
  extractTokenFromCookie (Some (cookie_header cookies)) = JString (jwt_sign id iat).
Proof.
  intros Hwf Ht. unfold extractTokenFromCookie. cbv zeta.
  rewrite (first_token_header cookies Hwf), Ht. cbn.
  rewrite before_without by apply jwt_sign_without_eq. reflexivity.
Qed.

Lemma jwt_sign_without_semicolon id iat : without ";" (jwt_sign id iat) = true.
Proof.
  destruct (jwt_sign_text id iat) as (_ & Hall). unfold without.
  rewrite forallb_forall in *. intros x Hx. specialize (Hall x Hx).
  apply negb_true_iff in Hall. apply orb_false_elim in Hall as [Hall _].
  rewrite Hall. reflexivity.
Qed.

Lemma verifyToken_signed cookies id iat next w :
  forallb well_formed cookies = true ->
  token_cookie cookies = Some (jwt_sign id iat) ->
  truthy id = true -> now (cache w) < iat + 60 * 60 ->
  verifyToken (Some (cookie_header cookies)) next w = routed (next id w).
Proof.
  intros Hwf Ht Ti Hnow. unfold verifyToken. cbv zeta.
  rewrite (extract_signed_token cookies id iat Hwf Ht), jwt_sign_truthy.
  rewrite (jwt_verify_sign id iat _ Hnow), Ti. reflexivity.
Qed.

Lemma verifyToken_session_cookie id iat next w :
  truthy id = true -> now (cache w) < iat + 60 * 60 ->
  verifyToken (Some (cookie_header [("token", jwt_sign id iat)])) next w = routed (next id w).
Proof.
  intros Ti Hnow. apply verifyToken_signed with (iat := iat); auto.
  cbn [forallb]. unfold well_formed. cbn [fst snd].
  rewrite jwt_sign_without_semicolon. reflexivity.
Qed.

(** X11. The token cookie of a session.  A browser that holds the token
    signed for a non-empty identity, among other cookies, gets through the
    middleware for an hour from the signing: each route then runs for that
    identity.  From the hour on, both routes answer 401, invalid or expired
    token, and the store is neither read nor written. *)
Theorem session_token_accepted_for_an_hour
    (cookies : list (string * string)) (id : string) (iat : N) (body : save_body) (w : server) :
  forallb well_formed cookies = true ->
  token_cookie cookies = Some (jwt_sign id iat) ->
  truthy id = true ->
  let header := Some (cookie_header cookies) in
  (now (cache w) < iat + 60 * 60 ->
     app_get_root header w = routed (get_root (Some id) w)
     /\ app_post_root header body w = routed (post_root (Some id) body w))
  /\ (iat + 60 * 60 <= now (cache w) ->
      let refused :=
        (Return (Unauthorized "User Not Authorized - Invalid or Expired Token"), w) in
      app_get_root header w = refused /\ app_post_root header body w = refused).
Proof.
  intros Hwf Ht Ti. cbv zeta. unfold app_get_root, app_post_root, verifyToken. cbv zeta.
  rewrite (extract_signed_token cookies id iat Hwf Ht), jwt_sign_truthy.
  split; intros Hnow.
  - rewrite (jwt_verify_sign id iat _ Hnow), Ti. split; reflexivity.
  - destruct (jwt_verify_expired id iat _ Hnow) as [m ->]. split; reflexivity.
Qed.

Lemma verifyToken_session_cookie_expired id iat next w :
  iat + 60 * 60 <= now (cache w) ->
  verifyToken (Some (cookie_header [("token", jwt_sign id iat)])) next w
  = (Return (Unauthorized "User Not Authorized - Invalid or Expired Token"), w).
Proof.
  intros Hnow. unfold verifyToken. cbv zeta.
  rewrite (extract_signed_token [("token", jwt_sign id iat)] id iat), jwt_sign_truthy.
  - destruct (jwt_verify_expired id iat _ Hnow) as [m ->]. reflexivity.
  - cbn [forallb]. unfold well_formed. cbn [fst snd].
    rewrite jwt_sign_without_semicolon. reflexivity.
  - reflexivity.
Qed.

(** X6. The life of a session.  [GET /connect] answers 201 with a fresh
    identity and secret, sets a cookie with the token it signs for that
    identity, stores the secret under the identity and touches no other
    key.  For the next hour a lookup finds the secret, and a request that
    carries the token gets through the middleware to its route.  Once an
    hour has passed with no request, a lookup returns null and changes
    nothing, and both routes answer a request that carries the token with
    401, invalid or expired token, and change nothing. *)
Theorem connect_session_lifetime (w : server) :
  let id := uuidv4 (drawn w) in
  let secret := WordArray_random (drawn w + 1) in
  let w' := snd (connect w) in
  let token := jwt_sign id (now (cache w')) in
  let header := Some (cookie_header [("token", token)]) in
  truthy id = true -> truthy secret = true ->
  fst (app_connect w)
  = Return ({| status := 201;
               json := Success_connected "New secret and token created" id secret;
               cookie := Some id |},
            Some token)
  /\ snd (app_connect w) = w'
  /\ (forall k, k <> userInfo_key id -> db (cache w') !! k = db (cache w) !! k)
  /\ (forall t body, t < 60 * 60 ->
        fst (getUserInfo id (later t w'))
        = Return (Some {| CacheManager.id := id; secret := secret |})
        /\ app_get_root header (later t w') = routed (get_root (Some id) (later t w'))
        /\ app_post_root header body (later t w')
           = routed (post_root (Some id) body (later t w')))
  /\ (forall t body, 60 * 60 <= t ->
        let refused :=
          (Return (Unauthorized "User Not Authorized - Invalid or Expired Token"),
           later t w') in
        getUserInfo id (later t w') = (Return None, later t w')
        /\ app_get_root header (later t w') = refused
        /\ app_post_root header body (later t w') = refused).
Proof.
  cbv zeta. intros Ti Ts. unfold app_connect. rewrite connect_run. cbn [fst snd cache].
  split; [reflexivity|].
  split; [reflexivity|].
  split.
  { intros k Hk. cbn. apply lookup_insert_ne. congruence. }
  split.
  - intros t body Ht.
    split.
    { rewrite getUserInfo_live with (s := WordArray_random (drawn w + 1)).
      - reflexivity.
      - unfold later. cbn [cache]. apply GET_elapse_SET_EX_eq. exact Ht.
      - exact Ts. }
    unfold app_get_root, app_post_root.
    rewrite !verifyToken_session_cookie; auto; cbn; lia.
  - intros t body Ht.
    split.
    { apply getUserInfo_not_live. unfold later. cbn [cache].
      rewrite GET_elapse_SET_EX_expired by exact Ht. reflexivity. }
    unfold app_get_root, app_post_root.
    rewrite !verifyToken_session_cookie_expired; auto; cbn; lia.
Qed.

End Middleware.

(** ** The page: sessions, saving and retrieving *)

Section PageFacts.
Context `{Library} `{ServerProcess} `{JSON} `{Uuid} `{JWT}.
Import Browser.

Lemma later_0 w : later 0 w = w.
Proof.
  destruct w as [[n d] k]. unfold later, elapse. cbn. rewrite N.add_0_r. reflexivity.
Qed.

Lemma later_later a b w : later a (later b w) = later (b + a) w.
Proof. unfold later, elapse. cbn. rewrite N.add_assoc. reflexivity. Qed.

Lemma wait_idle n : forall p,
  timers p = [] -> wait n p = on_server (later (N.of_nat n)) p.
Proof.
  induction n as [|n IH]; intros p Hp.
  - cbn [wait]. change (N.of_nat 0) with 0.
    destruct p as [[b w nw] j t tm]. unfold on_server, on_sys. cbn. rewrite later_0. reflexivity.
  - cbn [wait]. unfold second_passes. rewrite Hp. cbn [fold_left].
    rewrite IH by reflexivity.
    destruct p as [[b w nw] j t tm]. unfold on_server, on_sys. cbn in *. subst tm.
    fold (later 1 w). rewrite later_later. do 4 f_equal. lia.
Qed.

Lemma getTokenAndSecret_delivered retries p :
  network (sys p) = [] ->
  let w := srv (sys p) in
  let id := uuidv4 (drawn w) in
  let secret := WordArray_random (drawn w + 1) in
  getTokenAndSecret retries p
  = {| sys := {| browser := {| c_data := c_data (browser (sys p));
                               c_secret := Some secret; c_id := Some id |};
                 srv := snd (connect w); network := [] |};
       jar := Some (jwt_sign id (now (cache w)), now (cache w) + 60 * 60);
       toasts := toasts p ++ ["Connected successfully, secret retrieved."];
       timers := timers p |}.
Proof.
  intros Hn. cbv zeta. destruct p as [[b w nw] j t tm]. cbn in Hn. subst nw.
  reflexivity.
Qed.

Lemma mount_in_session p :
  network (sys p) = [] -> timers p = [] ->
  let w := srv (sys p) in
  let id := uuidv4 (drawn w) in
  let secret := WordArray_random (drawn w + 1) in
  truthy id = true -> truthy secret = true ->
  in_session id secret (now (cache w)) (mount p).
Proof.
  intros Hn Ht. cbv zeta. intros Ti Ts. unfold mount.
  rewrite (getTokenAndSecret_delivered 3 p Hn). cbv zeta.
  unfold in_session. cbn. auto 10.
Qed.

Lemma cookie_sent_in_session id s iat p :
  in_session id s iat p -> now (cache (srv (sys p))) < iat + 60 * 60 ->
  cookie_sent p = Some (cookie_header [("token", jwt_sign id iat)]).
Proof.
  intros (_ & _ & _ & _ & Hj & _) Hnow. unfold cookie_sent. rewrite Hj.
  apply N.ltb_lt in Hnow. rewrite Hnow. reflexivity.
Qed.

Lemma sent_delivered p : network (sys p) = [] -> sent p = (true, p).
Proof. intros Hn. unfold sent. rewrite Hn. reflexivity. Qed.

Lemma fetch_get_in_session id s iat p :
  in_session id s iat p -> now (cache (srv (sys p))) < iat + 60 * 60 ->
  fetch_get p = served p (routed (get_root (Some id) (srv (sys p)))).
Proof.
  intros S Hnow. unfold fetch_get.
  rewrite (sent_delivered p) by apply S.
  rewrite (cookie_sent_in_session id s iat p S Hnow).
  unfold app_get_root. rewrite verifyToken_session_cookie; auto. apply S.
Qed.

Lemma fetch_post_in_session id s iat body p :
  in_session id s iat p -> now (cache (srv (sys p))) < iat + 60 * 60 ->
  fetch_post body p = served p (routed (post_root (Some id) body (srv (sys p)))).
Proof.
  intros S Hnow. unfold fetch_post.
  rewrite (sent_delivered p) by apply S.
  rewrite (cookie_sent_in_session id s iat p S Hnow).
  unfold app_post_root. rewrite verifyToken_session_cookie; auto. apply S.
Qed.

(** A save in a session. *)
Lemma saveData_in_session id s iat P p :
  in_session id s iat p -> now (cache (srv (sys p))) < iat + 60 * 60 ->
  GET (userInfo_key id) (cache (srv (sys p))) = Some s ->
  c_data (browser (sys p)) = P -> truthy P = true ->
  saveData p
  = showToast "Data saved successfully."
      (on_server (fun w =>
         {| cache := saved id P (fresh_tag id s P) (cache (renewed id s w)); drawn := drawn w |})
         p).
Proof.
  intros S Hnow Gs HP TP. pose proof S as (Hid & Hs & Ti & Ts & Hj & Htm & Hn).
  unfold saveData. cbv zeta. rewrite HP, TP. cbn [negb].
  unfold encryptData, generateHMAC. rewrite Hs, Hid, Ts, Ti. cbn [negb orb].
  fold (AppCrypto.generateHMAC (AppCrypto.encryptData P id s) s).
  fold (honest_save id s P).
  rewrite (fetch_post_in_session id s iat _ p S Hnow).
  rewrite (post_root_honest id s P _ Ti Gs Ts). cbn.
  reflexivity.
Qed.

(** A retrieval in a session, of a ciphertext whose tag verifies. *)
Lemma retrieveData_in_session id s iat c P w' p :
  in_session id s iat p -> now (cache (srv (sys p))) < iat + 60 * 60 ->
  get_root (Some id) (srv (sys p))
  = (Return (respond 200 (Success_data c (AppCrypto.generateHMAC c s))), w') ->
  AppCrypto.decryptData c id s = Return P ->
  retrieveData p
  = showToast "Data retrieved and decrypted successfully."
      (setData P (on_server (fun _ => w') p)).
Proof.
  intros S Hnow G D. pose proof S as (Hid & Hs & Ti & Ts & Hj & Htm & Hn).
  unfold retrieveData. cbv zeta.
  rewrite (fetch_get_in_session id s iat p S Hnow), G. cbn.
  unfold generateHMAC. rewrite Hs, Ts. cbn [negb].
  unfold AppCrypto.generateHMAC. rewrite String.eqb_refl. cbn [negb].
  unfold decryptData. rewrite Hs, Hid, Ts, Ti. cbn [negb orb]. rewrite D.
  reflexivity.
Qed.

End PageFacts.

Section PageProperties.
Context `{Library} `{ServerProcess} `{JSON} `{Uuid} `{JWT}.
Import Browser.

Lemma in_session_on_server id s iat f p :
  in_session id s iat p -> in_session id s iat (on_server f p).
Proof. intros S. exact S. Qed.

Lemma in_session_setData id s iat text p :
  in_session id s iat p -> in_session id s iat (setData text p).
Proof. intros S. exact S. Qed.

Lemma in_session_showToast id s iat text p :
  in_session id s iat p -> in_session id s iat (showToast text p).
Proof. intros S. exact S. Qed.

Lemma in_session_wait id s iat n p :
  in_session id s iat p -> in_session id s iat (wait n p).
Proof. intros S. rewrite wait_idle by apply S. exact S. Qed.

Lemma srv_wait n p :
  timers p = [] -> srv (sys (wait n p)) = later (N.of_nat n) (srv (sys p)).
Proof. intros Ht. rewrite wait_idle by exact Ht. reflexivity. Qed.

Lemma toasts_wait n p : timers p = [] -> toasts (wait n p) = toasts p.
Proof. intros Ht. rewrite wait_idle by exact Ht. reflexivity. Qed.

(** The page a while after it has mounted on a server that is reached. *)
Lemma mounted_later w jar0 n :
  let id := uuidv4 (drawn w) in
  let s := WordArray_random (drawn w + 1) in
  let p := wait n (mount (opened w [] jar0)) in
  truthy id = true -> truthy s = true ->
  in_session id s (now (cache w)) p
  /\ srv (sys p) = later (N.of_nat n) (snd (connect w))
  /\ toasts p = ["Connected successfully, secret retrieved."]
  /\ c_data (browser (sys p)) = "".
Proof.
  cbv zeta. intros Ti Ts.
  assert (S : in_session (uuidv4 (drawn w)) (WordArray_random (drawn w + 1)) (now (cache w))
                (mount (opened w [] jar0))).
  { apply (mount_in_session (opened w [] jar0)); auto. }
  split; [apply in_session_wait; exact S|].
  rewrite wait_idle by apply S. auto.
Qed.

(** X12. What is saved comes back.  A page mounts on a server that is
    reached; some time later the user types a text that is not empty and
    saves it; later still, whatever the input then holds, the user
    retrieves.  When both happen within the hour of the session, and the
    retrieval within 15 minutes of the save, the page reports each step,
    the server holds the text in its backup record after the save, and the
    input holds the saved text after the retrieval. *)
Theorem saved_data_comes_back
    (w : server) (jar0 : option (string * N)) (P x : string) (n1 n2 : nat) :
  let id := uuidv4 (drawn w) in
  let s := WordArray_random (drawn w + 1) in
  truthy id = true -> truthy s = true -> truthy P = true ->
  (n1 + n2 < 60 * 60)%nat -> (n2 < 60 * 15)%nat ->
  let p1 := saveData (type P (wait n1 (mount (opened w [] jar0)))) in
  let p2 := retrieveData (type x (wait n2 p1)) in
  toasts p1 = ["Connected successfully, secret retrieved."; "Data saved successfully."]
  /\ backup_record id (cache (srv (sys p1))) = Some P
  /\ c_data (browser (sys p2)) = P
  /\ toasts p2 = (toasts p1 ++ ["Data retrieved and decrypted successfully."])%list.
Proof.
  cbv zeta. intros Ti Ts TP Hn Hn2.
  set (id := uuidv4 (drawn w)) in *. set (s := WordArray_random (drawn w + 1)) in *.
  destruct (mounted_later w jar0 n1 Ti Ts) as (S0 & W0 & T0 & _).
  fold id s in S0, W0.
  set (p0 := wait n1 (mount (opened w [] jar0))) in *.
  assert (Gs : GET (userInfo_key id) (cache (srv (sys (type P p0)))) = Some s).
  { change (srv (sys (type P p0))) with (srv (sys p0)). rewrite W0, connect_run.
    unfold later. cbn [snd cache]. apply GET_elapse_SET_EX_eq. lia. }
  assert (Hnow : now (cache (srv (sys (type P p0)))) < now (cache w) + 60 * 60).
  { change (srv (sys (type P p0))) with (srv (sys p0)). rewrite W0, connect_run.
    cbn. lia. }
  rewrite (saveData_in_session id s (now (cache w)) P (type P p0)
             (in_session_setData _ _ _ _ _ S0) Hnow Gs eq_refl TP).
  set (p1 := showToast _ _).
  assert (S1 : in_session id s (now (cache w)) p1) by exact S0.
  assert (W1 : srv (sys p1)
               = {| cache := saved id P (fresh_tag id s P) (cache (renewed id s (srv (sys p0))));
                    drawn := drawn (srv (sys p0)) |}) by reflexivity.
  split; [unfold p1; cbn [toasts showToast]; change (toasts (on_server _ _)) with (toasts p0);
          rewrite T0; reflexivity|].
  split; [rewrite W1; cbn [cache]; apply GET_saved_backup|].
  set (q := type x (wait n2 p1)).
  assert (Sq : in_session id s (now (cache w)) q).
  { apply in_session_setData, in_session_wait. exact S1. }
  assert (Wq : srv (sys q) = later (N.of_nat n2) (srv (sys p1))).
  { unfold q. change (srv (sys (type x (wait n2 p1)))) with (srv (sys (wait n2 p1))).
    apply srv_wait. apply S1. }
  assert (Hq : now (cache (srv (sys q))) < now (cache w) + 60 * 60).
  { rewrite Wq, W1, W0, connect_run. cbn. lia. }
  assert (G : get_root (Some id) (srv (sys q))
              = (Return (respond 200 (Success_data (AppCrypto.encryptData P id s)
                   (AppCrypto.generateHMAC (AppCrypto.encryptData P id s) s))),
                 renewed id s (srv (sys q)))).
  { apply get_root_matching with (d := JString P) (h := JString (fresh_tag id s P)).
    - exact Ti.
    - rewrite Wq, W1. unfold later, renewed. cbn [cache]. rewrite GET_later_saved_userInfo.
      apply GET_elapse_SET_EX_eq. lia.
    - exact Ts.
    - rewrite Wq, W1. unfold later. cbn [cache]. apply primary_record_later_saved. lia.
    - reflexivity.
    - apply strict_neq_string_refl. }
  assert (D : AppCrypto.decryptData (AppCrypto.encryptData P id s) id s = Return P).
  { unfold AppCrypto.decryptData, AppCrypto.encryptData. rewrite AES_decrypt_encrypt.
    reflexivity. }
  rewrite (retrieveData_in_session id s (now (cache w)) _ P _ q Sq Hq G D).
  split; [reflexivity|].
  cbn [toasts showToast]. f_equal.
  change (toasts (setData P (on_server (fun _ => renewed id s (srv (sys q))) q)))
    with (toasts (wait n2 p1)).
  apply toasts_wait. apply S1.
Qed.

Lemma elapse_elapse a b r : elapse b (elapse a r) = elapse (a + b) r.
Proof. unfold elapse. cbn. rewrite N.add_assoc. reflexivity. Qed.

Lemma GET_elapse_SET_eq k v t r : GET k (elapse t (SET k v r)) = Some v.
Proof. unfold GET, elapse, SET. cbn. rewrite lookup_insert_eq. reflexivity. Qed.

Lemma GET_elapse_SET_ne k k' v t r :
  k <> k' -> GET k' (elapse t (SET k v r)) = GET k' (elapse t r).
Proof. intros Hk. unfold GET, elapse, SET. cbn. rewrite lookup_insert_ne by exact Hk. reflexivity. Qed.

(** [GET /] on a record whose tag does not match, with the backup there. *)
Lemma get_root_heals id s c b d h w :
  truthy id = true ->
  GET (userInfo_key id) (cache w) = Some s -> truthy s = true ->
  primary_record id (cache w) = Some (d, h) ->
  encryptData_untyped d id s = Return c ->
  strict_neq_string (generateServerHMAC c) h = true ->
  backup_record id (cache w) = Some b -> truthy b = true ->
  get_root (Some id) w
  = (Return (respond 200 (Success_data (AppCrypto.encryptData b id s)
                            (AppCrypto.generateHMAC (AppCrypto.encryptData b id s) s))),
     {| cache := saved id b (fresh_tag id s b) (cache (renewed id s w)); drawn := drawn w |}).
Proof.
  intros Ti Gs Ts P Hc Hne B Tb.
  rewrite (get_root_compare id s d h c w Ti Gs Ts P Hc). cbv zeta. rewrite Hne.
  unfold catch_route, try_catch, mbind, M_bind.
  rewrite (getBackupUserData_promotes id b s (renewed id s w)); auto.
  - simpl. rewrite Tb. reflexivity.
  - rewrite <- (backup_record_renewed id id s w) in B. exact B.
  - apply GET_userInfo_renewed.
Qed.

(** X13. A tampered record heals on the way to the user.  After a save as
    in X12, someone with access to Redis overwrites the primary record
    with a well-formed record of their own, whose tag is not the server's
    tag for its payload.  A retrieval within 15 minutes of the save still
    puts the saved text in the input and reports success, and leaves the
    primary record holding the saved text under its fresh at-rest tag. *)
Theorem tampered_record_heals
    (w : server) (jar0 : option (string * N)) (P x d' h' : string) (n1 n2 n3 : nat) :
  let id := uuidv4 (drawn w) in
  let s := WordArray_random (drawn w + 1) in
  truthy id = true -> truthy s = true -> truthy P = true ->
  (n1 + n2 + n3 < 60 * 60)%nat -> (n2 + n3 < 60 * 15)%nat ->
  h' <> generateServerHMAC (AppCrypto.encryptData d' id s) ->
  let p1 := saveData (type P (wait n1 (mount (opened w [] jar0)))) in
  let tampered := meddle (SET (userData_key id) (primary_text d' h')) (wait n2 p1) in
  let p2 := retrieveData (type x (wait n3 tampered)) in
  primary_record id (cache (srv (sys tampered))) = Some (JString d', JString h')
  /\ c_data (browser (sys p2)) = P
  /\ toasts p2 = ["Connected successfully, secret retrieved."; "Data saved successfully.";
                  "Data retrieved and decrypted successfully."]
  /\ primary_record id (cache (srv (sys p2))) = Some (JString P, JString (fresh_tag id s P)).
Proof.
  cbv zeta. intros Ti Ts TP Hn Hn2 Hh.
  set (id := uuidv4 (drawn w)) in *. set (s := WordArray_random (drawn w + 1)) in *.
  destruct (mounted_later w jar0 n1 Ti Ts) as (S0 & W0 & T0 & _).
  fold id s in S0, W0.
  set (p0 := wait n1 (mount (opened w [] jar0))) in *.
  assert (Gs : GET (userInfo_key id) (cache (srv (sys (type P p0)))) = Some s).
  { change (srv (sys (type P p0))) with (srv (sys p0)). rewrite W0, connect_run.
    unfold later. cbn [snd cache]. apply GET_elapse_SET_EX_eq. lia. }
  assert (Hnow : now (cache (srv (sys (type P p0)))) < now (cache w) + 60 * 60).
  { change (srv (sys (type P p0))) with (srv (sys p0)). rewrite W0, connect_run.
    cbn. lia. }
  rewrite (saveData_in_session id s (now (cache w)) P (type P p0)
             (in_session_setData _ _ _ _ _ S0) Hnow Gs eq_refl TP).
  set (p1 := showToast _ _).
  assert (S1 : in_session id s (now (cache w)) p1) by exact S0.
  assert (W1 : srv (sys p1)
               = {| cache := saved id P (fresh_tag id s P) (cache (renewed id s (srv (sys p0))));
                    drawn := drawn (srv (sys p0)) |}) by reflexivity.
  assert (T1 : toasts p1
               = ["Connected successfully, secret retrieved."; "Data saved successfully."]).
  { unfold p1. cbn [toasts showToast]. change (toasts (on_server _ _)) with (toasts p0).
    rewrite T0. reflexivity. }
  set (tampered := meddle _ (wait n2 p1)).
  assert (St : in_session id s (now (cache w)) tampered).
  { unfold tampered, meddle. apply in_session_on_server, in_session_wait. exact S1. }
  assert (Wt : cache (srv (sys tampered))
               = SET (userData_key id) (primary_text d' h')
                   (elapse (N.of_nat n2) (cache (srv (sys p1))))).
  { unfold tampered, meddle. change (srv (sys (on_server ?f ?p))) with (f (srv (sys p))).
    cbn [cache]. rewrite srv_wait by apply S1. reflexivity. }
  assert (Tt : toasts tampered = toasts p1).
  { unfold tampered, meddle. change (toasts (on_server ?f ?p)) with (toasts p).
    apply toasts_wait. apply S1. }
  assert (Pt : forall t,
             primary_record id (elapse t (cache (srv (sys tampered))))
             = Some (JString d', JString h')).
  { intros t. rewrite Wt. unfold primary_record. rewrite GET_elapse_SET_eq.
    rewrite primary_text_truthy. unfold primary_text. rewrite JSON_parse_stringify.
    reflexivity. }
  split.
  { specialize (Pt 0). replace (elapse 0 (cache (srv (sys tampered))))
      with (cache (srv (sys tampered))) in Pt; [exact Pt|].
    destruct (cache (srv (sys tampered))) as [nw d]. unfold elapse. cbn.
    rewrite N.add_0_r. reflexivity. }
  set (q := type x (wait n3 tampered)).
  assert (Sq : in_session id s (now (cache w)) q).
  { apply in_session_setData, in_session_wait. exact St. }
  assert (Wq : srv (sys q) = later (N.of_nat n3) (srv (sys tampered))).
  { unfold q. change (srv (sys (type x (wait n3 tampered))))
      with (srv (sys (wait n3 tampered))).
    apply srv_wait. apply St. }
  assert (Tq : toasts q = toasts p1).
  { unfold q. change (toasts (type x (wait n3 tampered))) with (toasts (wait n3 tampered)).
    rewrite toasts_wait by apply St. exact Tt. }
  assert (Hq : now (cache (srv (sys q))) < now (cache w) + 60 * 60).
  { rewrite Wq. unfold later. cbn [cache]. rewrite Wt, W1, W0, connect_run. cbn. lia. }
  assert (G : get_root (Some id) (srv (sys q))
              = (Return (respond 200 (Success_data (AppCrypto.encryptData P id s)
                   (AppCrypto.generateHMAC (AppCrypto.encryptData P id s) s))),
                 {| cache := saved id P (fresh_tag id s P) (cache (renewed id s (srv (sys q))));
                    drawn := drawn (srv (sys q)) |})).
  { apply get_root_heals with (c := AppCrypto.encryptData d' id s)
                              (d := JString d') (h := JString h').
    - exact Ti.
    - rewrite Wq. unfold later. cbn [cache]. rewrite Wt.
      rewrite GET_elapse_SET_ne by (apply not_eq_sym, userInfo_userData_key).
      rewrite elapse_elapse, W1. unfold renewed. cbn [cache].
      rewrite GET_later_saved_userInfo. apply GET_elapse_SET_EX_eq. lia.
    - exact Ts.
    - rewrite Wq. unfold later. cbn [cache]. apply Pt.
    - reflexivity.
    - cbn. apply negb_true_iff, String.eqb_neq. intros E. apply Hh. symmetry. exact E.
    - rewrite Wq. unfold later, backup_record. cbn [cache]. rewrite Wt.
      rewrite GET_elapse_SET_ne by apply userData_backup_key.
      rewrite elapse_elapse, W1. cbn [cache]. apply GET_later_saved_backup. lia.
    - exact TP. }
  assert (D : AppCrypto.decryptData (AppCrypto.encryptData P id s) id s = Return P).
  { unfold AppCrypto.decryptData, AppCrypto.encryptData. rewrite AES_decrypt_encrypt.
    reflexivity. }
  rewrite (retrieveData_in_session id s (now (cache w)) _ P _ q Sq Hq G D).
  split; [reflexivity|].
  split.
  { cbn [toasts showToast].
    change (toasts (setData P (on_server ?f q))) with (toasts q).
    rewrite Tq, T1. reflexivity. }
  cbn [showToast sys]. change (cache (srv (sys (setData P (on_server (fun _ => ?w') q)))))
    with (cache w'). cbn [cache]. apply primary_record_saved.
Qed.

End PageProperties.

Section PageGuards.
Context `{Library} `{ServerProcess} `{JSON} `{Uuid} `{JWT}.
Import Browser.

Lemma shown_sent p : shown (snd (sent p)) = shown p.
Proof. unfold sent. destruct (network (sys p)); reflexivity. Qed.

Lemma shown_served {A} p (x : outcome A * server) : shown (snd (served p x)) = shown p.
Proof. destruct x as [[a|e] w]; reflexivity. Qed.

Lemma shown_fetch_connect p : shown (snd (fetch_connect p)) = shown p.
Proof.
  unfold fetch_connect. pose proof (shown_sent p) as E.
  destruct (sent p) as [[|] q]; cbn [snd] in *; [|exact E].
  pose proof (shown_served q (app_connect (srv (sys q)))) as E'.
  destruct (served q (app_connect (srv (sys q)))) as [[[r [token|]]|] q']; cbn [snd] in *;
    unfold shown in *; cbn [sys] in *; congruence.
Qed.

Lemma shown_getTokenAndSecret retries p : shown (getTokenAndSecret retries p) = shown p.
Proof.
  unfold getTokenAndSecret. pose proof (shown_fetch_connect p) as E.
  destruct (fetch_connect p) as [[r|] q]; cbn [snd] in E.
  - destruct (json r); destruct retries; exact E.
  - destruct retries; exact E.
Qed.

Lemma shown_clearSecret p : shown (clearSecret p) = shown p.
Proof. unfold clearSecret. rewrite shown_getTokenAndSecret. reflexivity. Qed.

Lemma shown_fetch_get p : shown (snd (fetch_get p)) = shown p.
Proof.
  unfold fetch_get. pose proof (shown_sent p) as E.
  destruct (sent p) as [[|] q]; cbn [snd] in *; [|exact E].
  rewrite shown_served. exact E.
Qed.

Lemma shown_generateHMAC st c p : shown (snd (generateHMAC st c p)) = shown p.
Proof.
  unfold generateHMAC. destruct (c_secret st) as [s|]; [destruct (truthy s)|]; cbn [negb snd];
    auto using shown_getTokenAndSecret.
Qed.

Lemma shown_decryptData st c p : shown (snd (decryptData st c p)) = shown p.
Proof.
  unfold decryptData.
  destruct (c_secret st) as [s|], (c_id st) as [id|]; cbn [snd];
    auto using shown_getTokenAndSecret.
  destruct (negb (truthy s) || negb (truthy id)); cbn [snd];
    auto using shown_getTokenAndSecret.
  destruct (AppCrypto.decryptData c id s); reflexivity.
Qed.

(** X14. What the page accepts.  Whatever the server holds and whatever
    comes back, a retrieval either leaves the input as it was, or the
    response was a success carrying a ciphertext together with its tag under
    the secret the page holds, and the input now shows the decryption of
    that ciphertext under the page's own identity and secret. *)
Theorem retrieveData_accepts_only_verified (p : page) :
  shown (retrieveData p) = shown p
  \/ exists id s c r q,
       c_id (browser (sys p)) = Some id /\ c_secret (browser (sys p)) = Some s
       /\ fetch_get p = (Some (Routed r), q)
       /\ ok (Routed r) = true /\ json r = Success_data c (HmacSHA256 c s)
       /\ AppCrypto.decryptData c id s = Return (shown (retrieveData p)).
Proof.
  unfold retrieveData. cbv zeta.
  pose proof (shown_fetch_get p) as E.
  destruct (fetch_get p) as [[a|] q] eqn:F; cbn [snd] in E; [|left; exact E].
  destruct (negb (ok a)) eqn:Hok.
  { left. destruct (status_of a =? 400); [|exact E].
    destruct (message_is "Bad Request." a); [rewrite shown_getTokenAndSecret; exact E|].
    destruct (message_is "Secret missing, please connect again." a);
      [rewrite shown_getTokenAndSecret; exact E|].
    destruct (result_message a) as [m|]; [|exact E].
    destruct (includes "backup missing" m); [rewrite shown_clearSecret|]; exact E. }
  destruct a as [e|[st b ck]]; [left; exact E|].
  destruct b as [m|e| |m|m i k|c h]; cbn [json]; try (left; exact E).
  { left. pose proof (shown_generateHMAC (browser (sys p)) "" q) as G.
    destruct (generateHMAC (browser (sys p)) "" q) as [[x|] q']; cbn [snd] in G;
      change (shown q' = shown p); congruence. }
  pose proof (shown_generateHMAC (browser (sys p)) c q) as G.
  destruct (generateHMAC (browser (sys p)) c q) as [[t|] q'] eqn:HG; cbn [snd] in G;
    [|left; change (shown q' = shown p); congruence].
  destruct (negb (String.eqb t h)) eqn:Hth; [left; change (shown q' = shown p); congruence|].
  pose proof (shown_decryptData (browser (sys p)) c q') as D.
  destruct (decryptData (browser (sys p)) c q') as [[P|] q''] eqn:HD; cbn [snd] in D;
    [|left; change (shown q'' = shown p); congruence].
  right.
  unfold generateHMAC in HG. unfold decryptData in HD.
  destruct (c_secret (browser (sys p))) as [s|]; [|discriminate].
  destruct (c_id (browser (sys p))) as [id|]; [|discriminate].
  destruct (truthy s); cbn [negb orb] in *; [|discriminate].
  destruct (truthy id); cbn [negb orb] in *; [|discriminate].
  injection HG as <- <-.
  apply negb_false_iff, String.eqb_eq in Hth. subst h.
  destruct (AppCrypto.decryptData c id s) as [P'|e] eqn:HP; [|discriminate].
  injection HD as -> <-.
  exists id, s, c, {| status := st; json := Success_data c (HmacSHA256 c s); cookie := ck |}, q.
  repeat split.
  - apply negb_false_iff in Hok. exact Hok.
  - exact HP.
Qed.

End PageGuards.

Section PageSessions.
Context `{Library} `{ServerProcess} `{JSON} `{Uuid} `{JWT}.
Import Browser.

Lemma saveData_no_session p :
  truthy (shown p) = true ->
  truthy_opt (c_secret (browser (sys p))) && truthy_opt (c_id (browser (sys p))) = false ->
  saveData p = showToast "Error saving data." (getTokenAndSecret 3 p).
Proof.
  intros TP Hs. unfold saveData, shown in *. cbv zeta. rewrite TP. cbn [negb].
  unfold encryptData.
  destruct (c_secret (browser (sys p))) as [s|], (c_id (browser (sys p))) as [id|];
    try reflexivity.
  cbn [truthy_opt] in Hs.
  destruct (truthy s), (truthy id); try discriminate; reflexivity.
Qed.

(** X15. A save without a session is a reconnect.  When the page holds no
    secret or no identity (or an empty one), a click on save sends no
    save: the server only serves a new connect, the page reports the
    connection and then an error, and the input keeps its text.  A second
    click saves that text under the new session. *)
Theorem save_without_session_reconnects (p : page) :
  network (sys p) = [] -> timers p = [] ->
  truthy_opt (c_secret (browser (sys p))) && truthy_opt (c_id (browser (sys p))) = false ->
  truthy (shown p) = true ->
  let w := srv (sys p) in
  let id := uuidv4 (drawn w) in
  let s := WordArray_random (drawn w + 1) in
  truthy id = true -> truthy s = true ->
  let p1 := saveData p in
  let p2 := saveData p1 in
  srv (sys p1) = snd (connect w)
  /\ toasts p1
     = (toasts p ++ ["Connected successfully, secret retrieved."; "Error saving data."])%list
  /\ shown p1 = shown p
  /\ toasts p2 = (toasts p1 ++ ["Data saved successfully."])%list
  /\ backup_record id (cache (srv (sys p2))) = Some (shown p).
Proof.
  intros Hn Ht Hs TP. cbv zeta. intros Ti Ts.
  rewrite (saveData_no_session p TP Hs).
  pose proof (mount_in_session p Hn Ht Ti Ts) as S. unfold mount in S.
  rewrite (getTokenAndSecret_delivered 3 p Hn) in *. cbv zeta in *.
  set (p1 := showToast _ _).
  split; [reflexivity|].
  split; [unfold p1; cbn [toasts showToast]; rewrite <- app_assoc; reflexivity|].
  split; [reflexivity|].
  assert (S1 : in_session (uuidv4 (drawn (srv (sys p))))
                 (WordArray_random (drawn (srv (sys p)) + 1))
                 (now (cache (srv (sys p)))) p1) by exact S.
  assert (Gs : GET (userInfo_key (uuidv4 (drawn (srv (sys p)))))
                 (cache (srv (sys p1)))
               = Some (WordArray_random (drawn (srv (sys p)) + 1))).
  { unfold p1. cbn [showToast sys srv]. rewrite connect_run. cbn [snd cache].
    apply GET_SET_EX_eq. lia. }
  assert (Hnow : now (cache (srv (sys p1))) < now (cache (srv (sys p))) + 60 * 60).
  { unfold p1. cbn [showToast sys srv]. rewrite connect_run. cbn. lia. }
  rewrite (saveData_in_session _ _ _ (shown p) p1 S1 Hnow Gs eq_refl TP).
  split; [reflexivity|].
  cbn [showToast sys]. unfold on_server, on_sys. cbn [sys srv cache].
  apply GET_saved_backup.
Qed.

Lemma cookie_sent_expired id s iat p :
  in_session id s iat p -> iat + 60 * 60 <= now (cache (srv (sys p))) ->
  cookie_sent p = None.
Proof.
  intros (_ & _ & _ & _ & Hj & _) Hnow. unfold cookie_sent. rewrite Hj.
  apply N.ltb_ge in Hnow. rewrite Hnow. reflexivity.
Qed.

(** X16. A session that has run out is not renewed.  An hour or more after
    the page connected, with no request in between, the browser has
    dropped the cookie: a save is answered 401, which the page reports as
    an unexpected response, and a retrieval is answered 401, which the
    page does not report at all.  Neither reaches the store, and neither
    reconnects: the page keeps its identity and secret, and a further
    click does the same. *)
Theorem expired_session_is_not_renewed
    (w : server) (jar0 : option (string * N)) (P : string) (n : nat) :
  let id := uuidv4 (drawn w) in
  let s := WordArray_random (drawn w + 1) in
  truthy id = true -> truthy s = true -> truthy P = true ->
  (60 * 60 <= n)%nat ->
  let p := type P (wait n (mount (opened w [] jar0))) in
  (forall body,
     fetch_post body p = (Some (Unauthorized "User Not Authorized - No Token Provided"), p))
  /\ fetch_get p = (Some (Unauthorized "User Not Authorized - No Token Provided"), p)
  /\ saveData p = showToast "Error: Unexpected response from the server." p
  /\ retrieveData p = p
  /\ retrieveData (saveData p) = saveData p.
Proof.
  cbv zeta. intros Ti Ts TP Hn.
  destruct (mounted_later w jar0 n Ti Ts) as (S0 & W0 & T0 & _).
  set (id := uuidv4 (drawn w)) in *. set (s := WordArray_random (drawn w + 1)) in *.
  set (p := type P (wait n (mount (opened w [] jar0)))).
  assert (S : in_session id s (now (cache w)) p) by exact S0.
  assert (Hnow : now (cache w) + 60 * 60 <= now (cache (srv (sys p)))).
  { change (srv (sys p)) with (srv (sys (wait n (mount (opened w [] jar0))))).
    rewrite W0, connect_run. cbn. lia. }
  assert (C : cookie_sent p = None) by exact (cookie_sent_expired id s _ p S Hnow).
  assert (Eta : on_server (fun _ => srv (sys p)) p = p).
  { destruct p as [[b w' nw] j t tm]. reflexivity. }
  assert (Fp : forall body,
             fetch_post body p
             = (Some (Unauthorized "User Not Authorized - No Token Provided"), p)).
  { intros body. unfold fetch_post. rewrite (sent_delivered p) by apply S. rewrite C.
    change (app_post_root None body (srv (sys p)))
      with (Return (Unauthorized "User Not Authorized - No Token Provided"), srv (sys p)).
    unfold served. rewrite Eta. reflexivity. }
  assert (Fg : fetch_get p
               = (Some (Unauthorized "User Not Authorized - No Token Provided"), p)).
  { unfold fetch_get. rewrite (sent_delivered p) by apply S. rewrite C.
    change (app_get_root None (srv (sys p)))
      with (Return (Unauthorized "User Not Authorized - No Token Provided"), srv (sys p)).
    unfold served. rewrite Eta. reflexivity. }
  assert (Sv : saveData p = showToast "Error: Unexpected response from the server." p).
  { destruct S as (Hid & Hs & _).
    unfold saveData. cbv zeta.
    change (c_data (browser (sys p))) with P. rewrite TP. cbn [negb].
    unfold encryptData, generateHMAC. rewrite Hs, Hid, Ts, Ti. cbn [negb orb].
    rewrite Fp. reflexivity. }
  assert (Rt : forall q, fetch_get q
                 = (Some (Unauthorized "User Not Authorized - No Token Provided"), q) ->
               retrieveData q = q).
  { intros q Fq. unfold retrieveData. cbv zeta. rewrite Fq. reflexivity. }
  split; [apply Fp|]. split; [exact Fg|]. split; [exact Sv|]. split; [apply Rt, Fg|].
  rewrite Sv. apply Rt.
  set (q := showToast _ p).
  assert (Eq : on_server (fun _ => srv (sys q)) q = q).
  { unfold q. destruct p as [[b w' nw] j t tm]. reflexivity. }
  unfold fetch_get. rewrite (sent_delivered q) by apply S.
  change (cookie_sent q) with (cookie_sent p). rewrite C.
  change (app_get_root None (srv (sys q)))
    with (Return (Unauthorized "User Not Authorized - No Token Provided"), srv (sys q)).
  unfold served. rewrite Eq. reflexivity.
Qed.

Lemma getTokenAndSecret_failed retries rest p :
  network (sys p) = false :: rest ->
  getTokenAndSecret retries p
  = match retries with
    | S retries' => setTimeout retries'
    | O => showToast "Error connecting to API after multiple attempts."
    end (delayed 0 rest p).
Proof.
  intros Hn. destruct p as [[b w nw] j t tm]. cbn in Hn. subst nw.
  unfold getTokenAndSecret, fetch_connect, sent, delayed. cbn.
  rewrite later_0. destruct retries; reflexivity.
Qed.

Lemma retries_delay k : forall retries rest p,
  timers p = [] -> network (sys p) = (replicate k false ++ rest)%list -> (k <= retries)%nat ->
  wait k (getTokenAndSecret retries p) = getTokenAndSecret (retries - k) (delayed k rest p).
Proof.
  induction k as [|k IH]; intros retries rest p Ht Hn Hk.
  - cbn [wait]. rewrite Nat.sub_0_r. f_equal.
    destruct p as [[b w nw] j t tm]. cbn in *. subst nw. unfold delayed. cbn.
    rewrite later_0. reflexivity.
  - destruct retries as [|retries]; [lia|].
    cbn [replicate app] in Hn. change ((false :: replicate k false) ++ rest)%list
      with (false :: (replicate k false ++ rest))%list in Hn.
    rewrite (getTokenAndSecret_failed (S retries) _ p Hn).
    destruct p as [[b w nw] j t tm]. cbn [timers sys network] in Ht, Hn. subst tm nw.
    cbn [wait Nat.sub]. unfold second_passes, setTimeout, delayed.
    cbn [timers sys browser srv network jar toasts app fold_left].
    rewrite later_0. fold (later 1 w).
    rewrite IH with (rest := rest); [|reflexivity|reflexivity|lia].
    f_equal. unfold delayed. cbn [sys browser srv network jar toasts timers].
    rewrite later_later. do 4 f_equal. lia.
Qed.

(** X17. Connecting is tried again, one second apart.  When the first [k]
    requests of [getTokenAndSecret(retries)] are lost and [k] is at most
    [retries], the page ends up as if it had made a single call [k]
    seconds later; in particular the page connects [k] seconds late when
    the next request gets through.  When [retries + 1] requests are lost,
    the page reports the failure once, after [retries] seconds, keeps its
    state, and has no retry pending: it does not try again by itself. *)
Theorem getTokenAndSecret_retries (retries k : nat) (rest : list bool) (p : page) :
  timers p = [] ->
  (network (sys p) = (replicate k false ++ rest)%list -> (k <= retries)%nat ->
   wait k (getTokenAndSecret retries p) = getTokenAndSecret (retries - k) (delayed k rest p))
  /\ (network (sys p) = replicate k false -> (k <= retries)%nat ->
      let w := later (N.of_nat k) (srv (sys p)) in
      let connected := wait k (getTokenAndSecret retries p) in
      srv (sys connected) = snd (connect w)
      /\ c_id (browser (sys connected)) = Some (uuidv4 (drawn w))
      /\ c_secret (browser (sys connected)) = Some (WordArray_random (drawn w + 1))
      /\ toasts connected = (toasts p ++ ["Connected successfully, secret retrieved."])%list)
  /\ (network (sys p) = (replicate (S retries) false ++ rest)%list ->
      wait retries (getTokenAndSecret retries p)
      = showToast "Error connecting to API after multiple attempts." (delayed retries rest p)).
Proof.
  intros Ht. split; [|split].
  - intros Hn Hk. apply retries_delay; assumption.
  - intros Hn Hk. cbv zeta.
    rewrite (retries_delay k retries [] p Ht) by (rewrite ?app_nil_r; assumption).
    rewrite getTokenAndSecret_delivered by reflexivity. cbv zeta. cbn. auto.
  - intros Hn.
    replace (replicate (S retries) false ++ rest)%list
      with (replicate retries false ++ false :: rest)%list in Hn.
    2:{ clear. induction retries as [|r IH]; [reflexivity|].
        cbn [replicate app] in *. rewrite IH. reflexivity. }
    rewrite (retries_delay retries retries (false :: rest) p Ht Hn) by lia.
    rewrite Nat.sub_diag.
    rewrite (getTokenAndSecret_failed 0 rest) by reflexivity.
    f_equal. unfold delayed. cbn. rewrite later_0. reflexivity.
Qed.

End PageSessions.

Section PageFailures.
Context `{Library} `{ServerProcess} `{JSON} `{Uuid} `{JWT}.
Import Browser.

(** The page after a save in a fresh session. *)
Lemma saved_page w jar0 P n1 :
  let id := uuidv4 (drawn w) in
  let s := WordArray_random (drawn w + 1) in
  truthy id = true -> truthy s = true -> truthy P = true -> (n1 < 60 * 60)%nat ->
  let p1 := saveData (type P (wait n1 (mount (opened w [] jar0)))) in
  in_session id s (now (cache w)) p1
  /\ srv (sys p1)
     = {| cache := saved id P (fresh_tag id s P)
                     (cache (renewed id s (later (N.of_nat n1) (snd (connect w)))));
          drawn := drawn w + 1 + 1 |}
  /\ toasts p1 = ["Connected successfully, secret retrieved."; "Data saved successfully."].
Proof.
  cbv zeta. intros Ti Ts TP Hn.
  set (id := uuidv4 (drawn w)) in *. set (s := WordArray_random (drawn w + 1)) in *.
  destruct (mounted_later w jar0 n1 Ti Ts) as (S0 & W0 & T0 & _).
  fold id s in S0, W0.
  set (p0 := wait n1 (mount (opened w [] jar0))) in *.
  assert (Gs : GET (userInfo_key id) (cache (srv (sys (type P p0)))) = Some s).
  { change (srv (sys (type P p0))) with (srv (sys p0)). rewrite W0, connect_run.
    unfold later. cbn [snd cache]. apply GET_elapse_SET_EX_eq. lia. }
  assert (Hnow : now (cache (srv (sys (type P p0)))) < now (cache w) + 60 * 60).
  { change (srv (sys (type P p0))) with (srv (sys p0)). rewrite W0, connect_run.
    cbn. lia. }
  rewrite (saveData_in_session id s (now (cache w)) P (type P p0)
             (in_session_setData _ _ _ _ _ S0) Hnow Gs eq_refl TP).
  split; [exact S0|].
  split.
  - cbn [showToast sys]. change (srv (sys (on_server ?f (type P p0)))) with (f (srv (sys p0))).
    rewrite W0, connect_run. reflexivity.
  - cbn [toasts showToast]. change (toasts (on_server _ _)) with (toasts p0).
    rewrite T0. reflexivity.
Qed.

(** X18. A record that has expired is passed over in silence.  After a
    save as in X12, a retrieval made 15 minutes or more later, within the
    hour of the session, is answered 400 "Data missing, please save data
    again."; the page shows no alert and leaves the input as it is, and
    the server has only renewed the secret's expiry. *)
Theorem expired_record_is_silent
    (w : server) (jar0 : option (string * N)) (P x : string) (n1 n2 : nat) :
  let id := uuidv4 (drawn w) in
  let s := WordArray_random (drawn w + 1) in
  truthy id = true -> truthy s = true -> truthy P = true ->
  (n1 + n2 < 60 * 60)%nat -> (60 * 15 <= n2)%nat ->
  let p1 := saveData (type P (wait n1 (mount (opened w [] jar0)))) in
  let q := type x (wait n2 p1) in
  fetch_get q
  = (Some (Routed (respond 400 (Failure_message "Data missing, please save data again."))),
     on_server (renewed id s) q)
  /\ retrieveData q = on_server (renewed id s) q
  /\ shown (retrieveData q) = x
  /\ toasts (retrieveData q) = toasts p1.
Proof.
  cbv zeta. intros Ti Ts TP Hn Hn2.
  destruct (saved_page w jar0 P n1 Ti Ts TP ltac:(lia)) as (S1 & W1 & T1).
  set (id := uuidv4 (drawn w)) in *. set (s := WordArray_random (drawn w + 1)) in *.
  set (p1 := saveData _) in *.
  set (q := type x (wait n2 p1)).
  assert (Sq : in_session id s (now (cache w)) q).
  { apply in_session_setData, in_session_wait. exact S1. }
  assert (Wq : srv (sys q) = later (N.of_nat n2) (srv (sys p1))).
  { unfold q. change (srv (sys (type x (wait n2 p1)))) with (srv (sys (wait n2 p1))).
    apply srv_wait. apply S1. }
  assert (Hq : now (cache (srv (sys q))) < now (cache w) + 60 * 60).
  { rewrite Wq, W1, connect_run. cbn. lia. }
  assert (G : get_root (Some id) (srv (sys q))
              = (Return (respond 400 (Failure_message "Data missing, please save data again.")),
                 renewed id s (srv (sys q)))).
  { apply get_root_no_data.
    - exact Ti.
    - rewrite Wq, W1. unfold later, renewed. cbn [cache]. rewrite GET_later_saved_userInfo.
      apply GET_elapse_SET_EX_eq. lia.
    - exact Ts.
    - rewrite Wq, W1. unfold later. cbn [cache].
      rewrite GET_later_saved_primary_expired by lia. reflexivity. }
  assert (F : fetch_get q
              = (Some (Routed (respond 400
                   (Failure_message "Data missing, please save data again."))),
                 on_server (renewed id s) q)).
  { rewrite (fetch_get_in_session id s _ q Sq Hq), G. reflexivity. }
  assert (R : retrieveData q = on_server (renewed id s) q).
  { unfold retrieveData. cbv zeta. rewrite F. reflexivity. }
  split; [exact F|]. split; [exact R|]. rewrite R.
  split; [reflexivity|].
  change (toasts (on_server (renewed id s) q)) with (toasts (wait n2 p1)).
  apply toasts_wait. apply S1.
Qed.

Lemma GET_elapse_DEL_eq k t r : GET k (elapse t (DEL k r)) = None.
Proof. unfold GET, elapse, DEL. cbn. rewrite lookup_delete_eq. reflexivity. Qed.

Lemma GET_elapse_DEL_ne k k' t r :
  k <> k' -> GET k' (elapse t (DEL k r)) = GET k' (elapse t r).
Proof. intros Hk. unfold GET, elapse, DEL. cbn. rewrite lookup_delete_ne by exact Hk. reflexivity. Qed.

(** X19. Tampering without a backup starts the session over.  After a
    save as in X12, someone with access to Redis overwrites the primary
    record with a record whose tag does not match and deletes the backup
    record.  A retrieval within the hour of the session is answered 400;
    the page reports the tampering, drops its identity and secret and
    connects again: it holds the next identity and secret the server
    draws, and the input is left as it was. *)
Theorem tampering_without_backup_starts_over
    (w : server) (jar0 : option (string * N)) (P x d' h' : string) (n1 n2 n3 : nat) :
  let id := uuidv4 (drawn w) in
  let s := WordArray_random (drawn w + 1) in
  truthy id = true -> truthy s = true -> truthy P = true ->
  (n1 + n2 + n3 < 60 * 60)%nat ->
  h' <> generateServerHMAC (AppCrypto.encryptData d' id s) ->
  let p1 := saveData (type P (wait n1 (mount (opened w [] jar0)))) in
  let tampered :=
    meddle (fun r => DEL (backup_key id) (SET (userData_key id) (primary_text d' h') r))
      (wait n2 p1) in
  let p2 := retrieveData (type x (wait n3 tampered)) in
  c_id (browser (sys p2)) = Some (uuidv4 (drawn w + 1 + 1))
  /\ c_secret (browser (sys p2)) = Some (WordArray_random (drawn w + 1 + 1 + 1))
  /\ shown p2 = x
  /\ toasts p2
     = ["Connected successfully, secret retrieved."; "Data saved successfully.";
        "Data tampered and backup missing: Please connect and save data again.";
        "Connected successfully, secret retrieved."].
Proof.
  cbv zeta. intros Ti Ts TP Hn Hh.
  destruct (saved_page w jar0 P n1 Ti Ts TP ltac:(lia)) as (S1 & W1 & T1).
  set (id := uuidv4 (drawn w)) in *. set (s := WordArray_random (drawn w + 1)) in *.
  set (p1 := saveData _) in *.
  set (tampered := meddle _ (wait n2 p1)).
  assert (St : in_session id s (now (cache w)) tampered).
  { unfold tampered, meddle. apply in_session_on_server, in_session_wait. exact S1. }
  assert (Wt : srv (sys tampered)
               = {| cache := DEL (backup_key id)
                      (SET (userData_key id) (primary_text d' h')
                         (elapse (N.of_nat n2) (cache (srv (sys p1)))));
                    drawn := drawn w + 1 + 1 |}).
  { unfold tampered, meddle. change (srv (sys (on_server ?f ?p))) with (f (srv (sys p))).
    rewrite srv_wait by apply S1. rewrite W1. reflexivity. }
  assert (Tt : toasts tampered = toasts p1).
  { unfold tampered, meddle. change (toasts (on_server ?f ?p)) with (toasts p).
    apply toasts_wait. apply S1. }
  set (q := type x (wait n3 tampered)).
  assert (Sq : in_session id s (now (cache w)) q).
  { apply in_session_setData, in_session_wait. exact St. }
  assert (Wq : srv (sys q) = later (N.of_nat n3) (srv (sys tampered))).
  { unfold q. change (srv (sys (type x (wait n3 tampered))))
      with (srv (sys (wait n3 tampered))).
    apply srv_wait. apply St. }
  assert (Tq : toasts q = toasts p1).
  { unfold q. change (toasts (type x (wait n3 tampered))) with (toasts (wait n3 tampered)).
    rewrite toasts_wait by apply St. exact Tt. }
  assert (Hq : now (cache (srv (sys q))) < now (cache w) + 60 * 60).
  { rewrite Wq, Wt, W1, connect_run. cbn. lia. }
  assert (Gs : GET (userInfo_key id) (cache (srv (sys q))) = Some s).
  { rewrite Wq, Wt. unfold later. cbn [cache].
    rewrite GET_elapse_DEL_ne by (apply not_eq_sym, userInfo_backup_key).
    rewrite GET_elapse_SET_ne by (apply not_eq_sym, userInfo_userData_key).
    rewrite elapse_elapse, W1. unfold renewed. cbn [cache].
    rewrite GET_later_saved_userInfo. apply GET_elapse_SET_EX_eq. lia. }
  assert (Pq : primary_record id (cache (srv (sys q))) = Some (JString d', JString h')).
  { rewrite Wq, Wt. unfold later, primary_record. cbn [cache].
    rewrite GET_elapse_DEL_ne by (apply not_eq_sym, userData_backup_key).
    rewrite GET_elapse_SET_eq, primary_text_truthy. unfold primary_text.
    rewrite JSON_parse_stringify. reflexivity. }
  assert (G : get_root (Some id) (srv (sys q))
              = (Return (respond 400 (Failure_message
                   "Data tampered and backup missing, please connect and save data again.")),
                 renewed id s (srv (sys q)))).
  { rewrite (get_root_compare id s (JString d') (JString h') (AppCrypto.encryptData d' id s)
               _ Ti Gs Ts Pq eq_refl).
    cbv zeta.
    replace (strict_neq_string (generateServerHMAC (AppCrypto.encryptData d' id s))
               (JString h')) with true.
    2:{ symmetry. cbn. apply negb_true_iff, String.eqb_neq. intros E. apply Hh.
        symmetry. exact E. }
    unfold catch_route, try_catch, mbind, M_bind.
    rewrite getBackupUserData_no_backup; [reflexivity|].
    unfold renewed. cbn [cache].
    rewrite GET_SET_EX_ne by apply userInfo_backup_key.
    rewrite Wq, Wt. unfold later. cbn [cache]. rewrite GET_elapse_DEL_eq. reflexivity. }
  assert (R : retrieveData q
              = clearSecret
                  (showToast
                     "Data tampered and backup missing: Please connect and save data again."
                     (on_server (renewed id s) q))).
  { unfold retrieveData. cbv zeta.
    rewrite (fetch_get_in_session id s _ q Sq Hq), G. reflexivity. }
  rewrite R. unfold clearSecret.
  rewrite getTokenAndSecret_delivered by apply Sq. cbv zeta.
  cbn [sys browser c_id c_secret shown c_data toasts].
  change (srv (sys (setSecret None (setId None (showToast ?m (on_server ?f q))))))
    with (f (srv (sys q))).
  change (toasts (setSecret None (setId None (showToast ?m (on_server ?f q)))))
    with (toasts q ++ [m])%list.
  rewrite Tq, T1, Wq, Wt. cbn [renewed later drawn].
  repeat split.
Qed.

End PageFailures.

(** ** The reference JSON meets the contract *)

Module RefJSONFacts.
Import RefJSON.

Lemma append_cons a s t : String a s +:+ t = String a (s +:+ t).
Proof. reflexivity. Qed.

Lemma append_nil t : "" +:+ t = t.
Proof. reflexivity. Qed.

Lemma append_assoc (a b c : string) : (a +:+ b) +:+ c = a +:+ (b +:+ c).
Proof. induction a as [|x a IH]; [reflexivity|]. rewrite !append_cons, IH. reflexivity. Qed.

(** One escaped character is read back as the character. *)
Lemma parse_chars_escape_char c tail :
  parse_chars (escape_char c +:+ tail)
  = prod_map (String c) Datatypes.id <$> parse_chars tail.
Proof.
  destruct c as [[] [] [] [] [] [] [] []]; reflexivity.
Qed.

Lemma parse_chars_escape s rest :
  parse_chars (escape s +:+ String dquote rest) = Some (s, rest).
Proof.
  induction s as [|c s IH].
  - reflexivity.
  - cbn [escape]. rewrite append_assoc, parse_chars_escape_char, IH. reflexivity.
Qed.

(** The text of a record of two strings, character by character. *)
Lemma stringify_record d h rest :
  stringify (JObject [("data", JString d); ("hmac", JString h)]) +:+ rest
  = String "{" (String dquote (String "d" (String "a" (String "t" (String "a"
      (String dquote (String ":" (String dquote
        (escape d +:+ String dquote
          (String "," (String dquote (String "h" (String "m" (String "a" (String "c"
            (String dquote (String ":" (String dquote
              (escape h +:+ String dquote (String "}" rest)))))))))))))))))))).
Proof.
  cbn [stringify omap list_omap snd fst join]. unfold quote.
  change (escape "data") with "data". change (escape "hmac") with "hmac".
  repeat first [rewrite append_assoc | rewrite append_cons | rewrite append_nil].
  reflexivity.
Qed.

Lemma parse_value_record fuel d h rest :
  parse_value (S (S (S (S fuel))))
    (stringify (JObject [("data", JString d); ("hmac", JString h)]) +:+ rest)
  = Some (JObject [("data", JString d); ("hmac", JString h)], rest).
Proof.
  rewrite stringify_record.
  cbn. rewrite parse_chars_escape. cbn. rewrite parse_chars_escape. cbn. reflexivity.
Qed.

Lemma append_empty_r s : s +:+ "" = s.
Proof. induction s as [|c s IH]; [reflexivity|]. rewrite append_cons, IH. reflexivity. Qed.

Lemma parse_record d h :
  parse (stringify (JObject [("data", JString d); ("hmac", JString h)]))
  = Value (JObject [("data", JString d); ("hmac", JString h)]).
Proof.
  unfold parse.
  set (text := stringify (JObject [("data", JString d); ("hmac", JString h)])).
  assert (L : exists n, String.length text = S (S (S n))).
  { pose proof (stringify_record d h "") as E. fold text in E.
    rewrite append_empty_r in E. rewrite E. cbn [String.length]. eauto. }
  destruct L as [n ->].
  rewrite <- (append_empty_r text). unfold text. rewrite parse_value_record. reflexivity.
Qed.

Lemma parse_empty : parse "" = Fails "Unexpected token or end of JSON input".
Proof. reflexivity. Qed.

End RefJSONFacts.

(** ** The reference libraries meet the contracts *)

Module ReferenceFacts.
Import Reference.

Lemma xor_ascii_involutive a k : xor_ascii (xor_ascii a k) k = a.
Proof.
  destruct a as [a0 a1 a2 a3 a4 a5 a6 a7], k as [k0 k1 k2 k3 k4 k5 k6 k7]. cbn [xor_ascii].
  rewrite !xorb_assoc, !xorb_nilpotent, !xorb_false_r. reflexivity.
Qed.

Lemma xor_stream_involutive k s : xor_stream k (xor_stream k s) = s.
Proof.
  induction s as [|c s IH]; [reflexivity|].
  cbn [xor_stream]. rewrite xor_ascii_involutive, IH. reflexivity.
Qed.

Lemma of_hex_byte c tail :
  of_hex (hex 2 (N_of_ascii c) +:+ tail) = String c <$> of_hex tail.
Proof. destruct c as [[] [] [] [] [] [] [] []]; reflexivity. Qed.

Lemma of_hex_to_hex s : of_hex (to_hex s) = Some s.
Proof.
  induction s as [|c s IH]; [reflexivity|].
  cbn [to_hex]. rewrite of_hex_byte, IH. reflexivity.
Qed.

Lemma decrypt_encrypt m key iv : decrypt (encrypt m key iv) key iv = Value m.
Proof.
  unfold decrypt, encrypt. rewrite of_hex_to_hex, xor_stream_involutive. reflexivity.
Qed.

End ReferenceFacts.

#[export] Instance reference_crypto : Library :=
  {| SHA256 := Reference.digest;
     HmacSHA256 := Reference.keyed_digest;
     AES_encrypt := Reference.encrypt;
     AES_encrypt_untyped := Reference.encrypt_untyped;
     AES_decrypt := Reference.decrypt;
     WordArray_random := Reference.random;
     AES_decrypt_encrypt := ReferenceFacts.decrypt_encrypt |}.

#[export] Instance reference_JSON : JSON :=
  {| JSON_parse := RefJSON.parse;
     JSON_stringify := RefJSON.stringify;
     JSON_parse_stringify := RefJSONFacts.parse_record;
     JSON_parse_empty := ex_intro _ _ RefJSONFacts.parse_empty |}.

#[export] Instance reference_uuid : Uuid := {| uuidv4 := Reference.uuid |}.

(** The process of the examples: its secret is the first random value. *)
#[export] Instance reference_process : ServerProcess :=
  {| serverSecret := Reference.random 0 |}.

(** ** A session to run the examples on *)

Module Example.

(** A server that has just started: nothing stored, the secret drawn. *)
Definition started : server := {| cache := {| now := 0; db := ∅ |}; drawn := 1 |}.

(** After [GET /connect]. *)
Definition connected : server := snd (connect started).
Definition id0 : string := uuidv4 1.
Definition secret0 : string := WordArray_random 2.

(** What the client sends to save [data]. *)
Definition save_request (data : string) : save_body :=
  let encryptedData := encryptData data id0 secret0 in
  {| body_data := encryptedData; body_hmac := generateHMAC encryptedData secret0 |}.

(** After the client has saved hello, and a minute has passed. *)
Definition saved_hello : server :=
  later 60 (snd (post_root (Some id0) (save_request "hello") connected)).

(** The store, with [key] overwritten from redis-cli. *)
Definition overwrite (key v : string) (w : server) : server :=
  {| cache := SET key v (cache w); drawn := drawn w |}.

(** The store, with [key] deleted from redis-cli. *)
Definition remove (key : string) (w : server) : server :=
  {| cache := DEL key (cache w); drawn := drawn w |}.

(** The tampering of the README: the payload cut short, under a tag that
    is not its own. *)
Definition README_tag : string :=
  "9e99f427cdbac60094c9baf7bd734273703a7bc521c2387bc4884938109e5a14".

Definition tampered_text : string :=
  JSON_stringify (JObject [("data", JString "hell"); ("hmac", JString README_tag)]).

Definition tampered : server := overwrite (userData_key id0) tampered_text saved_hello.

(** The same tampering after the client has saved the empty string. *)
Definition saved_empty : server :=
  later 60 (snd (post_root (Some id0) (save_request "") connected)).

Definition tampered_empty : server := overwrite (userData_key id0) tampered_text saved_empty.


End Example.


(** ** The reference tokens meet the contract *)

Module RefJWTFacts.
Import RefJWT.

Lemma text_pos_pos_text p tail : text_pos (pos_text p tail) = Some (p, tail).
Proof. induction p as [p IH|p IH|]; cbn [pos_text text_pos]; rewrite ?IH; reflexivity. Qed.

Lemma verify_sign id iat now :
  now < iat + 60 * 60 -> verify (sign id iat) now = Value (Some id).
Proof.
  intros Hnow. unfold verify, sign.
  rewrite text_pos_pos_text, ReferenceFacts.of_hex_to_hex, N.pos_pred_succ.
  apply N.ltb_lt in Hnow. rewrite Hnow. reflexivity.
Qed.

Lemma verify_expired id iat now :
  iat + 60 * 60 <= now -> exists message, verify (sign id iat) now = Fails message.
Proof.
  intros Hnow. unfold verify, sign.
  rewrite text_pos_pos_text, ReferenceFacts.of_hex_to_hex, N.pos_pred_succ.
  apply N.ltb_ge in Hnow. rewrite Hnow. eauto.
Qed.

(** No character of [s] is a semicolon or an equals sign. *)
Definition plain (s : string) : bool :=
  forallb (fun c => negb (Ascii.eqb c ";" || Ascii.eqb c "=")) (list_ascii_of_string s).

Lemma plain_append a b : plain (a +:+ b) = plain a && plain b.
Proof.
  unfold plain. induction a as [|c a IH]; [reflexivity|].
  change (String c a +:+ b) with (String c (a +:+ b)).
  cbn [list_ascii_of_string forallb]. rewrite IH, andb_assoc. reflexivity.
Qed.

Lemma plain_to_hex s : plain (Reference.to_hex s) = true.
Proof.
  induction s as [|c s IH]; [reflexivity|].
  cbn [Reference.to_hex]. rewrite plain_append, IH, andb_true_r.
  destruct c as [[] [] [] [] [] [] [] []]; vm_compute; reflexivity.
Qed.

Lemma plain_pos_text p tail : plain (pos_text p tail) = plain tail.
Proof. induction p as [p IH|p IH|]; cbn [pos_text]; unfold plain in *; cbn; auto. Qed.

Lemma sign_text id iat : sign id iat <> "" /\ plain (sign id iat) = true.
Proof.
  split.
  - unfold sign. destruct (N.succ_pos iat); discriminate.
  - unfold sign. rewrite plain_pos_text. apply plain_to_hex.
Qed.

End RefJWTFacts.

#[export] Instance reference_JWT : JWT :=
  {| jwt_sign := RefJWT.sign;
     jwt_verify := RefJWT.verify;
     jwt_verify_sign := RefJWTFacts.verify_sign;
     jwt_verify_expired := RefJWTFacts.verify_expired;
     jwt_sign_text := RefJWTFacts.sign_text |}.

(** ** The initialisation vector *)

Lemma length_slice0_le n s : (String.length (slice0 n s) <= n)%nat.
Proof.
  unfold slice0. revert s. induction n as [|n IH]; intros [|c s]; simpl; try lia.
  specialize (IH s). lia.
Qed.

(** How [parseInt] reads the pairs of characters of a UUID that hold a dash. *)
Example parseInt16_pairs :
  parseInt16 "11" = Some 17%Z /\ parseInt16 "-a" = Some (-10)%Z
  /\ parseInt16 "2-" = Some 2%Z /\ parseInt16 "zz" = None
  /\ shl32 (-10) 24 = (-167772160)%Z.
Proof. repeat split; reflexivity. Qed.

(** C7, what the code does.  The vector handed to the cipher is the
    hexadecimal decoding of the first 16 characters of the identity: it
    never has more than 8 significant bytes, and for the identity
    110ec58a-a0f2-4ac4-8393-c866d813b8d1 it is the 8 bytes
    11 0e c5 8a f6 0f 02 4a, not the 16 character codes of 110ec58a-a0f2-4a. *)
Theorem iv_of_hex_decodes_eight_bytes :
  (forall id, Qle_bool (sigBytes (iv_of id)) 8 = true)
  /\ sigBytes (iv_of "110ec58a-a0f2-4ac4-8393-c866d813b8d1") = 16 # 2
  /\ bytes_of 8 (words (iv_of "110ec58a-a0f2-4ac4-8393-c866d813b8d1"))
     = [17; 14; 197; 138; 246; 15; 2; 74]%Z
  /\ deriveNonce_spec "110ec58a-a0f2-4ac4-8393-c866d813b8d1"
     = [49; 49; 48; 101; 99; 53; 56; 97; 45; 97; 48; 102; 50; 45; 52; 97]%Z.
Proof.
  split; [|repeat split; reflexivity].
  intros id. unfold iv_of, Hex_parse. cbn [sigBytes]. apply Qle_bool_iff.
  unfold Qle. cbn [Qnum Qden]. pose proof (length_slice0_le 16 id). lia.
Qed.

(** ** The examples *)

Module Examples.
Import Example.

(** The session of the examples: identity, secret, and what is stored. *)
Example session :
  id0 = "3c6ef372-fe94-482b-8739-80c0b9db906a"
  /\ GET (userInfo_key id0) (cache saved_hello) = Some secret0
  /\ primary_record id0 (cache saved_hello)
     = Some (JString "hello", JString (fresh_tag id0 secret0 "hello"))
  /\ backup_record id0 (cache saved_hello) = Some "hello".
Proof. vm_compute. repeat split; reflexivity. Qed.

(** C1, on the session: the README's tampering is healed from the backup. *)
Lemma get_root_self_heals_witness :
  fst (get_root (Some id0) tampered)
    = Return {| status := 200;
                json := Success_data (encryptData "hello" id0 secret0)
                          (generateHMAC (encryptData "hello" id0 secret0) secret0);
                cookie := None |}
  /\ primary_record id0 (cache (snd (get_root (Some id0) tampered)))
     = Some (JString "hello", JString (fresh_tag id0 secret0 "hello")).
Proof.
  assert (Heals := get_root_self_heals id0 secret0 (encryptData "hell" id0 secret0) "hello"
                      (JString "hell") (JString README_tag) tampered).
  destruct Heals as (E & P & _).
  - reflexivity.
  - vm_compute. reflexivity.
  - reflexivity.
  - vm_compute. reflexivity.
  - reflexivity.
  - vm_compute. reflexivity.
  - vm_compute. reflexivity.
  - reflexivity.
  - rewrite E. split; [reflexivity | exact P].
Defined.

(** C1 as stated fails when the backup is present and empty: after a save
    of the empty string and the same tampering, the secret is live, the
    primary's tag does not match, the backup key holds the empty string,
    and the read answers that the backup is missing; nothing is healed. *)
Lemma get_root_empty_backup_counterexample :
  GET (userInfo_key id0) (cache tampered_empty) = Some secret0
  /\ primary_record id0 (cache tampered_empty) = Some (JString "hell", JString README_tag)
  /\ strict_neq_string (generateServerHMAC (encryptData "hell" id0 secret0)) (JString README_tag)
     = true
  /\ backup_record id0 (cache tampered_empty) = Some ""
  /\ get_root (Some id0) tampered_empty
     = (Return {| status := 400;
                  json := Failure_message
                    "Data tampered and backup missing, please connect and save data again.";
                  cookie := None |},
        renewed id0 secret0 tampered_empty).
Proof. vm_compute. repeat split; reflexivity. Qed.

(** C2, on the session: a save whose tag is wrong and whose ciphertext
    cannot be decrypted is answered 500 by the catch-all, not with the
    integrity failure. *)
Lemma post_root_decrypts_before_verifying_witness :
  decryptData "not a ciphertext" id0 secret0 = Throw (JsError "Error" "Malformed UTF-8 data")
  /\ String.eqb (generateHMAC "not a ciphertext" secret0) "00" = false
  /\ fst (post_root (Some id0) {| body_data := "not a ciphertext"; body_hmac := "00" |} connected)
     = Return {| status := 500;
                 json := Failure_error (JsError "Error" "Malformed UTF-8 data");
                 cookie := None |}.
Proof.
  split; [reflexivity|]. split; [vm_compute; reflexivity|].
  rewrite (post_root_decrypts_before_verifying id0 secret0 "not a ciphertext" "00" connected).
  - reflexivity.
  - reflexivity.
  - vm_compute. reflexivity.
  - reflexivity.
  - vm_compute. reflexivity.
Defined.

(** C4, on the session: the README's tampering with the backup deleted. *)
Lemma get_root_tampered_backup_missing_witness :
  fst (get_root (Some id0) (remove (backup_key id0) tampered))
  = Return {| status := 400;
              json := Failure_message
                "Data tampered and backup missing, please connect and save data again.";
              cookie := None |}.
Proof.
  rewrite (get_root_tampered_backup_missing id0 secret0 (encryptData "hell" id0 secret0)
             (JString "hell") (JString README_tag) (remove (backup_key id0) tampered)).
  - reflexivity.
  - reflexivity.
  - vm_compute. reflexivity.
  - reflexivity.
  - vm_compute. reflexivity.
  - reflexivity.
  - vm_compute. reflexivity.
  - vm_compute. reflexivity.
Defined.



(** C10, on the session: the primary overwritten with a text that is not
    JSON. *)
Lemma get_root_primary_not_JSON_witness :
  fst (get_root (Some id0) (overwrite (userData_key id0) "{data:hell}" saved_hello))
  = Return {| status := 503; json := Service_Unavailable; cookie := None |}.
Proof.
  refine (f_equal fst (proj2 (get_root_primary_not_JSON id0 secret0 "{data:hell}"
                    "Unexpected token or end of JSON input"
                    (overwrite (userData_key id0) "{data:hell}" saved_hello) _ _ _ _ _ _))).
  - reflexivity.
  - vm_compute. reflexivity.
  - reflexivity.
  - vm_compute. reflexivity.
  - reflexivity.
  - reflexivity.
Defined.

(** C10 as stated fails on the empty string: it is not JSON, yet
    [getUserData] returns null instead of throwing, and the read answers
    400 with the data-missing message. *)
Lemma get_root_primary_empty_counterexample :
  let w := overwrite (userData_key id0) "" saved_hello in
  JSON_parse "" = Fails "Unexpected token or end of JSON input"
  /\ GET (userData_key id0) (cache w) = Some ""
  /\ getUserData id0 (renewed id0 secret0 w) = (Return None, renewed id0 secret0 w)
  /\ get_root (Some id0) w
     = (Return {| status := 400;
                  json := Failure_message "Data missing, please save data again.";
                  cookie := None |},
        renewed id0 secret0 w).
Proof. vm_compute. repeat split; reflexivity. Qed.

End Examples.

(** ** The properties on the session of the examples *)

Module Sessions.
Import Example.

(** A second session on the server of the examples. *)
Definition connected_twice : server := snd (connect connected).
Definition id1 : string := uuidv4 3.

(** The cookies of a browser that holds the token of the first session. *)
Definition cookies0 : list (string * string) := [("theme", "dark"); ("token", jwt_sign id0 0)].

(** A page opened on the server of the examples, with hello typed in
    before the component has connected. *)
Definition typed_early : Browser.page :=
  Browser.type "hello" (Browser.opened started [] None).

(** The page of the examples: it mounts, and a minute later hello is typed
    in and saved. *)
Definition mounted : Browser.page := Browser.mount (Browser.opened started [] None).

Definition saved_page_hello : Browser.page :=
  Browser.saveData (Browser.type "hello" (Browser.wait 60 mounted)).

(** X1, on the session: hello is saved and read back a minute later. *)
Lemma save_then_read_witness :
  fst (post_root (Some id0) (honest_save id0 secret0 "hello") connected)
    = Return (respond 200 (Success_message "Data Saved"))
  /\ decryptData (encryptData "hello" id0 secret0) id0 secret0 = Return "hello"
  /\ fst (get_root (Some id0)
            (later 60 (snd (post_root (Some id0) (honest_save id0 secret0 "hello") connected))))
     = Return (respond 200 (Success_data (encryptData "hello" id0 secret0)
                 (generateHMAC (encryptData "hello" id0 secret0) secret0))).
Proof.
  destruct (save_then_read id0 secret0 "hello" connected) as (A & _ & _ & D & E).
  - reflexivity.
  - vm_compute. reflexivity.
  - reflexivity.
  - split; [exact A|]. split; [exact D|]. rewrite (E 60); [reflexivity|]. reflexivity.
Defined.

(** X2, on the session: 1000 seconds after the save the record is gone. *)
Lemma read_after_record_expiry_witness :
  fst (get_root (Some id0)
         (later 1000 (snd (post_root (Some id0) (honest_save id0 secret0 "hello") connected))))
  = Return (respond 400 (Failure_message "Data missing, please save data again.")).
Proof.
  destruct (read_after_record_expiry id0 secret0 "hello" 1000 connected) as (_ & _ & E).
  - reflexivity.
  - vm_compute. reflexivity.
  - reflexivity.
  - lia.
  - reflexivity.
  - rewrite E. reflexivity.
Defined.

(** X4, on the session: the read that heals the README's tampering leaves
    the backup record as it was. *)
Lemma get_root_changes_only_own_primary_witness :
  GET (backup_key id0) (cache (snd (get_root (Some id0) tampered)))
  = GET (backup_key id0) (cache tampered).
Proof.
  apply (get_root_changes_only_own_primary (Some id0) tampered (backup_key id0)).
  intros id _ E. exact (userData_backup_key _ _ (eq_sym E)).
Defined.

(** X5, on two sessions: a save in the first leaves the secret of the
    second where it was. *)
Lemma routes_leave_other_identities_witness :
  db (cache (snd (post_root (Some id0) (save_request "hello") connected_twice)))
    !! userInfo_key id1
  = db (cache connected_twice) !! userInfo_key id1.
Proof.
  destruct (routes_leave_other_identities id0 id1 (save_request "hello") connected_twice)
    as (_ & E & _).
  - apply String.eqb_neq. vm_compute. reflexivity.
  - exact E.
Defined.

(** X6, on the server of the examples: a second before the hour, and on
    the hour. *)
Lemma connect_session_lifetime_witness :
  fst (getUserInfo id0 (later 3599 connected))
    = Return (Some {| CacheManager.id := id0; secret := secret0 |})
  /\ app_get_root (Some (cookie_header [("token", jwt_sign id0 0)])) (later 3599 connected)
     = routed (get_root (Some id0) (later 3599 connected))
  /\ getUserInfo id0 (later 3600 connected) = (Return None, later 3600 connected)
  /\ app_get_root (Some (cookie_header [("token", jwt_sign id0 0)])) (later 3600 connected)
     = (Return (Unauthorized "User Not Authorized - Invalid or Expired Token"),
        later 3600 connected).
Proof.
  destruct (connect_session_lifetime started) as (_ & _ & _ & A & B).
  - reflexivity.
  - reflexivity.
  - destruct (A 3599 (save_request "hello")) as (A1 & A2 & _); [reflexivity|].
    destruct (B 3600 (save_request "hello")) as (B1 & B2 & _); [lia|].
    split; [exact A1|]. split; [exact A2|]. split; [exact B1 | exact B2].
Defined.

(** X7, on the session: three lookups 50 minutes apart. *)
Lemma lookups_slide_expiry_witness :
  GET (userInfo_key id0)
    (cache (lookups id0 [3000; 3000; 3000] (snd (getUserInfo id0 connected))))
  = Some secret0
  /\ now (cache (lookups id0 [3000; 3000; 3000] (snd (getUserInfo id0 connected)))) = 9000.
Proof.
  destruct (lookups_slide_expiry id0 secret0 [3000; 3000; 3000] connected) as (A & _ & B).
  - vm_compute. reflexivity.
  - reflexivity.
  - repeat constructor.
  - split; [exact A | exact B].
Defined.

(** X8, on the session. *)
Lemma putBackupUserData_then_promote_witness :
  backup_record id0
    (cache (snd (putBackupUserData {| ud_id := id0; data := "hello"; hmac := "" |} connected)))
  = Some "hello"
  /\ fst (getBackupUserData id0
            (snd (putBackupUserData {| ud_id := id0; data := "hello"; hmac := "" |} connected)))
     = Return (Some "hello").
Proof.
  destruct (putBackupUserData_then_promote id0 secret0 "hello" "" connected)
    as (_ & A & _ & _ & B & _).
  - vm_compute. reflexivity.
  - reflexivity.
  - reflexivity.
  - split; [exact A | exact B].
Defined.

(** X9, on a header of three cookies. *)
Lemma extractTokenFromCookie_header_witness :
  extractTokenFromCookie (Some "theme=dark; token=abc; lang=en") = JString "abc".
Proof.
  apply (extractTokenFromCookie_header [("theme", "dark"); ("token", "abc"); ("lang", "en")]).
  reflexivity.
Defined.

(** X11, on the session: the token gets through at once, and not an hour
    later. *)
Lemma session_token_accepted_for_an_hour_witness :
  app_get_root (Some (cookie_header cookies0)) connected = routed (get_root (Some id0) connected)
  /\ app_get_root (Some (cookie_header cookies0)) (later 3600 connected)
     = (Return (Unauthorized "User Not Authorized - Invalid or Expired Token"),
        later 3600 connected).
Proof.
  split.
  - destruct (session_token_accepted_for_an_hour cookies0 id0 0 (save_request "hello") connected)
      as (A & _).
    + vm_compute. reflexivity.
    + reflexivity.
    + reflexivity.
    + destruct A as (A & _); [reflexivity | exact A].
  - destruct (session_token_accepted_for_an_hour cookies0 id0 0 (save_request "hello")
                (later 3600 connected)) as (_ & B).
    + vm_compute. reflexivity.
    + reflexivity.
    + reflexivity.
    + destruct B as (B & _); [vm_compute; discriminate | exact B].
Defined.

(** X12, on the page of the examples: hello comes back two minutes after
    it was saved. *)
Lemma saved_data_comes_back_witness :
  Browser.toasts saved_page_hello
    = ["Connected successfully, secret retrieved."; "Data saved successfully."]
  /\ shown (Browser.retrieveData (Browser.type "" (Browser.wait 120 saved_page_hello))) = "hello".
Proof.
  destruct (saved_data_comes_back started None "hello" "" 60 120) as (A & _ & B & _).
  - reflexivity.
  - reflexivity.
  - reflexivity.
  - lia.
  - lia.
  - split; [exact A | exact B].
Defined.

(** X13, on the page of the examples: the README's tampering, half a
    minute after the save and half a minute before the retrieval. *)
Lemma tampered_record_heals_witness :
  shown
    (Browser.retrieveData
       (Browser.type ""
          (Browser.wait 30
             (meddle (SET (userData_key id0) (primary_text "hell" README_tag))
                (Browser.wait 30 saved_page_hello)))))
  = "hello".
Proof.
  destruct (tampered_record_heals started None "hello" "" "hell" README_tag 60 30 30)
    as (_ & A & _).
  - reflexivity.
  - reflexivity.
  - reflexivity.
  - lia.
  - lia.
  - apply String.eqb_neq. vm_compute. reflexivity.
  - exact A.
Defined.

(** X15, on a page where hello is typed in before the component has
    connected: the first click connects, the second saves. *)
Lemma save_without_session_reconnects_witness :
  Browser.toasts (Browser.saveData typed_early)
    = ["Connected successfully, secret retrieved."; "Error saving data."]
  /\ backup_record id0
       (cache (srv (Browser.sys (Browser.saveData (Browser.saveData typed_early)))))
     = Some "hello".
Proof.
  destruct (save_without_session_reconnects typed_early) as (_ & A & _ & _ & B).
  - reflexivity.
  - reflexivity.
  - reflexivity.
  - reflexivity.
  - reflexivity.
  - reflexivity.
  - split; [exact A | exact B].
Defined.

(** X16, on the page of the examples, an hour after it mounted. *)
Lemma expired_session_is_not_renewed_witness :
  Browser.saveData (Browser.type "hello" (Browser.wait 3600 mounted))
    = Browser.showToast "Error: Unexpected response from the server."
        (Browser.type "hello" (Browser.wait 3600 mounted))
  /\ Browser.retrieveData (Browser.type "hello" (Browser.wait 3600 mounted))
     = Browser.type "hello" (Browser.wait 3600 mounted).
Proof.
  destruct (expired_session_is_not_renewed started None "hello" 3600) as (_ & _ & A & B & _).
  - reflexivity.
  - reflexivity.
  - reflexivity.
  - lia.
  - split; [exact A | exact B].
Defined.

(** X17, on the server of the examples: with two requests lost the page
    connects two seconds late; with four lost it gives up. *)
Lemma getTokenAndSecret_retries_witness :
  c_id (browser (Browser.sys
          (Browser.wait 2
             (Browser.getTokenAndSecret 3 (Browser.opened started [false; false] None)))))
    = Some id0
  /\ Browser.wait 3
       (Browser.getTokenAndSecret 3
          (Browser.opened started [false; false; false; false; true] None))
     = Browser.showToast "Error connecting to API after multiple attempts."
         (delayed 3 [true] (Browser.opened started [false; false; false; false; true] None)).
Proof.
  split.
  - destruct (getTokenAndSecret_retries 3 2 [] (Browser.opened started [false; false] None))
      as (_ & A & _); [reflexivity|].
    destruct A as (_ & A & _); [reflexivity | lia | exact A].
  - destruct (getTokenAndSecret_retries 3 0 [true]
                (Browser.opened started [false; false; false; false; true] None))
      as (_ & _ & A); [reflexivity|].
    apply A. reflexivity.
Defined.

(** X18, on the page of the examples: a quarter of an hour after the save
    the retrieval says nothing. *)
Lemma expired_record_is_silent_witness :
  fst (Browser.fetch_get (Browser.type "x" (Browser.wait 900 saved_page_hello)))
    = Some (Routed (respond 400 (Failure_message "Data missing, please save data again.")))
  /\ shown (Browser.retrieveData (Browser.type "x" (Browser.wait 900 saved_page_hello))) = "x"
  /\ Browser.toasts (Browser.retrieveData (Browser.type "x" (Browser.wait 900 saved_page_hello)))
     = Browser.toasts saved_page_hello.
Proof.
  destruct (expired_record_is_silent started None "hello" "x" 60 900) as (A & _ & B & C).
  - reflexivity.
  - reflexivity.
  - reflexivity.
  - lia.
  - lia.
  - split; [exact (f_equal fst A)|]. split; [exact B | exact C].
Defined.

(** X19, on the page of the examples: the README's tampering with the
    backup deleted. *)
Lemma tampering_without_backup_starts_over_witness :
  c_id (browser (Browser.sys
          (Browser.retrieveData
             (Browser.type "x"
                (Browser.wait 30
                   (meddle (fun r => DEL (backup_key id0)
                                       (SET (userData_key id0) (primary_text "hell" README_tag) r))
                      (Browser.wait 30 saved_page_hello)))))))
  = Some id1.
Proof.
  destruct (tampering_without_backup_starts_over
              started None "hello" "x" "hell" README_tag 60 30 30) as (A & _).
  - reflexivity.
  - reflexivity.
  - reflexivity.
  - lia.
  - apply String.eqb_neq. vm_compute. reflexivity.
  - exact A.
Defined.

End Sessions.
